(** * Staffing optimisation engine: cost model, staffing search, segment forecaster

    A shallow embedding of [src/forecast_model.py] (classes [StaffingConfig],
    [AdvancedForecaster], [CostOptimizer]) and of the settings object of
    [config/settings.py], with the properties of the specification stated
    and settled against it.

    Numbers.  Python [int] is [Z].  Python [float] is read as an exact
    rational ([Q], compared with [==]): no rounding and no overflow.
    [float('inf')] is the extra constructor [Inf] of [pyfloat].  Module
    [Binary64] transcribes the capacity computation a second time over
    IEEE-754 doubles, for the one property whose answer rounding changes.

    Errors.  A Python exception is the [Raise] branch of [outcome]; the
    fallible programs are written in that monad with the [x ← m; k]
    notation.

    Containers.  The constant dictionary of productivities and the model
    registry [self.models] are [gmap]s; the dictionary that is iterated with
    [.items()] is an association list in insertion order; data frames are
    lists of rows in index order.

    Libraries.  [RandomForestRegressor] (fitting, importances, prediction)
    is a parameter of the forecaster; the pandas operations used by
    [prepare_features] and [train_models] are written out on lists. *)

From Stdlib Require Import ZArith QArith Qround Qminmax Lia Lqa.
From Stdlib Require Import PrimFloat Uint63.
From stdpp Require Import gmap strings list.

Set Warnings "-inexact-float,-clear-no-such-hyp".
Local Open Scope Z_scope.

(* ===================================================================== *)
(** ** Python numerics *)
(* ===================================================================== *)

(** [int(x)] on a float: truncation toward zero. *)
Definition py_int (x : Q) : Z := Z.quot (Qnum x) (Z.pos (Qden x)).

(** [a < b] on floats, as a boolean. *)
Definition Qltb (a b : Q) : bool := if Qlt_le_dec a b then true else false.

(** [a >= b] on floats, as a boolean. *)
Definition Qgeb (a b : Q) : bool := Qle_bool b a.

(** The builtin [min(a, b)]: the first argument unless the second is
    strictly smaller. *)
Definition py_min (a b : Q) : Q := if Qltb b a then b else a.

(** A float that may be [float('inf')]. *)
Inductive pyfloat : Type :=
  | Finite (q : Q)
  | Inf.

(** [x < c] for a finite [x] and a possibly infinite [c]. *)
Definition lt_pyfloat (x : Q) (c : pyfloat) : bool :=
  match c with
  | Inf => true
  | Finite b => Qltb x b
  end.

(* ===================================================================== *)
(** ** Exceptions *)
(* ===================================================================== *)

Inductive exn : Type :=
  | IndexError   (* list index out of range *)
  | TypeError.   (* 'NoneType' object is not subscriptable *)

Inductive outcome (A : Type) : Type :=
  | Ok (a : A)
  | Raise (e : exn).
Arguments Ok {A} a.
Arguments Raise {A} e.

#[global] Instance outcome_ret : MRet outcome := fun A a => Ok a.
#[global] Instance outcome_bind : MBind outcome := fun A B f m =>
  match m with
  | Ok a => f a
  | Raise e => Raise e
  end.

(** A [for] loop over a list of values, threading the loop state and
    stopping at the first exception. *)
Fixpoint for_each {S X : Type} (body : S -> X -> outcome S)
    (xs : list X) (st : S) : outcome S :=
  match xs with
  | [] => Ok st
  | x :: xs' => st' ← body st x; for_each body xs' st'
  end.

(** [range(lo, hi)]. *)
Definition py_range (lo hi : Z) : list Z := seqZ lo (hi - lo).

(** [l[i]] for a non-negative index. *)
Definition list_index {A : Type} (l : list A) (i : Z) : outcome A :=
  match l !! Z.to_nat i with
  | Some a => Ok a
  | None => Raise IndexError
  end.

(* ===================================================================== *)
(** ** Calendar dates *)
(* ===================================================================== *)

(** A date is its proleptic Gregorian ordinal ([date.toordinal()], day 1 is
    Monday 0001-01-01); [weekday()] is Monday = 0 ... Sunday = 6. *)
Record date : Type := { toordinal : Z }.

Definition weekday (d : date) : Z := (toordinal d + 6) mod 7.

(* ===================================================================== *)
(** ** 1. Configuration *)
(* ===================================================================== *)

Record StaffingConfig : Type := {
  REGULAR_RATE : Q;
  OVERTIME_RATE : Q;
  TEMP_RATE : Q;
  MIN_STAFF_PER_SHIFT : Z;
  MAX_STAFF_PER_SHIFT : Z;
  BREAK_COVERAGE_FACTOR : Q;
  TARGET_SERVICE_LEVEL : Q;
  UNDERSTAFFING_PENALTY : Z;
  SKILL_REQUIREMENTS : list (string * Q);
  ABSENTEEISM_RATES : list Q
}.

(** The class attributes of [StaffingConfig]. *)
Definition default_config : StaffingConfig := {|
  REGULAR_RATE := 18.50;
  OVERTIME_RATE := 27.75;
  TEMP_RATE := 22.00;
  MIN_STAFF_PER_SHIFT := 2;
  MAX_STAFF_PER_SHIFT := 25;
  BREAK_COVERAGE_FACTOR := 0.2;
  TARGET_SERVICE_LEVEL := 0.98;
  UNDERSTAFFING_PENALTY := 150;
  SKILL_REQUIREMENTS :=
    [ ("forklift_certified"%string, 0.30%Q);
      ("hazmat_trained"%string, 0.15%Q);
      ("team_leads"%string, 0.10%Q);
      ("experienced"%string, 0.60%Q) ];
  ABSENTEEISM_RATES := [0.08; 0.06; 0.07; 0.09; 0.12; 0.15; 0.18]%Q
|}.

(* ===================================================================== *)
(** ** 4. Cost optimisation engine *)
(* ===================================================================== *)

Record CostBreakdown : Type := {
  total_cost : Q;
  regular_cost : Q;
  overtime_cost : Q;
  understaffing_cost : Q;
  skills_penalty : Z;
  overtime_hours : Q;
  service_level : Q;
  capacity_utilization : Q
}.

(** The local dictionary [productivity_rates] of [calculate_total_cost]. *)
Definition productivity_rates : gmap string Z :=
  <["E-commerce"%string := 18]> (<["B2B"%string := 22]> (<["Express"%string := 12]> ∅)).

(** [CostOptimizer.calculate_skills_penalty]. *)
Definition calculate_skills_penalty (config : StaffingConfig) (staff_count : Z) : Z :=
  fold_left
    (fun penalty (item : string * Q) =>
       let required_pct := snd item in
       let required_count := Z.max 1 (py_int (inject_Z staff_count * required_pct)) in
       let available_count := Z.max 1 (py_int (inject_Z staff_count * 0.6)) in
       if available_count <? required_count
       then let shortage := required_count - available_count in
            penalty + shortage * 50
       else penalty)
    (SKILL_REQUIREMENTS config) 0.

(** [CostOptimizer.calculate_total_cost]. *)
Definition calculate_total_cost (config : StaffingConfig) (staff_count : Z)
    (forecast_volume : Q) (order_type : string) (d : date) (shift : string)
    : outcome CostBreakdown :=
  let base_productivity := inject_Z (default 18 (productivity_rates !! order_type)) in
  let day_of_week := weekday d in
  absenteeism_rate ← list_index (ABSENTEEISM_RATES config) day_of_week;
  let effective_staff := (inject_Z staff_count * (1 - absenteeism_rate))%Q in
  let productive_staff := (effective_staff * (1 - BREAK_COVERAGE_FACTOR config))%Q in
  let total_capacity := (productive_staff * base_productivity)%Q in
  let regular_hours := staff_count * 8 in
  let regular_cost := (inject_Z regular_hours * REGULAR_RATE config)%Q in
  let '(overtime_hours, overtime_cost) :=
    if Qltb total_capacity forecast_volume
    then let shortage := (forecast_volume - total_capacity)%Q in
         let overtime_hours :=
           py_min (inject_Z (staff_count * 4)) (shortage / base_productivity) in
         (overtime_hours, (overtime_hours * OVERTIME_RATE config)%Q)
    else (0%Q, 0%Q) in
  let final_capacity := (total_capacity + overtime_hours * base_productivity)%Q in
  let understaffing_cost :=
    if Qltb final_capacity forecast_volume
    then let missed_orders := (forecast_volume - final_capacity)%Q in
         (missed_orders * inject_Z (UNDERSTAFFING_PENALTY config))%Q
    else 0%Q in
  let skills_penalty := calculate_skills_penalty config staff_count in
  let total_cost :=
    (regular_cost + overtime_cost + understaffing_cost + inject_Z skills_penalty)%Q in
  mret {|
    total_cost := total_cost;
    regular_cost := regular_cost;
    overtime_cost := overtime_cost;
    understaffing_cost := understaffing_cost;
    skills_penalty := skills_penalty;
    overtime_hours := overtime_hours;
    service_level :=
      if Qltb 0 forecast_volume
      then py_min 1 (final_capacity / forecast_volume) else 1%Q;
    capacity_utilization :=
      if Qltb 0 final_capacity
      then (forecast_volume / final_capacity)%Q else 0%Q
  |}.

(** One row of the forecast table. *)
Record ForecastRecord : Type := {
  Date : date;
  Shift : string;
  OrderType : string;
  ForecastVolume : Z;
  LowerBound : Z;
  UpperBound : Z;
  Uncertainty : Q
}.

(** The dictionary returned by [optimize_shift_staffing]: its five
    capitalised keys followed by the entries of [best_metrics]. *)
Record OptimizationResult : Type := {
  OptimalStaff : Z;
  TotalCost : pyfloat;
  ServiceLevel : Q;
  OvertimeHours : Q;
  CapacityUtilization : Q;
  metrics : CostBreakdown
}.

(** The three loop variables of the search. *)
Record search_state : Type := {
  best_staff : Z;
  best_cost : pyfloat;
  best_metrics : option CostBreakdown
}.

(** Body of the first loop: only candidates meeting the target compete. *)
Definition feasible_step (config : StaffingConfig) (row : ForecastRecord)
    (st : search_state) (staff_count : Z) : outcome search_state :=
  let optimization_volume := inject_Z (UpperBound row) in
  cost_metrics ← calculate_total_cost config staff_count optimization_volume
                   (OrderType row) (Date row) (Shift row);
  if Qgeb (service_level cost_metrics) (TARGET_SERVICE_LEVEL config)
  then if lt_pyfloat (total_cost cost_metrics) (best_cost st)
       then mret {| best_staff := staff_count;
                    best_cost := Finite (total_cost cost_metrics);
                    best_metrics := Some cost_metrics |}
       else mret st
  else mret st.

(** Body of the second loop: every candidate competes. *)
Definition fallback_step (config : StaffingConfig) (row : ForecastRecord)
    (st : search_state) (staff_count : Z) : outcome search_state :=
  let optimization_volume := inject_Z (UpperBound row) in
  cost_metrics ← calculate_total_cost config staff_count optimization_volume
                   (OrderType row) (Date row) (Shift row);
  if lt_pyfloat (total_cost cost_metrics) (best_cost st)
  then mret {| best_staff := staff_count;
               best_cost := Finite (total_cost cost_metrics);
               best_metrics := Some cost_metrics |}
  else mret st.

(** [CostOptimizer.optimize_shift_staffing]. *)
Definition optimize_shift_staffing (config : StaffingConfig) (row : ForecastRecord)
    : outcome OptimizationResult :=
  let staff_range :=
    py_range (MIN_STAFF_PER_SHIFT config) (MAX_STAFF_PER_SHIFT config + 1) in
  let st0 := {| best_staff := MIN_STAFF_PER_SHIFT config;
                best_cost := Inf;
                best_metrics := None |} in
  st1 ← for_each (feasible_step config row) staff_range st0;
  st2 ← match best_metrics st1 with
        | None => for_each (fallback_step config row) staff_range st1
        | Some _ => mret st1
        end;
  match best_metrics st2 with
  | None => Raise TypeError
  | Some m =>
      mret {| OptimalStaff := best_staff st2;
              TotalCost := best_cost st2;
              ServiceLevel := service_level m;
              OvertimeHours := overtime_hours m;
              CapacityUtilization := capacity_utilization m;
              metrics := m |}
  end.

(** Base productivity as [calculate_total_cost] computes it. *)
Definition base_productivity_of (order_type : string) : Z :=
  default 18 (productivity_rates !! order_type).

(** The configuration lists an absenteeism rate for the weekday of [d]. *)
Definition rate_defined (config : StaffingConfig) (d : date) : Prop :=
  is_Some (ABSENTEEISM_RATES config !! Z.to_nat (weekday d)).

(* ===================================================================== *)
(** ** The cost model as the specification words it (section 4.1) *)
(* ===================================================================== *)

(** Steps 2-4: staff after absenteeism and breaks, times base productivity. *)
Definition spec_base_capacity (config : StaffingConfig) (absenteeism_rate : Q)
    (staff_count : Z) (order_type : string) : Q :=
  (inject_Z staff_count * (1 - absenteeism_rate)
   * (1 - BREAK_COVERAGE_FACTOR config)
   * inject_Z (base_productivity_of order_type))%Q.

(** Step 6: overtime hours, capped at four hours per person. *)
Definition spec_overtime_hours (config : StaffingConfig) (absenteeism_rate : Q)
    (staff_count : Z) (forecast_volume : Q) (order_type : string) : Q :=
  let base_capacity := spec_base_capacity config absenteeism_rate staff_count order_type in
  if Qlt_le_dec base_capacity forecast_volume
  then Qmin (inject_Z staff_count * 4)
            ((forecast_volume - base_capacity) / inject_Z (base_productivity_of order_type))
  else 0%Q.

(** Step 7: capacity once overtime is added. *)
Definition spec_final_capacity (config : StaffingConfig) (absenteeism_rate : Q)
    (staff_count : Z) (forecast_volume : Q) (order_type : string) : Q :=
  (spec_base_capacity config absenteeism_rate staff_count order_type
   + spec_overtime_hours config absenteeism_rate staff_count forecast_volume order_type
     * inject_Z (base_productivity_of order_type))%Q.

(** Unfolds one call of the cost model whose weekday rate is known. *)
Ltac unfold_cost Ha :=
  unfold calculate_total_cost, list_index;
  rewrite ?Ha; cbn [mbind outcome_bind mret outcome_ret];
  fold (base_productivity_of).


(* ===================================================================== *)
(** ** Vocabulary for the properties of the search *)
(* ===================================================================== *)

(** The cost evaluation the search performs for one candidate: the cost
    model at the record's [UpperBound]. *)
Definition evaluate_candidate (config : StaffingConfig) (row : ForecastRecord)
    (staff_count : Z) : outcome CostBreakdown :=
  calculate_total_cost config staff_count (inject_Z (UpperBound row))
    (OrderType row) (Date row) (Shift row).

(** The test of the first loop, [service_level >= TARGET_SERVICE_LEVEL]. *)
Definition meets_target (config : StaffingConfig) (m : CostBreakdown) : bool :=
  Qgeb (service_level m) (TARGET_SERVICE_LEVEL config).

(** The candidates scanned, in scan order. *)
Definition staff_range (config : StaffingConfig) : list Z :=
  py_range (MIN_STAFF_PER_SHIFT config) (MAX_STAFF_PER_SHIFT config + 1).

(** Loop invariant shared by the two scans.  [keep] is the admission test
    of the loop, [cm] the breakdown of each candidate, [seen] the
    candidates already visited.  Either nothing admissible has been seen
    and the state is the initial one, or the incumbent is an admissible
    candidate that is strictly cheaper than every admissible candidate
    visited before it and at most as expensive as those visited after. *)
Definition scan_invariant (keep : CostBreakdown -> bool) (cm : Z -> CostBreakdown)
    (init_staff : Z) (seen : list Z) (st : search_state) : Prop :=
  match best_metrics st with
  | None =>
      best_cost st = Inf /\ best_staff st = init_staff /\
      forall s, s ∈ seen -> keep (cm s) = false
  | Some m =>
      exists pre post,
        seen = pre ++ best_staff st :: post /\
        m = cm (best_staff st) /\
        keep m = true /\
        best_cost st = Finite (total_cost m) /\
        (forall s, s ∈ pre -> keep (cm s) = true ->
                   (total_cost m < total_cost (cm s))%Q) /\
        (forall s, s ∈ post -> keep (cm s) = true ->
                   (total_cost m <= total_cost (cm s))%Q)
  end.

(* ===================================================================== *)
(** ** 3. Advanced forecasting engine *)
(* ===================================================================== *)

(** One row of the historical table.  Only the columns that training
    reads are kept; none of them is ever missing in a row. *)
Record HistoricalObservation : Type := {
  obs_Date : date;
  obs_Shift : string;
  obs_OrderType : string;
  OrderVolume : Z;
  SeasonalFactor : Q
}.

(** The grouping key [['Shift', 'OrderType']]. *)
Definition segment : Type := string * string.

Definition segment_of (r : HistoricalObservation) : segment :=
  (obs_Shift r, obs_OrderType r).

(** A row of the feature table.  The calendar and seasonal columns are
    functions of the date and are always defined; the two derived volume
    columns may be NaN, written [None]. *)
Record FeatureRow : Type := {
  observation : HistoricalObservation;
  Volume_Lag7 : option Q;
  Volume_MA7 : option Q
}.

(** Order of the group keys: tuples of strings, compared lexicographically
    by code point. *)
Definition segment_compare (k1 k2 : segment) : comparison :=
  match String.compare (fst k1) (fst k2) with
  | Eq => String.compare (snd k1) (snd k2)
  | c => c
  end.

Fixpoint insert_key (k : segment) (ks : list segment) : list segment :=
  match ks with
  | [] => [k]
  | k' :: ks' =>
      match segment_compare k k' with
      | Lt => k :: ks
      | Eq => ks
      | Gt => k' :: insert_key k ks'
      end
  end.

(** The keys of [groupby], sorted and without repetition. *)
Definition group_keys {A : Type} (key : A -> segment) (rows : list A) : list segment :=
  foldr insert_key [] (key <$> rows).

(** The rows of one group, in table order. *)
Definition group_rows {A : Type} (key : A -> segment) (k : segment) (rows : list A)
    : list A :=
  filter (fun r => key r = k) rows.

(** [groupby(...)['OrderVolume'].shift(7)] at row [i]: the volume seven rows
    earlier in the same group, aligned on the row's own index. *)
Definition shift7 (df : list HistoricalObservation) (i : nat)
    (r : HistoricalObservation) : option Q :=
  let earlier := group_rows segment_of (segment_of r) (take i df) in
  (fun r' => inject_Z (OrderVolume r')) <$> (reverse earlier !! 6%nat).

Definition sum_Z (l : list Z) : Z := foldr Z.add 0 l.

(** [rolling(7).mean()] over the volumes of one group: undefined until the
    window holds seven values. *)
Definition rolling7_mean (volumes : list Z) : list (option Q) :=
  imap (fun j _ =>
          if (6 <=? j)%nat
          then Some (inject_Z (sum_Z (take 7 (drop (j - 6) volumes))) / 7)%Q
          else None)
       volumes.

(** [groupby(...)['OrderVolume'].rolling(7).mean().values]: the rolling means
    of the groups laid end to end in key order, the index dropped. *)
Definition rolling7_values (df : list HistoricalObservation) : list (option Q) :=
  concat ((fun k => rolling7_mean (OrderVolume <$> group_rows segment_of k df))
            <$> group_keys segment_of df).

(** [AdvancedForecaster.prepare_features].  The array of rolling means is
    assigned to the column by position. *)
Definition prepare_features (df : list HistoricalObservation) : list FeatureRow :=
  let ma7 := rolling7_values df in
  imap (fun i r =>
          {| observation := r;
             Volume_Lag7 := shift7 df i r;
             Volume_MA7 := mjoin (ma7 !! i) |})
       df.

(** [DataFrame.dropna()]. *)
Definition dropna (df : list FeatureRow) : list FeatureRow :=
  filter (fun fr => is_Some (Volume_Lag7 fr) /\ is_Some (Volume_MA7 fr)) df.

Definition feature_cols : list string :=
  ["DayOfWeek"; "Week"; "Month"; "IsWeekend"; "Volume_Lag7"; "Volume_MA7";
   "SeasonalSin"; "SeasonalCos"; "SeasonalFactor"]%string.

(** The rows of a segment that survive [dropna]: the group that
    [df_clean.groupby] hands to the training loop. *)
Definition usable_rows (historical_data : list HistoricalObservation)
    (k : segment) : list FeatureRow :=
  group_rows (segment_of ∘ observation) k (dropna (prepare_features historical_data)).

Section Forecaster.

(** The regression library: a fitted [RandomForestRegressor], its
    training, its importance vector, and its prediction for the feature
    vector that [forecast_demand] builds from a date. *)
Variable Model : Type.
Variable fit : list FeatureRow -> Model.
Variable feature_importances_ : Model -> list Q.
Variable predict : Model -> date -> Q.

Record AdvancedForecaster : Type := {
  models : gmap segment Model;
  feature_importance : gmap segment (list (string * Q))
}.

(** [AdvancedForecaster.__init__]. *)
Definition AdvancedForecaster_init : AdvancedForecaster :=
  {| models := ∅; feature_importance := ∅ |}.

(** Body of the training loop for one group. *)
Definition train_group (df_clean : list FeatureRow) (self : AdvancedForecaster)
    (k : segment) : AdvancedForecaster :=
  let group := group_rows (segment_of ∘ observation) k df_clean in
  if (length group <? 20)%nat
  then self
  else
    let model := fit group in
    let importance := zip feature_cols (feature_importances_ model) in
    {| models := <[k := model]> (models self);
       feature_importance := <[k := importance]> (feature_importance self) |}.

(** [AdvancedForecaster.train_models]. *)
Definition train_models (self : AdvancedForecaster)
    (historical_data : list HistoricalObservation) : AdvancedForecaster :=
  let df_features := prepare_features historical_data in
  let df_clean := dropna df_features in
  foldl (train_group df_clean) self
        (group_keys (segment_of ∘ observation) df_clean).

(** [AdvancedForecaster.forecast_demand]. *)
Definition forecast_demand (self : AdvancedForecaster) (forecast_dates : list date)
    (shifts order_types : list string) : list ForecastRecord :=
  d ← forecast_dates;
  shift ← shifts;
  order_type ← order_types;
  match models self !! (shift, order_type) with
  | Some model =>
      let prediction := predict model d in
      let uncertainty := (prediction * 0.15)%Q in
      [ {| Date := d;
           Shift := shift;
           OrderType := order_type;
           ForecastVolume := Z.max 0 (py_int prediction);
           LowerBound := Z.max 0 (py_int (prediction - uncertainty));
           UpperBound := Z.max 0 (py_int (prediction + uncertainty));
           Uncertainty := uncertainty |} ]
  | None => []
  end.

End Forecaster.

Arguments models {Model} _.
Arguments feature_importance {Model} _.
Arguments AdvancedForecaster_init {Model}.
Arguments train_group {Model} fit feature_importances_ df_clean self k.
Arguments train_models {Model} fit feature_importances_ self historical_data.
Arguments forecast_demand {Model} predict self forecast_dates shifts order_types.

(* ===================================================================== *)
(** ** Building a configuration *)
(* ===================================================================== *)

(** [StaffingConfig()]: the class declares neither [__init__] nor any
    check; a fresh instance reads the class attributes. *)
Definition StaffingConfig_init : outcome StaffingConfig := Ok default_config.

(** Overriding the staff bounds of a configuration (attribute assignment
    or an overriding subclass): nothing intercepts it. *)
Definition set_staff_bounds (lo hi : Z) (config : StaffingConfig)
    : outcome StaffingConfig :=
  Ok {| REGULAR_RATE := REGULAR_RATE config;
        OVERTIME_RATE := OVERTIME_RATE config;
        TEMP_RATE := TEMP_RATE config;
        MIN_STAFF_PER_SHIFT := lo;
        MAX_STAFF_PER_SHIFT := hi;
        BREAK_COVERAGE_FACTOR := BREAK_COVERAGE_FACTOR config;
        TARGET_SERVICE_LEVEL := TARGET_SERVICE_LEVEL config;
        UNDERSTAFFING_PENALTY := UNDERSTAFFING_PENALTY config;
        SKILL_REQUIREMENTS := SKILL_REQUIREMENTS config;
        ABSENTEEISM_RATES := ABSENTEEISM_RATES config |}.

(** Overriding the three hourly rates, likewise. *)
Definition set_rates (regular overtime temp : Q) (config : StaffingConfig)
    : outcome StaffingConfig :=
  Ok {| REGULAR_RATE := regular;
        OVERTIME_RATE := overtime;
        TEMP_RATE := temp;
        MIN_STAFF_PER_SHIFT := MIN_STAFF_PER_SHIFT config;
        MAX_STAFF_PER_SHIFT := MAX_STAFF_PER_SHIFT config;
        BREAK_COVERAGE_FACTOR := BREAK_COVERAGE_FACTOR config;
        TARGET_SERVICE_LEVEL := TARGET_SERVICE_LEVEL config;
        UNDERSTAFFING_PENALTY := UNDERSTAFFING_PENALTY config;
        SKILL_REQUIREMENTS := SKILL_REQUIREMENTS config;
        ABSENTEEISM_RATES := ABSENTEEISM_RATES config |}.

(** The business and operational fields of [config.settings.StaffingSettings]. *)
Record StaffingSettings : Type := {
  min_training_data_points : Z;
  regular_hourly_rate : Q;
  overtime_multiplier : Q;
  temp_worker_rate : Q;
  target_service_level : Q;
  understaffing_penalty : Q;
  min_staff_per_shift : Z;
  max_staff_per_shift : Z;
  break_coverage_factor : Q
}.

(** Keyword arguments (or environment variables) given to the constructor;
    [None] leaves the declared default. *)
Record settings_kwargs : Type := {
  kw_min_training_data_points : option Z;
  kw_regular_hourly_rate : option Q;
  kw_overtime_multiplier : option Q;
  kw_temp_worker_rate : option Q;
  kw_target_service_level : option Q;
  kw_understaffing_penalty : option Q;
  kw_min_staff_per_shift : option Z;
  kw_max_staff_per_shift : option Z;
  kw_break_coverage_factor : option Q
}.

(** The constructor [StaffingSettings] called with keyword arguments: the fields are declared with a type and a
    default only, no constraint and no validator, so every well-typed value
    is stored as given. *)
Definition StaffingSettings_init (kw : settings_kwargs) : outcome StaffingSettings :=
  Ok {| min_training_data_points := default 20 (kw_min_training_data_points kw);
        regular_hourly_rate := default 18.50%Q (kw_regular_hourly_rate kw);
        overtime_multiplier := default 1.5%Q (kw_overtime_multiplier kw);
        temp_worker_rate := default 22.00%Q (kw_temp_worker_rate kw);
        target_service_level := default 0.98%Q (kw_target_service_level kw);
        understaffing_penalty := default 150.0%Q (kw_understaffing_penalty kw);
        min_staff_per_shift := default 2 (kw_min_staff_per_shift kw);
        max_staff_per_shift := default 25 (kw_max_staff_per_shift kw);
        break_coverage_factor := default 0.2%Q (kw_break_coverage_factor kw) |}.

(* ===================================================================== *)
(** ** The capacity computation over IEEE-754 doubles *)
(* ===================================================================== *)

Module Binary64.

Local Open Scope float_scope.

(** [float(n)] for a Python integer that fits 63 bits (exact below 2^53). *)
Definition of_int (z : Z) : float :=
  match z with
  | Z0 => 0
  | Zpos _ => PrimFloat.of_uint63 (Uint63.of_Z z)
  | Zneg p => - PrimFloat.of_uint63 (Uint63.of_Z (Zpos p))
  end.

(** The builtin [min(a, b)] on doubles. *)
Definition float_min (a b : float) : float := if b <? a then b else a.

(** The two configuration entries the capacity computation reads, with the
    class attributes of [StaffingConfig] as doubles. *)
Record CapacityConfig : Type := {
  break_coverage_factor : float;
  absenteeism_rates : list float
}.

Definition default_capacity_config : CapacityConfig := {|
  break_coverage_factor := 0.2;
  absenteeism_rates := [0.08; 0.06; 0.07; 0.09; 0.12; 0.15; 0.18]
|}.

(** The quantities on the way to the ['service_level'] entry. *)
Record Capacity : Type := {
  total_capacity : float;
  overtime_hours : float;
  final_capacity : float;
  service_level : float
}.

(** The statements of [calculate_total_cost] that produce the
    ['service_level'] entry (productivity lookup, absenteeism and break
    shrink, capacity, overtime hours, final capacity, service level), each
    arithmetic operation rounded to the nearest double as Python does.
    Integers are converted where Python converts them; the volume is an
    integer as in a forecast row. *)
Definition calculate_capacity (config : CapacityConfig) (staff_count : Z)
    (forecast_volume : Z) (order_type : string) (d : date) : outcome Capacity :=
  let base_productivity := of_int (default 18%Z (productivity_rates !! order_type)) in
  let day_of_week := weekday d in
  absenteeism_rate ← list_index (absenteeism_rates config) day_of_week;
  let effective_staff := of_int staff_count * (1 - absenteeism_rate) in
  let productive_staff := effective_staff * (1 - break_coverage_factor config) in
  let total_capacity := productive_staff * base_productivity in
  let overtime_hours :=
    if total_capacity <? of_int forecast_volume
    then let shortage := of_int forecast_volume - total_capacity in
         float_min (of_int (staff_count * 4)) (shortage / base_productivity)
    else 0 in
  let final_capacity := total_capacity + overtime_hours * base_productivity in
  mret {| total_capacity := total_capacity;
          overtime_hours := overtime_hours;
          final_capacity := final_capacity;
          service_level :=
            if 0 <? of_int forecast_volume
            then float_min 1 (final_capacity / of_int forecast_volume)
            else 1 |}.

End Binary64.

(* ===================================================================== *)
(** ** Vocabulary for the properties of the forecaster *)
(* ===================================================================== *)

(** The (date, shift, order type) combinations a forecast request asks
    for, in the order of the three nested loops. *)
Definition requested_slots (forecast_dates : list date)
    (shifts order_types : list string) : list (date * string * string) :=
  d ← forecast_dates; shift ← shifts; order_type ← order_types;
  [ (d, shift, order_type) ].

(** The combination a forecast record answers. *)
Definition slot_of (r : ForecastRecord) : date * string * string :=
  (Date r, Shift r, OrderType r).

(* ===================================================================== *)
(** ** 2. Enhanced data simulation *)
(* ===================================================================== *)

(** The builtin [max(a, b)] on floats: the first argument unless the
    second is strictly larger. *)
Definition py_max (a b : Q) : Q := if Qltb a b then b else a.

(** [pd.date_range(start, end)]: the days from [start] to [end], both
    included; empty when [end] precedes [start]. *)
Definition date_range (start_date end_date : date) : list date :=
  (fun o => {| toordinal := o |})
  <$> seqZ (toordinal start_date) (toordinal end_date - toordinal start_date + 1).

(** A [for] loop that appends rows while it threads a state (here the
    state of the random generator). *)
Fixpoint for_rows {G X Y : Type} (body : X -> G -> list Y * G)
    (xs : list X) (g : G) : list Y * G :=
  match xs with
  | [] => ([], g)
  | x :: xs' =>
      let '(ys, g1) := body x g in
      let '(zs, g2) := for_rows body xs' g1 in
      (ys ++ zs, g2)
  end.

Module Synth.

(** One row of the generated table, with the columns of the source. *)
Record Row : Type := {
  Date : date;
  Shift : string;
  OrderType : string;
  OrderVolume : Z;
  StaffScheduled : Z;
  TotalPicks : Z;
  Productivity : Q;
  CapacityUtilization : Q;
  OvertimeHours : Q;
  SeasonalFactor : Q;
  IsWeekend : bool;
  IsHolidayWeek : bool;
  Staff_forklift_certified : Z;
  Staff_hazmat_trained : Z;
  Staff_team_leads : Z;
  Staff_experienced : Z
}.

Definition shifts : list string := ["Morning"; "Evening"; "Night"]%string.
Definition order_types : list string := ["E-commerce"; "B2B"; "Express"]%string.

Definition shift_multipliers : gmap string Q :=
  <["Morning"%string := 1.2%Q]> (<["Evening"%string := 1.0%Q]>
    (<["Night"%string := 0.6%Q]> ∅)).
Definition base_volumes : gmap string Z :=
  <["E-commerce"%string := 180]> (<["B2B"%string := 120]>
    (<["Express"%string := 45]> ∅)).
Definition target_productivities : gmap string Z :=
  <["E-commerce"%string := 18]> (<["B2B"%string := 22]>
    (<["Express"%string := 12]> ∅)).

Section Generator.

(** The random generator of numpy: its state, seeding, and the three
    draws the simulation makes.  The calendar week and the sine of the
    seasonal angle come from the libraries as well. *)
Variable rng : Type.
Variable seed : Z -> rng.
Variable poisson : Q -> rng -> Z * rng.
Variable randint : Z -> Z -> rng -> Z * rng.
Variable normal : Q -> Q -> rng -> Q * rng.
Variable isocalendar_week : date -> Z.
Variable sin_seasonal : Z -> Q.   (* np.sin(2 * np.pi * week / 52) *)

(** Body of the innermost loop: one row.  The dictionaries are indexed by
    the loop variables, which are always keys. *)
Definition generate_row (d : date) (shift order_type : string) (g : rng)
    : list Row * rng :=
  let day_of_week := weekday d in
  let is_weekend := 5 <=? day_of_week in
  let week_of_year := isocalendar_week d in
  let seasonal_factor := (1.0 + 0.3 * sin_seasonal week_of_year)%Q in
  let is_holiday_week := bool_decide (week_of_year ∈ [1; 13; 26; 47; 52]) in
  let holiday_factor := if is_holiday_week then 0.7%Q else 1.0%Q in
  let shift_factor := default 0%Q (shift_multipliers !! shift) in
  let weekend_factor :=
    if is_weekend && negb (String.eqb shift "Night") then 0.4%Q else 1.0%Q in
  let base_volume := default 0 (base_volumes !! order_type) in
  let adjusted_volume :=
    (inject_Z base_volume * seasonal_factor * holiday_factor * shift_factor
     * weekend_factor)%Q in
  let '(drawn_volume, g1) := poisson adjusted_volume g in
  let order_volume := Z.max 0 drawn_volume in
  let target_productivity := default 0 (target_productivities !! order_type) in
  let optimal_staff :=
    Z.max 2 (Qceiling (inject_Z order_volume / inject_Z target_productivity)) in
  let '(noise, g2) := randint (-2) 3 g1 in
  let actual_staff := optimal_staff + noise in
  let actual_staff := Z.max 2 (Z.min 20 actual_staff) in
  let '(productivity, g3) := normal (inject_Z target_productivity) 2.5 g2 in
  let productivity := py_max 8 productivity in
  let total_picks := py_int (inject_Z actual_staff * productivity) in
  let capacity_utilization :=
    if 0 <? total_picks
    then py_min 1.0 (inject_Z order_volume / inject_Z total_picks) else 0%Q in
  let standard_hours := 8 in
  let overtime_hours :=
    py_max 0 ((capacity_utilization - 0.95) * inject_Z standard_hours
              * inject_Z actual_staff) in
  ([ {| Date := d;
        Shift := shift;
        OrderType := order_type;
        OrderVolume := order_volume;
        StaffScheduled := actual_staff;
        TotalPicks := total_picks;
        Productivity := productivity;
        CapacityUtilization := capacity_utilization;
        OvertimeHours := overtime_hours;
        SeasonalFactor := seasonal_factor;
        IsWeekend := is_weekend;
        IsHolidayWeek := is_holiday_week;
        Staff_forklift_certified := Z.max 1 (py_int (inject_Z actual_staff * 0.4));
        Staff_hazmat_trained := Z.max 1 (py_int (inject_Z actual_staff * 0.2));
        Staff_team_leads := Z.max 1 (py_int (inject_Z actual_staff * 0.15));
        Staff_experienced := Z.max 1 (py_int (inject_Z actual_staff * 0.7)) |} ],
   g3).

(** [generate_enhanced_historical_data]: the three nested loops after
    [np.random.seed(42)]. *)
Definition generate_enhanced_historical_data (start_date end_date : date)
    : list Row :=
  let dates := date_range start_date end_date in
  fst (for_rows
         (fun d =>
            for_rows
              (fun shift =>
                 for_rows (fun order_type => generate_row d shift order_type)
                          order_types)
              shifts)
         dates (seed 42)).

End Generator.

(** The columns that training reads from a generated row. *)
Definition to_observation (r : Row) : HistoricalObservation :=
  Build_HistoricalObservation
    (Date r) (Shift r) (OrderType r) (OrderVolume r) (SeasonalFactor r).

End Synth.

(* ===================================================================== *)
(** ** 5. The optimisation loop of the main run and of the API *)
(* ===================================================================== *)

(** The loop [for _, row in forecast_df.iterrows()] of
    [run_enhanced_staffing_system] (the [/api/v1/optimize] handler runs the
    same loop on the rows of a request): each row is optimised and kept
    beside its result, in row order; the first exception ends the loop. *)
Definition optimize_rows (config : StaffingConfig) (rows : list ForecastRecord)
    : outcome (list (ForecastRecord * OptimizationResult)) :=
  for_each
    (fun optimized_results row =>
       optimization_result ← optimize_shift_staffing config row;
       mret (optimized_results ++ [(row, optimization_result)]))
    rows [].

(** [a + b] on floats that may be infinite. *)
Definition pyfloat_add (a b : pyfloat) : pyfloat :=
  match a, b with
  | Finite x, Finite y => Finite (x + y)
  | _, _ => Inf
  end.

(* ===================================================================== *)
(** ** The HTTP handlers of [api/main.py] *)
(* ===================================================================== *)

Module Api.

(** What can be raised inside a handler's [try] block. *)
Inductive error : Type :=
  | EngineError (e : exn)          (* raised by the optimiser *)
  | AttributeError                 (* [.weekday()] on a value that is no date *)
  | KeyError                       (* a missing data-frame column *)
  | ValueError                     (* an unparseable date *)
  | NotSerializable                (* the [TypeError] of [json.dumps] *)
  | Http (status_code : Z).        (* an [HTTPException] raised by the handler *)

Inductive attempt (A : Type) : Type :=
  | Done (a : A)
  | Failed (e : error).
Arguments Done {A} a.
Arguments Failed {A} e.

(** What the client receives: a response body or an error status. *)
Inductive http_result (A : Type) : Type :=
  | Respond (a : A)
  | HTTPException (status_code : Z).
Arguments Respond {A} a.
Arguments HTTPException {A} status_code.

(** [except Exception as e: raise HTTPException(status_code=500, ...)]:
    every exception of the [try] block, an [HTTPException] included,
    leaves the handler as a 500. *)
Definition except_500 {A : Type} (body : attempt A) : http_result A :=
  match body with
  | Done a => Respond a
  | Failed _ => HTTPException 500
  end.

(** The values a JSON request body is parsed into. *)
#[warnings="-register-all"]
Inductive json : Type :=
  | JNull
  | JBool (b : bool)
  | JNumber (q : Q)
  | JString (s : string)
  | JArray (items : list json)
  | JObject (members : list (string * json)).

(** A value of a request dictionary ([Dict[str, Any]]): what the JSON
    body of an HTTP request delivers, or a date object ([datetime],
    [date], [Timestamp]) handed over by a Python caller. *)
Inductive request_value : Type :=
  | JsonValue (j : json)
  | DateValue (d : date).

(** One dictionary of [forecast_data].  Only ['Date'] is left open; the
    other entries are taken to be present and of the type the optimiser
    computes with (a missing or ill-typed one raises inside the [try]
    block as well). *)
Record RequestRow : Type := {
  Date : request_value;
  Shift : string;
  OrderType : string;
  ForecastVolume : Z;
  LowerBound : Z;
  UpperBound : Z;
  Uncertainty : Q
}.

(** [optimizer.optimize_shift_staffing(row)] on a request row.  The
    search hands ['Date'] to [calculate_total_cost], whose second
    statement is [date.weekday()]: a JSON value has no such method and the
    first candidate raises [AttributeError]; with an empty staff range no
    candidate is evaluated and the lookup in [best_metrics] fails as for
    any row. *)
Definition optimize_request_row (config : StaffingConfig) (row : RequestRow)
    : attempt OptimizationResult :=
  match Date row with
  | DateValue d =>
      match optimize_shift_staffing config
              (Build_ForecastRecord d (Shift row) (OrderType row)
                 (ForecastVolume row) (LowerBound row) (UpperBound row)
                 (Uncertainty row)) with
      | Ok result => Done result
      | Raise e => Failed (EngineError e)
      end
  | JsonValue _ =>
      if MAX_STAFF_PER_SHIFT config <? MIN_STAFF_PER_SHIFT config
      then Failed (EngineError TypeError)
      else Failed AttributeError
  end.

(** The loop [for _, row in forecast_df.iterrows()] of the handler, with
    its two accumulators. *)
Fixpoint optimize_request_rows (config : StaffingConfig) (rows : list RequestRow)
    (optimization_results : list (RequestRow * OptimizationResult))
    (total_cost : pyfloat)
    : attempt (list (RequestRow * OptimizationResult) * pyfloat) :=
  match rows with
  | [] => Done (optimization_results, total_cost)
  | row :: rows' =>
      match optimize_request_row config row with
      | Failed e => Failed e
      | Done result =>
          optimize_request_rows config rows'
            (optimization_results ++ [(row, result)])
            (pyfloat_add total_cost (TotalCost result))
      end
  end.

(** [json.dumps] writes the JSON values and raises [TypeError] on a date
    object. *)
Definition json_serializable (v : request_value) : bool :=
  match v with
  | JsonValue _ => true
  | DateValue _ => false
  end.

(** [audit_logger.log_optimization_run]: the request ([request.dict()])
    and the three result figures go through [json.dumps].  The figures are
    floats; of the request only the ['Date'] entries can be date
    objects. *)
Definition log_optimization_run (forecast_data : list RequestRow) : attempt unit :=
  if forallb (fun row => json_serializable (Date row)) forecast_data
  then Done tt
  else Failed NotSerializable.

Record OptimizationResponse : Type := {
  total_cost : pyfloat;
  weekly_savings : Q;
  service_level : Q;
  optimization_results : list (RequestRow * OptimizationResult)
}.

Definition sum_Q (l : list Q) : Q := foldr Qplus 0%Q l.

(** The [try] block of [optimize_staffing].  The optional [constraints]
    of the request are only handed to the audit log and are left out. *)
Definition optimize_staffing_body (optimizer : option StaffingConfig)
    (forecast_data : list RequestRow) : attempt OptimizationResponse :=
  match optimizer with
  | None => Failed (Http 503)
  | Some config =>
      match optimize_request_rows config forecast_data [] (Finite 0) with
      | Failed e => Failed e
      | Done (optimization_results, total_cost) =>
          match optimization_results with
          | [] => Failed KeyError      (* optimized_df['ServiceLevel'] *)
          | _ :: _ =>
              let avg_service_level :=
                (sum_Q ((fun result => ServiceLevel result.2) <$> optimization_results)
                 / inject_Z (Z.of_nat (length optimization_results)))%Q in
              let baseline_cost :=
                (inject_Z (Z.of_nat (length optimization_results)) * 10 * 8 * 18.50)%Q in
              let weekly_savings :=
                match total_cost with
                | Finite t => py_max 0 (baseline_cost - t)
                | Inf => 0%Q
                end in
              match log_optimization_run forecast_data with
              | Failed e => Failed e
              | Done _ =>
                  Done {| total_cost := total_cost;
                          weekly_savings := weekly_savings;
                          service_level := avg_service_level;
                          optimization_results := optimization_results |}
              end
          end
      end
  end.

(** [POST /api/v1/optimize]. *)
Definition optimize_staffing (optimizer : option StaffingConfig)
    (forecast_data : list RequestRow) : http_result OptimizationResponse :=
  except_500 (optimize_staffing_body optimizer forecast_data).

Record ForecastRequest : Type := {
  start_date : string;
  end_date : string;
  shifts : list string;
  order_types : list string
}.

Section Handlers.

Variable Model : Type.
Variable predict : Model -> date -> Q.
(** [pd.to_datetime] on a request string; [None] when it raises. *)
Variable to_datetime : string -> option date.

(** The two module-level globals. *)
Record app_state : Type := {
  forecaster : option (AdvancedForecaster Model);
  optimizer : option StaffingConfig
}.

(** The state at import time: both globals are [None]. *)
Definition initial_state : app_state :=
  {| forecaster := None; optimizer := None |}.

(** [initialize_models]: a new, untrained forecaster and an optimiser on
    the default configuration. *)
Definition initialize_models (st : app_state) : app_state :=
  {| forecaster := Some AdvancedForecaster_init;
     optimizer := Some default_config |}.

(** [GET /health/ready]. *)
Definition readiness_check (st : app_state) : http_result unit :=
  match forecaster st, optimizer st with
  | Some _, Some _ => Respond tt
  | _, _ => HTTPException 503
  end.

(** The [try] block of [generate_forecast]. *)
Definition generate_forecast_body (st : app_state) (request : ForecastRequest)
    : attempt (list ForecastRecord) :=
  match forecaster st with
  | None => Failed (Http 503)
  | Some f =>
      match to_datetime (start_date request), to_datetime (end_date request) with
      | Some start_date, Some end_date =>
          let forecast_dates := date_range start_date end_date in
          Done (forecast_demand predict f forecast_dates
                  (shifts request) (order_types request))
      | _, _ => Failed ValueError
      end
  end.

(** [POST /api/v1/forecast]. *)
Definition generate_forecast (st : app_state) (request : ForecastRequest)
    : http_result (list ForecastRecord) :=
  except_500 (generate_forecast_body st request).

End Handlers.

Arguments forecaster {Model} _.
Arguments optimizer {Model} _.
Arguments initial_state {Model}.
Arguments initialize_models {Model} st.
Arguments readiness_check {Model} st.
Arguments generate_forecast {Model} predict to_datetime st request.

End Api.

(* ===================================================================== *)
(** ** The mock key-value store of the test suite *)
(* ===================================================================== *)

Module MockRedis.

Section Store.

(** Stored values; Python's [None] is a value like any other and is
    written [None], so the dictionary holds [option V]. *)
Variable V : Type.

(** [self.data]. *)
Definition store : Type := gmap string (option V).

(** [MockRedis()]. *)
Definition init : store := ∅.

(** [get]: [self.data.get(key)]. *)
Definition get (data : store) (key : string) : option V :=
  default None (data !! key).

(** [set]: stores the value, ignores the expiry, returns [True]. *)
Definition set (data : store) (key : string) (value : option V) (ex : option Z)
    : bool * store :=
  (true, <[key := value]> data).

(** [delete]: [self.data.pop(key, None) is not None]. *)
Definition delete (data : store) (key : string) : bool * store :=
  (bool_decide (is_Some (default None (data !! key))), base.delete key data).

(** [exists]: [key in self.data]. *)
Definition exists_ (data : store) (key : string) : bool :=
  bool_decide (is_Some (data !! key)).

End Store.

Arguments init {V}.
Arguments get {V} data key.
Arguments set {V} data key value ex.
Arguments delete {V} data key.
Arguments exists_ {V} data key.

End MockRedis.

(* ===================================================================== *)
(** ** Usable rows as the specification words them (section 4.3) *)
(* ===================================================================== *)

(** The specification derives "a 7-period lag of order volume and a
    7-period trailing moving average per segment" and excludes the "rows
    with undefined lag/average (the first 7 periods per segment)".  The
    two features of the row at position [j] of its own segment, from the
    volumes of that segment: *)
Definition spec_lag7 (volumes : list Z) (j : nat) : option Q :=
  if (7 <=? j)%nat then inject_Z <$> volumes !! (j - 7)%nat else None.

Definition spec_ma7 (volumes : list Z) (j : nat) : option Q :=
  if (6 <=? j)%nat
  then Some (inject_Z (sum_Z (take 7 (drop (j - 6) volumes))) / 7)%Q
  else None.

(** The usable rows of a segment: its rows, in table order, on which both
    features are defined. *)
Definition spec_usable_rows (historical_data : list HistoricalObservation)
    (k : segment) : list HistoricalObservation :=
  let rows := group_rows segment_of k historical_data in
  let volumes := OrderVolume <$> rows in
  snd <$> filter (fun p : nat * HistoricalObservation =>
                    is_Some (spec_lag7 volumes p.1) /\ is_Some (spec_ma7 volumes p.1))
                 (imap (fun j r => (j, r)) rows).

(** The table is ordered segment by segment: it is its (shift, order
    type) groups laid end to end in key order, as a table sorted by shift
    and order type is. *)
Definition ordered_by_segment (historical_data : list HistoricalObservation) : Prop :=
  concat ((fun k => group_rows segment_of k historical_data)
            <$> group_keys segment_of historical_data)
  = historical_data.

(* ===================================================================== *)
(** ** Sample inputs *)
(* ===================================================================== *)

Definition thursday : date := {| toordinal := 738917 |}.   (* 2024-02-01 *)

Definition monday : date := {| toordinal := 738886 |}.     (* 2024-01-01 *)

(** A Thursday morning e-commerce slot forecast at 150 orders, upper bound
    172: three people with overtime cover it. *)
Definition row_feasible : ForecastRecord := {|
  Date := thursday; Shift := "Morning"; OrderType := "E-commerce";
  ForecastVolume := 150; LowerBound := 127; UpperBound := 172;
  Uncertainty := 22.5 |}.

(** The same slot with an upper bound no crew of at most 25 can cover. *)
Definition row_infeasible : ForecastRecord := {|
  Date := thursday; Shift := "Morning"; OrderType := "E-commerce";
  ForecastVolume := 4000; LowerBound := 3400; UpperBound := 4600;
  Uncertainty := 600 |}.

(** [n] consecutive days of one segment (morning, B2B), one row per day. *)
Definition one_segment_history (n : nat) : list HistoricalObservation :=
  (fun i : nat =>
     {| obs_Date := {| toordinal := 738886 + Z.of_nat i |};
        obs_Shift := "Morning"; obs_OrderType := "B2B";
        OrderVolume := 100 + Z.of_nat i; SeasonalFactor := 1 |})
  <$> seq 0 n.

(** [n] consecutive days of two segments, date by date as the generator
    lays them out. *)
Definition two_segment_history (n : nat) : list HistoricalObservation :=
  i ← seq 0 n;
  [ {| obs_Date := {| toordinal := 738886 + Z.of_nat i |};
       obs_Shift := "Morning"; obs_OrderType := "B2B";
       OrderVolume := 100 + Z.of_nat i; SeasonalFactor := 1 |};
    {| obs_Date := {| toordinal := 738886 + Z.of_nat i |};
       obs_Shift := "Morning"; obs_OrderType := "Express";
       OrderVolume := 40 + Z.of_nat i; SeasonalFactor := 1 |} ].

(** [n] consecutive days of the same two segments, segment by segment. *)
Definition segment_ordered_history (n : nat) : list HistoricalObservation :=
  one_segment_history n
  ++ ((fun i : nat =>
         {| obs_Date := {| toordinal := 738886 + Z.of_nat i |};
            obs_Shift := "Morning"; obs_OrderType := "Express";
            OrderVolume := 40 + Z.of_nat i; SeasonalFactor := 1 |})
      <$> seq 0 n).

(** A stand-in regression library: the model of a group remembers how many
    rows it was fitted on and predicts a fixed volume. *)
Definition count_fit (group : list FeatureRow) : nat := length group.
Definition no_importances (model : nat) : list Q := [].


(** A forecaster holding one fitted model that predicts 100.9 orders. *)
Definition constant_predict (model : Q) (d : date) : Q := model.
Definition one_model_forecaster : AdvancedForecaster Q :=
  {| models := {[ ("Morning"%string, "B2B"%string) := 100.9%Q ]};
     feature_importance := ∅ |}.

(** The record [forecast_demand] emits for a prediction of 100.9. *)
Definition sample_forecast_record : ForecastRecord := {|
  Date := thursday; Shift := "Morning"; OrderType := "B2B";
  ForecastVolume := 100; LowerBound := 85; UpperBound := 116;
  Uncertainty := 15.135 |}.

(** Keyword arguments with inverted staff bounds and a negative rate. *)
Definition bad_kwargs : settings_kwargs := {|
  kw_min_training_data_points := None;
  kw_regular_hourly_rate := Some (-1)%Q;
  kw_overtime_multiplier := Some 0%Q;
  kw_temp_worker_rate := None;
  kw_target_service_level := None;
  kw_understaffing_penalty := None;
  kw_min_staff_per_shift := Some 5;
  kw_max_staff_per_shift := Some 3;
  kw_break_coverage_factor := None |}.

(** A stand-in random generator: the state counts the draws; a Poisson
    draw returns the floor of its mean, an integer draw cycles through its
    range, a normal draw returns its mean.  Weeks are counted from Monday
    2024-01-01 and the seasonal sine is flat. *)
Definition demo_seed (s : Z) : Z := s.
Definition demo_poisson (lam : Q) (g : Z) : Z * Z := (Qfloor lam, g + 1).
Definition demo_randint (lo hi : Z) (g : Z) : Z * Z := (lo + g mod (hi - lo), g + 1).
Definition demo_normal (mu sigma : Q) (g : Z) : Q * Z := (mu, g + 1).
Definition demo_week (d : date) : Z := (toordinal d - 738886) / 7 + 1.
Definition demo_sin (week : Z) : Q := 0.

Definition demo_history (start_date end_date : date) : list Synth.Row :=
  Synth.generate_enhanced_historical_data Z demo_seed demo_poisson demo_randint
    demo_normal demo_week demo_sin start_date end_date.

(** The first row generated for the week of Monday 2024-01-01. *)
Definition demo_first_row : Synth.Row :=
  Eval vm_compute in
    match demo_history monday {| toordinal := 738892 |} with
    | r :: _ => r
    | [] => Synth.Build_Row monday "" "" 0 0 0 0 0 0 0 false false 0 0 0 0
    end.
(* ===================================================================== *)
(** ** Facts about the numeric helpers *)
(* ===================================================================== *)

Lemma Qltb_true a b : Qltb a b = true <-> (a < b)%Q.
Proof.
  unfold Qltb. destruct (Qlt_le_dec a b) as [H|H]; split; intros; try done.
  exfalso. apply (Qlt_not_le _ _ H0). exact H.
Qed.

Lemma Qltb_false a b : Qltb a b = false <-> (b <= a)%Q.
Proof.
  unfold Qltb. destruct (Qlt_le_dec a b) as [H|H]; split; intros; try done.
  exfalso. apply (Qlt_not_le _ _ H). exact H0.
Qed.

Lemma Qgeb_true a b : Qgeb a b = true <-> (b <= a)%Q.
Proof. unfold Qgeb. apply Qle_bool_iff. Qed.

Lemma py_min_Qmin a b : py_min a b == Qmin a b.
Proof.
  unfold py_min. destruct (Qltb b a) eqn:E.
  - apply Qltb_true in E. symmetry. apply Q.min_r. apply Qlt_le_weak, E.
  - apply Qltb_false in E. symmetry. apply Q.min_l. exact E.
Qed.

Lemma py_min_le_l a b : (py_min a b <= a)%Q.
Proof. rewrite py_min_Qmin. apply Q.le_min_l. Qed.

Lemma py_min_le_r a b : (py_min a b <= b)%Q.
Proof. rewrite py_min_Qmin. apply Q.le_min_r. Qed.

(** On non-negative floats [int] is the floor. *)
Lemma py_int_nonneg_floor x : (0 <= x)%Q -> py_int x = Qfloor x.
Proof.
  destruct x as [n d]. unfold Qle, py_int, Qfloor. simpl. intros H.
  apply Z.quot_div_nonneg; lia.
Qed.

(** On non-positive floats [int] is the ceiling. *)
Lemma py_int_nonpos_ceiling x : (x <= 0)%Q -> py_int x = Qceiling x.
Proof.
  destruct x as [n d]. unfold Qle, py_int, Qceiling, Qfloor. simpl. intros H.
  assert (Hn : n <= 0) by lia.
  replace n with (- - n) at 1 by lia.
  rewrite Z.quot_opp_l by lia.
  f_equal. apply Z.quot_div_nonneg; lia.
Qed.

Lemma py_int_sign_nonneg x : (0 <= x)%Q -> 0 <= py_int x.
Proof.
  intros H. rewrite py_int_nonneg_floor by done.
  change 0 with (Qfloor 0). apply Qfloor_resp_le, H.
Qed.

Lemma py_int_sign_nonpos x : (x <= 0)%Q -> py_int x <= 0.
Proof.
  intros H. rewrite py_int_nonpos_ceiling by done.
  change 0 with (Qceiling 0). apply Qceiling_resp_le, H.
Qed.

(** [int] is monotone on the whole line. *)
Lemma py_int_mono x y : (x <= y)%Q -> py_int x <= py_int y.
Proof.
  intros Hxy.
  destruct (Qlt_le_dec x 0) as [Hx|Hx]; destruct (Qlt_le_dec y 0) as [Hy|Hy].
  - rewrite !py_int_nonpos_ceiling by (apply Qlt_le_weak; done).
    apply Qceiling_resp_le, Hxy.
  - transitivity 0.
    + apply py_int_sign_nonpos, Qlt_le_weak, Hx.
    + apply py_int_sign_nonneg, Hy.
  - exfalso. apply (Qlt_not_le _ _ Hy). eapply Qle_trans; [exact Hx|exact Hxy].
  - rewrite !py_int_nonneg_floor by done. apply Qfloor_resp_le, Hxy.
Qed.

Lemma inject_Z_nonneg z : 0 <= z -> (0 <= inject_Z z)%Q.
Proof. intros H. change 0%Q with (inject_Z 0). rewrite <- Zle_Qle. exact H. Qed.

Lemma inject_Z_pos z : 0 < z -> (0 < inject_Z z)%Q.
Proof. intros H. change 0%Q with (inject_Z 0). rewrite <- Zlt_Qlt. exact H. Qed.

(* ===================================================================== *)
(** ** Facts about the productivity table and the absenteeism lookup *)
(* ===================================================================== *)

Lemma weekday_range d : 0 <= weekday d < 7.
Proof. unfold weekday. apply Z.mod_pos_bound. lia. Qed.

Lemma base_productivity_cases ot :
  base_productivity_of ot = 18 \/ base_productivity_of ot = 22 \/
  base_productivity_of ot = 12.
Proof.
  unfold base_productivity_of, productivity_rates.
  rewrite !lookup_insert. repeat case_decide; simpl; auto.
Qed.

Lemma base_productivity_pos ot : 0 < base_productivity_of ot.
Proof. destruct (base_productivity_cases ot) as [->|[->| ->]]; lia. Qed.

Lemma rate_defined_seven config d :
  (7 <= length (ABSENTEEISM_RATES config))%nat -> rate_defined config d.
Proof.
  intros H. apply lookup_lt_is_Some. pose proof (weekday_range d). lia.
Qed.

Lemma rate_defined_default d : rate_defined default_config d.
Proof. apply rate_defined_seven. simpl. lia. Qed.

Lemma calculate_total_cost_returns config s fv ot d sh :
  rate_defined config d -> exists cb, calculate_total_cost config s fv ot d sh = Ok cb.
Proof.
  intros [a Ha]. unfold calculate_total_cost, list_index. rewrite Ha. simpl.
  destruct (Qltb _ fv); simpl; eexists; reflexivity.
Qed.

Lemma calculate_total_cost_raises config s fv ot d sh :
  ~ rate_defined config d -> calculate_total_cost config s fv ot d sh = Raise IndexError.
Proof.
  intros H. unfold calculate_total_cost, list_index.
  destruct (ABSENTEEISM_RATES config !! Z.to_nat (weekday d)) eqn:E; [|done].
  exfalso. apply H. by exists q.
Qed.

(* ===================================================================== *)
(** ** Skills penalty *)
(* ===================================================================== *)

Lemma skills_penalty_step_zero (s : Z) (pct : Q) :
  0 <= s -> (pct <= 0.6)%Q ->
  (Z.max 1 (py_int (inject_Z s * 0.6)) <? Z.max 1 (py_int (inject_Z s * pct))) = false.
Proof.
  intros Hs Hp. apply Z.ltb_ge.
  apply Z.max_le_compat_l, py_int_mono.
  rewrite !(Qmult_comm (inject_Z s)).
  apply Qmult_le_compat_r; [exact Hp | apply inject_Z_nonneg, Hs].
Qed.

(** With every required fraction at most the assumed 60% availability, no
    skill is ever short. *)
Lemma calculate_skills_penalty_zero config s :
  0 <= s ->
  Forall (fun item : string * Q => (snd item <= 0.6)%Q) (SKILL_REQUIREMENTS config) ->
  calculate_skills_penalty config s = 0.
Proof.
  intros Hs. unfold calculate_skills_penalty.
  generalize (SKILL_REQUIREMENTS config). intros l Hl.
  induction Hl as [|item l Hitem _ IH]; [reflexivity|].
  cbn [fold_left]. cbv zeta.
  rewrite skills_penalty_step_zero by done. exact IH.
Qed.

Lemma default_skill_fractions :
  Forall (fun item : string * Q => (snd item <= 0.6)%Q) (SKILL_REQUIREMENTS default_config).
Proof. repeat constructor; simpl; unfold Qle; simpl; lia. Qed.

(** C10. Under the default configuration (required fractions 0.30, 0.15,
    0.10, 0.60 against the fixed 60% availability heuristic)
    [calculate_skills_penalty] returns 0 for every staff count of at least
    one, and so the [skills_penalty] entry of every cost breakdown the cost
    model produces for such a staff count is 0. *)
Theorem skills_penalty_always_zero (staff_count : Z) :
  1 <= staff_count ->
  calculate_skills_penalty default_config staff_count = 0 /\
  forall fv ot d sh, exists cb,
    calculate_total_cost default_config staff_count fv ot d sh = Ok cb /\
    skills_penalty cb = 0.
Proof.
  intros Hs.
  assert (H0 : calculate_skills_penalty default_config staff_count = 0).
  { apply calculate_skills_penalty_zero; [lia | apply default_skill_fractions]. }
  split; [exact H0|].
  intros fv ot d sh.
  destruct (rate_defined_default d) as [a Ha].
  unfold_cost Ha.
  destruct (Qltb _ fv); eexists; (split; [reflexivity|]); exact H0.
Qed.

Lemma skills_penalty_always_zero_witness :
  calculate_skills_penalty default_config 10 = 0 /\
  forall fv ot d sh, exists cb,
    calculate_total_cost default_config 10 fv ot d sh = Ok cb /\
    skills_penalty cb = 0.
Proof. apply (skills_penalty_always_zero 10). lia. Defined.

(* ===================================================================== *)
(** ** The cost breakdown against the specification's formulas *)
(* ===================================================================== *)

(** The capacity of the code's local [total_capacity] is the
    specification's base capacity, and its overtime hours are the
    specification's. *)
Lemma overtime_hours_spec config s fv ot d sh a cb :
  ABSENTEEISM_RATES config !! Z.to_nat (weekday d) = Some a ->
  calculate_total_cost config s fv ot d sh = Ok cb ->
  overtime_hours cb == spec_overtime_hours config a s fv ot.
Proof.
  intros Ha. unfold_cost Ha. unfold spec_overtime_hours, spec_base_capacity.
  unfold Qltb at 1.
  destruct (Qlt_le_dec _ fv) as [Hlt|Hge]; intros [= <-]; cbn [overtime_hours].
  - rewrite py_min_Qmin, inject_Z_mult. reflexivity.
  - reflexivity.
Qed.

(** C3. For every positive staff count and non-negative forecast volume the
    breakdown returned by [calculate_total_cost] has [total_cost] equal to
    the sum of its four components, and [service_level] equal to
    [min(1, final_capacity / forecast_volume)] for a positive volume and to
    1 for a zero volume. *)
Theorem cost_breakdown_invariant config (staff_count : Z) (forecast_volume : Q)
    order_type d shift a :
  0 < staff_count -> (0 <= forecast_volume)%Q ->
  ABSENTEEISM_RATES config !! Z.to_nat (weekday d) = Some a ->
  exists cb,
    calculate_total_cost config staff_count forecast_volume order_type d shift = Ok cb /\
    total_cost cb =
      (regular_cost cb + overtime_cost cb + understaffing_cost cb
       + inject_Z (skills_penalty cb))%Q /\
    ((0 < forecast_volume)%Q ->
       service_level cb ==
       Qmin 1 (spec_final_capacity config a staff_count forecast_volume order_type
               / forecast_volume)) /\
    (forecast_volume == 0 -> service_level cb == 1).
Proof.
  intros Hs Hfv Ha.
  destruct (calculate_total_cost_returns config staff_count forecast_volume
              order_type d shift) as [cb Hcb]; [by exists a|].
  exists cb. split; [exact Hcb|].
  pose proof (overtime_hours_spec _ _ _ _ _ _ _ _ Ha Hcb) as Hoh.
  revert Hcb Hoh. unfold_cost Ha.
  destruct (Qltb _ forecast_volume) eqn:Ecap; intros [= <-];
    cbn [total_cost regular_cost overtime_cost understaffing_cost skills_penalty
         overtime_hours service_level]; intros Hoh.
  all: split; [reflexivity|]; split.
  all: try (intros Hpos; apply Qltb_true in Hpos as Hb; rewrite Hb;
            rewrite py_min_Qmin; unfold spec_final_capacity;
            rewrite <- Hoh; unfold spec_base_capacity; reflexivity).
  all: intros Hz; assert (Hb : Qltb 0 forecast_volume = false)
         by (apply Qltb_false; rewrite Hz; apply Qle_refl);
       rewrite Hb; reflexivity.
Qed.

Lemma cost_breakdown_invariant_witness :
  exists cb,
    calculate_total_cost default_config 10 150 "E-commerce" thursday "Morning" = Ok cb /\
    total_cost cb =
      (regular_cost cb + overtime_cost cb + understaffing_cost cb
       + inject_Z (skills_penalty cb))%Q /\
    ((0 < 150)%Q ->
       service_level cb ==
       Qmin 1 (spec_final_capacity default_config 0.09 10 150 "E-commerce" / 150)) /\
    (150 == 0 -> service_level cb == 1).
Proof.
  apply (cost_breakdown_invariant default_config 10 150 "E-commerce" thursday "Morning" 0.09).
  - lia.
  - unfold Qle; simpl; lia.
  - reflexivity.
Defined.

(** The regular cost of any returned breakdown, as the code computes it. *)
Lemma regular_cost_formula config s fv ot d sh cb :
  calculate_total_cost config s fv ot d sh = Ok cb ->
  regular_cost cb = (inject_Z (s * 8) * REGULAR_RATE config)%Q.
Proof.
  unfold calculate_total_cost, list_index.
  destruct (ABSENTEEISM_RATES config !! Z.to_nat (weekday d)); [|done].
  cbn [mbind outcome_bind mret outcome_ret].
  destruct (Qltb _ fv); intros [= <-]; reflexivity.
Qed.

(** The overtime cost of any returned breakdown, by the branch taken. *)
Lemma overtime_cost_spec config s fv ot d sh a cb :
  ABSENTEEISM_RATES config !! Z.to_nat (weekday d) = Some a ->
  calculate_total_cost config s fv ot d sh = Ok cb ->
  ((spec_base_capacity config a s ot < fv)%Q ->
     overtime_cost cb = (overtime_hours cb * OVERTIME_RATE config)%Q) /\
  ((fv <= spec_base_capacity config a s ot)%Q -> overtime_cost cb = 0%Q).
Proof.
  intros Ha. unfold_cost Ha. unfold spec_base_capacity.
  destruct (Qltb _ fv) eqn:Ecap; intros [= <-]; cbn [overtime_cost overtime_hours].
  - split; [reflexivity|]. intros Hle. apply Qltb_true in Ecap.
    exfalso. apply (Qlt_not_le _ _ Ecap). exact Hle.
  - split; [|reflexivity]. intros Hlt. apply Qltb_false in Ecap.
    exfalso. apply (Qlt_not_le _ _ Hlt). exact Ecap.
Qed.

(** C7. For every positive staff count and non-negative forecast volume:
    [regular_cost] is [staff_count * 8 * REGULAR_RATE], whatever the date and
    the absenteeism table; above base capacity [overtime_hours] is
    [min(staff_count * 4, (forecast_volume - base_capacity) / base_productivity)]
    and [overtime_cost] is [overtime_hours * OVERTIME_RATE]; otherwise both
    are 0. *)
Theorem regular_and_overtime_cost config (staff_count : Z) (forecast_volume : Q)
    order_type d shift a :
  0 < staff_count -> (0 <= forecast_volume)%Q ->
  ABSENTEEISM_RATES config !! Z.to_nat (weekday d) = Some a ->
  let base_capacity := spec_base_capacity config a staff_count order_type in
  exists cb,
    calculate_total_cost config staff_count forecast_volume order_type d shift = Ok cb /\
    regular_cost cb == inject_Z staff_count * 8 * REGULAR_RATE config /\
    (forall config' d' cb',
        REGULAR_RATE config' = REGULAR_RATE config ->
        calculate_total_cost config' staff_count forecast_volume order_type d' shift
          = Ok cb' ->
        regular_cost cb' = regular_cost cb) /\
    ((base_capacity < forecast_volume)%Q ->
        overtime_hours cb ==
          Qmin (inject_Z staff_count * 4)
               ((forecast_volume - base_capacity)
                / inject_Z (base_productivity_of order_type)) /\
        overtime_cost cb == overtime_hours cb * OVERTIME_RATE config) /\
    ((forecast_volume <= base_capacity)%Q ->
        overtime_hours cb == 0 /\ overtime_cost cb == 0).
Proof.
  intros Hs Hfv Ha base_capacity. subst base_capacity.
  destruct (calculate_total_cost_returns config staff_count forecast_volume
              order_type d shift) as [cb Hcb]; [by exists a|].
  exists cb. split; [exact Hcb|].
  pose proof (overtime_hours_spec _ _ _ _ _ _ _ _ Ha Hcb) as Hoh.
  pose proof (overtime_cost_spec _ _ _ _ _ _ _ _ Ha Hcb) as [Hoc1 Hoc0].
  unfold spec_overtime_hours in Hoh.
  split; [|split; [|split]].
  - rewrite (regular_cost_formula _ _ _ _ _ _ _ Hcb), inject_Z_mult. reflexivity.
  - intros config' d' cb' Hrate Hcb'.
    rewrite (regular_cost_formula _ _ _ _ _ _ _ Hcb').
    rewrite (regular_cost_formula _ _ _ _ _ _ _ Hcb), Hrate. reflexivity.
  - intros Habove. split; [|rewrite (Hoc1 Habove); reflexivity].
    destruct (Qlt_le_dec _ forecast_volume) as [_|Hge]; [exact Hoh|].
    exfalso. apply (Qlt_not_le _ _ Habove). exact Hge.
  - intros Hbelow. split; [|rewrite (Hoc0 Hbelow); reflexivity].
    destruct (Qlt_le_dec _ forecast_volume) as [Hlt|_]; [|exact Hoh].
    exfalso. apply (Qlt_not_le _ _ Hlt). exact Hbelow.
Qed.

Lemma regular_and_overtime_cost_witness :
  let base_capacity := spec_base_capacity default_config 0.09 3 "E-commerce" in
  exists cb,
    calculate_total_cost default_config 3 172 "E-commerce" thursday "Morning" = Ok cb /\
    regular_cost cb == inject_Z 3 * 8 * REGULAR_RATE default_config /\
    (forall config' d' cb',
        REGULAR_RATE config' = REGULAR_RATE default_config ->
        calculate_total_cost config' 3 172 "E-commerce" d' "Morning" = Ok cb' ->
        regular_cost cb' = regular_cost cb) /\
    ((base_capacity < 172)%Q ->
        overtime_hours cb ==
          Qmin (inject_Z 3 * 4)
               ((172 - base_capacity) / inject_Z (base_productivity_of "E-commerce")) /\
        overtime_cost cb == overtime_hours cb * OVERTIME_RATE default_config) /\
    ((172 <= base_capacity)%Q ->
        overtime_hours cb == 0 /\ overtime_cost cb == 0).
Proof.
  apply (regular_and_overtime_cost default_config 3 172 "E-commerce" thursday "Morning" 0.09).
  - lia.
  - unfold Qle; simpl; lia.
  - reflexivity.
Defined.

(* ===================================================================== *)
(** ** Service level as a function of head count (exact arithmetic) *)
(* ===================================================================== *)

Lemma service_level_spec config s fv ot d sh a cb :
  ABSENTEEISM_RATES config !! Z.to_nat (weekday d) = Some a ->
  calculate_total_cost config s fv ot d sh = Ok cb ->
  service_level cb ==
    if Qlt_le_dec 0 fv
    then Qmin 1 (spec_final_capacity config a s fv ot / fv) else 1.
Proof.
  intros Ha Hcb.
  pose proof (overtime_hours_spec _ _ _ _ _ _ _ _ Ha Hcb) as Hoh.
  revert Hcb Hoh. unfold_cost Ha.
  destruct (Qltb _ fv) eqn:Ecap; intros [= <-];
    cbn [overtime_hours service_level]; intros Hoh.
  all: unfold Qltb at 1; destruct (Qlt_le_dec 0 fv); [|reflexivity].
  all: rewrite py_min_Qmin; unfold spec_final_capacity;
       rewrite <- Hoh; unfold spec_base_capacity; reflexivity.
Qed.

Lemma service_level_le_1 config s fv ot d sh a cb :
  ABSENTEEISM_RATES config !! Z.to_nat (weekday d) = Some a ->
  calculate_total_cost config s fv ot d sh = Ok cb ->
  (service_level cb <= 1)%Q.
Proof.
  intros Ha Hcb. rewrite (service_level_spec _ _ _ _ _ _ _ _ Ha Hcb).
  destruct (Qlt_le_dec 0 fv); [apply Q.le_min_l | apply Qle_refl].
Qed.

(** Base capacity grows with head count when the shrink factors are at
    most 1. *)
Lemma spec_base_capacity_mono config a ot s1 s2 :
  (a <= 1)%Q -> (BREAK_COVERAGE_FACTOR config <= 1)%Q -> s1 <= s2 ->
  (spec_base_capacity config a s1 ot <= spec_base_capacity config a s2 ot)%Q.
Proof.
  intros Ha Hb Hs. unfold spec_base_capacity.
  pose proof (inject_Z_pos _ (base_productivity_pos ot)) as Hp.
  assert (H12 : (inject_Z s1 <= inject_Z s2)%Q) by (rewrite <- Zle_Qle; exact Hs).
  apply Qmult_le_compat_r; [|apply Qlt_le_weak, Hp].
  apply Qmult_le_compat_r; [|lra].
  apply Qmult_le_compat_r; [exact H12|lra].
Qed.

(** Either the final capacity covers the whole volume, or it is the base
    capacity plus four overtime hours per person. *)
Lemma spec_final_capacity_cases config a s fv ot :
  let p := inject_Z (base_productivity_of ot) in
  let bc := spec_base_capacity config a s ot in
  (fv <= spec_final_capacity config a s fv ot)%Q \/
  (spec_final_capacity config a s fv ot == bc + inject_Z s * 4 * p /\
   (bc + inject_Z s * 4 * p < fv)%Q).
Proof.
  intros p bc. unfold spec_final_capacity, spec_overtime_hours.
  fold p. fold bc.
  assert (Hp : (0 < p)%Q) by apply inject_Z_pos, base_productivity_pos.
  destruct (Qlt_le_dec bc fv) as [Hlt|Hge].
  - destruct (Q.min_spec (inject_Z s * 4) ((fv - bc) / p)) as [[H1 H2]|[H1 H2]];
      rewrite H2.
    + right. split; [reflexivity|].
      apply (Qmult_lt_compat_r _ _ p Hp) in H1.
      assert (E : (fv - bc) / p * p == fv - bc) by (field; lra).
      rewrite E in H1. lra.
    + left.
      assert (E : (fv - bc) / p * p == fv - bc) by (field; lra).
      rewrite E. lra.
  - left. lra.
Qed.

Lemma spec_final_capacity_upper config a s fv ot :
  let p := inject_Z (base_productivity_of ot) in
  (spec_base_capacity config a s ot < fv)%Q ->
  (spec_final_capacity config a s fv ot
   <= spec_base_capacity config a s ot + inject_Z s * 4 * p)%Q.
Proof.
  intros p Hlt. unfold spec_final_capacity, spec_overtime_hours. fold p.
  assert (Hp : (0 < p)%Q) by apply inject_Z_pos, base_productivity_pos.
  destruct (Qlt_le_dec _ fv) as [_|Hge].
  - apply Qplus_le_r. apply Qmult_le_compat_r; [apply Q.le_min_l | lra].
  - exfalso. apply (Qlt_not_le _ _ Hlt). exact Hge.
Qed.

Lemma service_level_mono_exact config fv ot d sh a s1 s2 cb1 cb2 :
  ABSENTEEISM_RATES config !! Z.to_nat (weekday d) = Some a ->
  (a <= 1)%Q -> (BREAK_COVERAGE_FACTOR config <= 1)%Q -> 0 < s1 -> s1 <= s2 ->
  calculate_total_cost config s1 fv ot d sh = Ok cb1 ->
  calculate_total_cost config s2 fv ot d sh = Ok cb2 ->
  (service_level cb1 <= service_level cb2)%Q.
Proof.
  intros Ha Ha1 Hb1 Hpos Hs H1 H2.
  pose proof (service_level_le_1 _ _ _ _ _ _ _ _ Ha H1) as Hle1.
  rewrite (service_level_spec _ _ _ _ _ _ _ _ Ha H2).
  destruct (Qlt_le_dec 0 fv) as [Hfv|Hfv]; [|exact Hle1].
  assert (Hinv : (0 < / fv)%Q) by (apply Qinv_lt_0_compat; exact Hfv).
  set (p := inject_Z (base_productivity_of ot)).
  assert (Hp : (0 < p)%Q) by apply inject_Z_pos, base_productivity_pos.
  destruct (spec_final_capacity_cases config a s2 fv ot) as [Hfull|[Hcap Hbelow]].
  - (* the larger crew covers the volume *)
    assert (E : Qmin 1 (spec_final_capacity config a s2 fv ot / fv) == 1).
    { apply Q.min_l. apply Qle_shift_div_l; [exact Hfv|]. lra. }
    rewrite E. exact Hle1.
  - (* the larger crew is overtime-capped, hence so is the smaller one *)
    rewrite (service_level_spec _ _ _ _ _ _ _ _ Ha H1).
    destruct (Qlt_le_dec 0 fv) as [_|Hn]; [|exfalso; lra].
    apply Q.min_le_compat_l. unfold Qdiv.
    apply Qmult_le_compat_r; [|lra].
    pose proof (spec_base_capacity_mono config a ot s1 s2 Ha1 Hb1 Hs) as Hbc.
    fold p in Hbc, Hcap, Hbelow.
    assert (H12 : (inject_Z s1 <= inject_Z s2)%Q) by (rewrite <- Zle_Qle; exact Hs).
    assert (H4p : (inject_Z s1 * 4 * p <= inject_Z s2 * 4 * p)%Q).
    { apply Qmult_le_compat_r; lra. }
    assert (H2p : (0 <= inject_Z s2 * 4 * p)%Q).
    { apply Qmult_le_0_compat; [|lra].
      apply Qmult_le_0_compat; [apply inject_Z_nonneg; lia|lra]. }
    rewrite Hcap.
    eapply Qle_trans; [apply spec_final_capacity_upper|]; fold p; lra.
Qed.

Lemma default_rates_at_most_one d a :
  ABSENTEEISM_RATES default_config !! Z.to_nat (weekday d) = Some a -> (a <= 1)%Q.
Proof.
  intros Ha.
  assert (Hall : Forall (fun r => (r <= 1)%Q) (ABSENTEEISM_RATES default_config)).
  { repeat constructor; unfold Qle; simpl; lia. }
  exact (Forall_lookup_1 _ _ _ _ Hall Ha).
Qed.

(** C4 (exact arithmetic). For every fixed forecast volume, date, shift and
    order type, the service level that [calculate_total_cost] computes over
    exact rationals is non-decreasing in the staff count: for all positive
    staff counts [s1 <= s2], [service_level(s1) <= service_level(s2)]. *)
Theorem service_level_nondecreasing (forecast_volume : Q) order_type d shift
    (s1 s2 : Z) :
  0 < s1 -> s1 <= s2 ->
  exists cb1 cb2,
    calculate_total_cost default_config s1 forecast_volume order_type d shift = Ok cb1 /\
    calculate_total_cost default_config s2 forecast_volume order_type d shift = Ok cb2 /\
    (service_level cb1 <= service_level cb2)%Q.
Proof.
  intros Hpos Hle.
  pose proof (rate_defined_default d) as Hrate.
  destruct (calculate_total_cost_returns default_config s1 forecast_volume
              order_type d shift Hrate) as [cb1 H1].
  destruct (calculate_total_cost_returns default_config s2 forecast_volume
              order_type d shift Hrate) as [cb2 H2].
  exists cb1, cb2. split; [exact H1|]. split; [exact H2|].
  destruct Hrate as [a Ha].
  eapply (service_level_mono_exact default_config); eauto.
  - eapply default_rates_at_most_one, Ha.
  - unfold Qle; simpl; lia.
Qed.

Lemma service_level_nondecreasing_witness :
  exists cb1 cb2,
    calculate_total_cost default_config 3 125 "E-commerce" monday "Morning" = Ok cb1 /\
    calculate_total_cost default_config 4 125 "E-commerce" monday "Morning" = Ok cb2 /\
    (service_level cb1 <= service_level cb2)%Q.
Proof.
  apply (service_level_nondecreasing 125 "E-commerce" monday "Morning" 3 4); lia.
Defined.

(* ===================================================================== *)
(** ** The two scans *)
(* ===================================================================== *)

Lemma for_each_invariant {S X : Type} (body : S -> X -> outcome S)
    (Inv : list X -> S -> Prop) :
  (forall seen st x, Inv seen st ->
     exists st', body st x = Ok st' /\ Inv (seen ++ [x]) st') ->
  forall xs seen st, Inv seen st ->
    exists st', for_each body xs st = Ok st' /\ Inv (seen ++ xs) st'.
Proof.
  intros Hbody xs. induction xs as [|x xs IH]; intros seen st Hinv.
  - exists st. rewrite app_nil_r. done.
  - destruct (Hbody seen st x Hinv) as (st1 & E1 & Hinv1).
    destruct (IH (seen ++ [x]) st1 Hinv1) as (st2 & E2 & Hinv2).
    exists st2. cbn [for_each]. rewrite E1. cbn [mbind outcome_bind].
    rewrite <- app_assoc in Hinv2. done.
Qed.

(** One admission step of a scan, common to both loops. *)
Lemma scan_step_invariant keep cm i seen st x :
  scan_invariant keep cm i seen st ->
  scan_invariant keep cm i (seen ++ [x])
    (if keep (cm x) && lt_pyfloat (total_cost (cm x)) (best_cost st)
     then {| best_staff := x;
             best_cost := Finite (total_cost (cm x));
             best_metrics := Some (cm x) |}
     else st).
Proof.
  unfold scan_invariant. destruct (best_metrics st) as [m|] eqn:Em.
  - intros (pre & post & Hseen & Hm & Hkeep & Hcost & Hpre & Hpost).
    rewrite Hcost. cbn [lt_pyfloat].
    destruct (keep (cm x)) eqn:Ekx; cbn [andb];
      [destruct (Qltb (total_cost (cm x)) (total_cost m)) eqn:Elt|].
    + (* a strictly cheaper admissible candidate replaces the incumbent *)
      apply Qltb_true in Elt. cbn [best_metrics best_staff best_cost].
      exists seen, []. repeat split; try done.
      * intros s Hs Hks. rewrite Hseen in Hs.
        apply elem_of_app in Hs as [Hs|Hs].
        -- pose proof (Hpre s Hs Hks). lra.
        -- apply elem_of_cons in Hs as [->|Hs].
           ++ rewrite <- Hm. exact Elt.
           ++ pose proof (Hpost s Hs Hks). lra.
      * intros s Hs. by apply elem_of_nil in Hs.
    + (* no strict improvement: the incumbent stays, ties included *)
      apply Qltb_false in Elt. rewrite Em.
      exists pre, (post ++ [x]). repeat split; try done.
      * rewrite Hseen, <- app_assoc. done.
      * intros s Hs Hks. apply elem_of_app in Hs as [Hs|Hs]; [by apply Hpost|].
        apply list_elem_of_singleton in Hs as ->. exact Elt.
    + rewrite Em. exists pre, (post ++ [x]). repeat split; try done.
      * rewrite Hseen, <- app_assoc. done.
      * intros s Hs Hks. apply elem_of_app in Hs as [Hs|Hs]; [by apply Hpost|].
        apply list_elem_of_singleton in Hs as ->. congruence.
  - intros (Hcost & Hstaff & Hnone). rewrite Hcost. cbn [lt_pyfloat].
    rewrite andb_true_r. destruct (keep (cm x)) eqn:Ekx.
    + cbn [best_metrics best_staff best_cost].
      exists seen, []. repeat split; try done.
      * intros s Hs Hks. rewrite (Hnone s Hs) in Hks. done.
      * intros s Hs. by apply elem_of_nil in Hs.
    + rewrite Em. repeat split; try done.
      intros s Hs. apply elem_of_app in Hs as [Hs|Hs]; [by apply Hnone|].
      apply list_elem_of_singleton in Hs as ->. exact Ekx.
Qed.

Section Scans.

Variables (config : StaffingConfig) (row : ForecastRecord).
Variable cm : Z -> CostBreakdown.
Hypothesis Hcm : forall s, evaluate_candidate config row s = Ok (cm s).

Lemma feasible_step_invariant seen st x :
  scan_invariant (meets_target config) cm (MIN_STAFF_PER_SHIFT config) seen st ->
  exists st', feasible_step config row st x = Ok st' /\
    scan_invariant (meets_target config) cm (MIN_STAFF_PER_SHIFT config)
      (seen ++ [x]) st'.
Proof.
  intros Hinv. pose proof (scan_step_invariant _ _ _ _ _ x Hinv) as Hnext.
  unfold feasible_step. pose proof (Hcm x) as Hx.
  unfold evaluate_candidate in Hx. rewrite Hx. cbn [mbind outcome_bind].
  unfold meets_target in Hnext at 2.
  destruct (Qgeb _ _); cbn [andb] in Hnext;
    [destruct (lt_pyfloat _ _)|]; eexists; (split; [reflexivity|exact Hnext]).
Qed.

Lemma fallback_step_invariant seen st x :
  scan_invariant (fun _ => true) cm (MIN_STAFF_PER_SHIFT config) seen st ->
  exists st', fallback_step config row st x = Ok st' /\
    scan_invariant (fun _ => true) cm (MIN_STAFF_PER_SHIFT config)
      (seen ++ [x]) st'.
Proof.
  intros Hinv. pose proof (scan_step_invariant _ _ _ _ _ x Hinv) as Hnext.
  unfold fallback_step. pose proof (Hcm x) as Hx.
  unfold evaluate_candidate in Hx. rewrite Hx. cbn [mbind outcome_bind].
  cbn [andb] in Hnext.
  destruct (lt_pyfloat _ _); eexists; (split; [reflexivity|exact Hnext]).
Qed.

(** What the search returns, whenever the range of candidates is not
    empty: the result sits at a position of the scan, carries the
    breakdown of its staff count, and is the first cheapest candidate
    either among those meeting the target or, when none does, among all. *)
Lemma optimize_shift_staffing_spec :
  MIN_STAFF_PER_SHIFT config <= MAX_STAFF_PER_SHIFT config ->
  exists r pre post,
    optimize_shift_staffing config row = Ok r /\
    staff_range config = pre ++ OptimalStaff r :: post /\
    metrics r = cm (OptimalStaff r) /\
    TotalCost r = Finite (total_cost (metrics r)) /\
    ServiceLevel r = service_level (metrics r) /\
    ((meets_target config (metrics r) = true /\
      (forall s, s ∈ pre -> meets_target config (cm s) = true ->
                 (total_cost (metrics r) < total_cost (cm s))%Q) /\
      (forall s, s ∈ post -> meets_target config (cm s) = true ->
                 (total_cost (metrics r) <= total_cost (cm s))%Q))
     \/
     ((forall s, s ∈ staff_range config -> meets_target config (cm s) = false) /\
      (forall s, s ∈ pre -> (total_cost (metrics r) < total_cost (cm s))%Q) /\
      (forall s, s ∈ post -> (total_cost (metrics r) <= total_cost (cm s))%Q))).
Proof.
  intros Hbounds. unfold optimize_shift_staffing. fold (staff_range config).
  set (st0 := {| best_staff := MIN_STAFF_PER_SHIFT config;
                 best_cost := Inf; best_metrics := None |}).
  assert (Hne : exists s, s ∈ staff_range config).
  { exists (MIN_STAFF_PER_SHIFT config). unfold staff_range, py_range.
    apply elem_of_seqZ. lia. }
  assert (H0 : scan_invariant (meets_target config) cm
                 (MIN_STAFF_PER_SHIFT config) [] st0).
  { repeat split. intros s Hs. by apply elem_of_nil in Hs. }
  destruct (for_each_invariant (feasible_step config row)
              (scan_invariant (meets_target config) cm (MIN_STAFF_PER_SHIFT config))
              feasible_step_invariant (staff_range config) [] st0 H0)
    as (st1 & E1 & Hinv1).
  rewrite E1. cbn [mbind outcome_bind]. rewrite app_nil_l in Hinv1.
  unfold scan_invariant in Hinv1.
  destruct (best_metrics st1) as [m|] eqn:Em1.
  - (* the feasible pass found a candidate *)
    destruct Hinv1 as (pre & post & Hseen & Hm & Hkeep & Hcost & Hpre & Hpost).
    cbn [mret outcome_ret mbind outcome_bind]. rewrite Em1.
    eexists _, pre, post. split; [reflexivity|].
    cbn [OptimalStaff metrics TotalCost ServiceLevel].
    repeat split; try done. left. subst m. done.
  - (* nothing met the target: the fallback pass starts from the same state *)
    destruct Hinv1 as (Hcost & Hstaff & Hnone).
    assert (H1 : scan_invariant (fun _ => true) cm
                   (MIN_STAFF_PER_SHIFT config) [] st1).
    { unfold scan_invariant. rewrite Em1. repeat split; try done.
      intros s Hs. by apply elem_of_nil in Hs. }
    destruct (for_each_invariant (fallback_step config row)
                (scan_invariant (fun _ => true) cm (MIN_STAFF_PER_SHIFT config))
                fallback_step_invariant (staff_range config) [] st1 H1)
      as (st2 & E2 & Hinv2).
    rewrite E2. cbn [mbind outcome_bind]. rewrite app_nil_l in Hinv2.
    unfold scan_invariant in Hinv2.
    destruct (best_metrics st2) as [m|] eqn:Em2.
    + destruct Hinv2 as (pre & post & Hseen & Hm & _ & Hcost2 & Hpre & Hpost).
      eexists _, pre, post. split; [reflexivity|].
      cbn [OptimalStaff metrics TotalCost ServiceLevel].
      repeat split; try done. right. subst m. repeat split; try done.
      * intros s Hs. by apply Hpre.
      * intros s Hs. by apply Hpost.
    + destruct Hinv2 as (_ & _ & Hall). destruct Hne as [s Hs].
      specialize (Hall s Hs). done.
Qed.

End Scans.

(** With a rate listed for the weekday every candidate has a breakdown. *)
Lemma candidate_metrics config row :
  rate_defined config (Date row) ->
  exists cm, forall s, evaluate_candidate config row s = Ok (cm s).
Proof.
  intros Hrate.
  exists (fun s => match evaluate_candidate config row s with
                   | Ok cb => cb
                   | Raise _ => Build_CostBreakdown 0 0 0 0 0 0 0 0
                   end).
  intros s. unfold evaluate_candidate.
  destruct (calculate_total_cost_returns config s (inject_Z (UpperBound row))
              (OrderType row) (Date row) (Shift row) Hrate) as [cb ->].
  reflexivity.
Qed.

(** Positions in an ascending range: what precedes an element is smaller,
    what follows is larger. *)
Lemma py_range_split lo hi pre x post :
  py_range lo hi = pre ++ x :: post ->
  lo <= x < hi /\
  (forall s, lo <= s < x -> s ∈ pre) /\
  (forall s, s ∈ pre -> lo <= s < x) /\
  (forall s, s ∈ post -> x < s < hi).
Proof.
  unfold py_range. intros Hsplit.
  assert (Hlook : forall (i : nat) s, (pre ++ x :: post) !! i = Some s <->
                               s = lo + Z.of_nat i /\ Z.of_nat i < hi - lo).
  { intros i s. rewrite <- Hsplit. apply lookup_seqZ. }
  assert (Hx : x = lo + Z.of_nat (length pre) /\ Z.of_nat (length pre) < hi - lo).
  { apply Hlook. rewrite list_lookup_middle; done. }
  destruct Hx as [Hx Hlen].
  split; [lia|]. split; [|split].
  - intros s Hs.
    assert (Hi : (pre ++ x :: post) !! Z.to_nat (s - lo) = Some s).
    { apply Hlook. lia. }
    rewrite lookup_app_l in Hi by lia.
    eapply list_elem_of_lookup_2, Hi.
  - intros s Hs. apply list_elem_of_lookup_1 in Hs as [i Hi].
    assert (Hi' : (pre ++ x :: post) !! i = Some s).
    { rewrite lookup_app_l; [done|]. eapply lookup_lt_Some, Hi. }
    pose proof (lookup_lt_Some _ _ _ Hi) as Hlt.
    apply Hlook in Hi'. lia.
  - intros s Hs. apply list_elem_of_lookup_1 in Hs as [i Hi].
    assert (Hi' : (pre ++ x :: post) !! (length pre + S i)%nat = Some s).
    { rewrite lookup_app_r by lia.
      replace (length pre + S i - length pre)%nat with (S i) by lia. done. }
    apply Hlook in Hi'. lia.
Qed.

Lemma meets_target_true config m :
  meets_target config m = true <-> (TARGET_SERVICE_LEVEL config <= service_level m)%Q.
Proof. unfold meets_target. apply Qgeb_true. Qed.

Lemma meets_target_false config m :
  meets_target config m = false <-> ~ (TARGET_SERVICE_LEVEL config <= service_level m)%Q.
Proof.
  rewrite <- meets_target_true. destruct (meets_target config m); split; done.
Qed.

Lemma elem_of_staff_range config s :
  s ∈ staff_range config <->
  MIN_STAFF_PER_SHIFT config <= s <= MAX_STAFF_PER_SHIFT config.
Proof. unfold staff_range, py_range. rewrite elem_of_seqZ. lia. Qed.

(** With inverted bounds both loops run over the empty range, nothing is
    ever selected, and the final lookup in [best_metrics] fails. *)
Lemma optimize_shift_staffing_inverted config row :
  MAX_STAFF_PER_SHIFT config < MIN_STAFF_PER_SHIFT config ->
  optimize_shift_staffing config row = Raise TypeError.
Proof.
  intros Hinv. unfold optimize_shift_staffing, py_range.
  replace (seqZ _ _) with (@nil Z); [reflexivity|].
  unfold seqZ. replace (Z.to_nat _) with 0%nat by lia. reflexivity.
Qed.

(** A result is only ever returned with a staff count inside the bounds. *)
Lemma optimize_shift_staffing_in_range config row r :
  optimize_shift_staffing config row = Ok r ->
  MIN_STAFF_PER_SHIFT config <= OptimalStaff r <= MAX_STAFF_PER_SHIFT config.
Proof.
  intros Hr.
  destruct (Z_lt_le_dec (MAX_STAFF_PER_SHIFT config) (MIN_STAFF_PER_SHIFT config))
    as [Hinv|Hbounds].
  { rewrite optimize_shift_staffing_inverted in Hr; done. }
  destruct (decide (rate_defined config (Date row))) as [Hrate|Hrate].
  - destruct (candidate_metrics config row Hrate) as [cm Hcm].
    destruct (optimize_shift_staffing_spec config row cm Hcm Hbounds)
      as (r' & pre & post & Hr' & Hsplit & _).
    rewrite Hr in Hr'. injection Hr' as <-.
    apply elem_of_staff_range. rewrite Hsplit. set_solver.
  - (* the first evaluation already raises *)
    exfalso. revert Hr. unfold optimize_shift_staffing, py_range.
    rewrite seqZ_cons by lia. cbn [for_each]. unfold feasible_step.
    rewrite (calculate_total_cost_raises config (MIN_STAFF_PER_SHIFT config)) by done.
    done.
Qed.

(** C2. For every forecast record and every configuration with
    [MIN_STAFF_PER_SHIFT <= MAX_STAFF_PER_SHIFT], the [OptimalStaff] returned
    by [optimize_shift_staffing] lies in the inclusive range of the bounds;
    and a result is returned whenever the configuration lists an
    absenteeism rate for the record's weekday. *)
Theorem optimal_staff_within_bounds config row :
  MIN_STAFF_PER_SHIFT config <= MAX_STAFF_PER_SHIFT config ->
  (forall r, optimize_shift_staffing config row = Ok r ->
     MIN_STAFF_PER_SHIFT config <= OptimalStaff r <= MAX_STAFF_PER_SHIFT config) /\
  (rate_defined config (Date row) ->
     exists r, optimize_shift_staffing config row = Ok r).
Proof.
  intros Hbounds. split.
  - intros r. apply optimize_shift_staffing_in_range.
  - intros Hrate. destruct (candidate_metrics config row Hrate) as [cm Hcm].
    destruct (optimize_shift_staffing_spec config row cm Hcm Hbounds)
      as (r & _ & _ & Hr & _).
    by exists r.
Qed.

Lemma optimal_staff_within_bounds_witness :
  (forall r, optimize_shift_staffing default_config row_feasible = Ok r ->
     MIN_STAFF_PER_SHIFT default_config <= OptimalStaff r
       <= MAX_STAFF_PER_SHIFT default_config) /\
  (rate_defined default_config (Date row_feasible) ->
     exists r, optimize_shift_staffing default_config row_feasible = Ok r).
Proof. apply (optimal_staff_within_bounds default_config row_feasible). simpl. lia. Defined.

(** C1. For every forecast record and the default configuration: if some
    staff count within the bounds, evaluated at the record's [UpperBound],
    reaches the target service level, then [optimize_shift_staffing]
    returns a result whose service level reaches the target. *)
Theorem feasible_target_is_met row (staff_count : Z) (cb : CostBreakdown) :
  MIN_STAFF_PER_SHIFT default_config <= staff_count
    <= MAX_STAFF_PER_SHIFT default_config ->
  evaluate_candidate default_config row staff_count = Ok cb ->
  (TARGET_SERVICE_LEVEL default_config <= service_level cb)%Q ->
  exists r,
    optimize_shift_staffing default_config row = Ok r /\
    (TARGET_SERVICE_LEVEL default_config <= ServiceLevel r)%Q /\
    ServiceLevel r = service_level (metrics r).
Proof.
  intros Hs Hcb Hfeas.
  destruct (candidate_metrics default_config row (rate_defined_default _))
    as [cm Hcm].
  destruct (optimize_shift_staffing_spec default_config row cm Hcm)
    as (r & pre & post & Hr & Hsplit & Hm & _ & Hsl & Hcase); [simpl; lia|].
  exists r. split; [exact Hr|]. split; [|exact Hsl]. rewrite Hsl.
  destruct Hcase as [(Hmeets & _)|(Hnone & _)].
  - by apply meets_target_true.
  - exfalso.
    assert (Hin : staff_count ∈ staff_range default_config)
      by (by apply elem_of_staff_range).
    specialize (Hnone _ Hin). apply meets_target_false in Hnone.
    apply Hnone. rewrite Hcm in Hcb. injection Hcb as <-. exact Hfeas.
Qed.

Lemma feasible_target_is_met_witness :
  exists r,
    optimize_shift_staffing default_config row_feasible = Ok r /\
    (TARGET_SERVICE_LEVEL default_config <= ServiceLevel r)%Q /\
    ServiceLevel r = service_level (metrics r).
Proof.
  eapply (feasible_target_is_met row_feasible 3).
  - simpl. lia.
  - vm_compute. reflexivity.
  - vm_compute. discriminate.
Defined.

(** C5. When no staff count within the bounds reaches the target at the
    record's [UpperBound], [optimize_shift_staffing] still returns: the
    staff count of globally minimal total cost over the whole range, the
    smallest one among equally cheap candidates (every smaller staff count
    is strictly more expensive).  The same tie-break governs the feasible
    pass, among the candidates that reach the target. *)
Theorem fallback_minimum_cost_fewest_staff config row :
  MIN_STAFF_PER_SHIFT config <= MAX_STAFF_PER_SHIFT config ->
  rate_defined config (Date row) ->
  let in_range s :=
    MIN_STAFF_PER_SHIFT config <= s <= MAX_STAFF_PER_SHIFT config in
  let reaches_target (cb : CostBreakdown) :=
    (TARGET_SERVICE_LEVEL config <= service_level cb)%Q in
  exists r,
    optimize_shift_staffing config row = Ok r /\
    in_range (OptimalStaff r) /\
    evaluate_candidate config row (OptimalStaff r) = Ok (metrics r) /\
    ((forall s cb, in_range s -> evaluate_candidate config row s = Ok cb ->
                   ~ reaches_target cb) ->
       (forall s cb, in_range s -> evaluate_candidate config row s = Ok cb ->
                     (total_cost (metrics r) <= total_cost cb)%Q) /\
       (forall s cb, in_range s -> s < OptimalStaff r ->
                     evaluate_candidate config row s = Ok cb ->
                     (total_cost (metrics r) < total_cost cb)%Q)) /\
    (reaches_target (metrics r) ->
       (forall s cb, in_range s -> evaluate_candidate config row s = Ok cb ->
                     reaches_target cb ->
                     (total_cost (metrics r) <= total_cost cb)%Q) /\
       (forall s cb, in_range s -> s < OptimalStaff r ->
                     evaluate_candidate config row s = Ok cb ->
                     reaches_target cb ->
                     (total_cost (metrics r) < total_cost cb)%Q)).
Proof.
  intros Hbounds Hrate in_range reaches_target.
  destruct (candidate_metrics config row Hrate) as [cm Hcm].
  destruct (optimize_shift_staffing_spec config row cm Hcm Hbounds)
    as (r & pre & post & Hr & Hsplit & Hm & _ & _ & Hcase).
  destruct (py_range_split _ _ _ _ _ Hsplit) as (Hx & Hpre_in & Hpre & Hpost).
  assert (Hwhere : forall s, in_range s ->
            s ∈ pre \/ s = OptimalStaff r \/ s ∈ post).
  { intros s Hs. apply elem_of_staff_range in Hs. rewrite Hsplit in Hs.
    set_solver. }
  assert (Hcb : forall s cb, evaluate_candidate config row s = Ok cb -> cb = cm s).
  { intros s cb E. rewrite Hcm in E. by injection E. }
  exists r. split; [exact Hr|]. split; [unfold in_range; lia|].
  split; [rewrite Hm; apply Hcm|]. split.
  - (* fallback pass *)
    intros Hnone.
    destruct Hcase as [(Hmeets & _)|(_ & Hlt & Hle)].
    { exfalso. apply (Hnone (OptimalStaff r) (metrics r)).
      - unfold in_range. lia.
      - rewrite Hm. apply Hcm.
      - by apply meets_target_true. }
    split.
    + intros s cb Hs E. rewrite (Hcb _ _ E).
      destruct (Hwhere s Hs) as [Hin|[->|Hin]].
      * apply Qlt_le_weak. by apply Hlt.
      * rewrite Hm. apply Qle_refl.
      * by apply Hle.
    + intros s cb Hs Hsmall E. rewrite (Hcb _ _ E).
      apply Hlt. apply Hpre_in. unfold in_range in Hs. lia.
  - (* feasible pass *)
    intros Hreach.
    destruct Hcase as [(_ & Hlt & Hle)|(Hnone & _)].
    2:{ exfalso.
        assert (Hin : OptimalStaff r ∈ staff_range config)
          by (apply elem_of_staff_range; lia).
        specialize (Hnone _ Hin). apply meets_target_false in Hnone.
        apply Hnone. rewrite <- Hm. exact Hreach. }
    split.
    + intros s cb Hs E Hfeas. rewrite (Hcb _ _ E) in *.
      apply meets_target_true in Hfeas.
      destruct (Hwhere s Hs) as [Hin|[->|Hin]].
      * apply Qlt_le_weak. by apply Hlt.
      * rewrite Hm. apply Qle_refl.
      * by apply Hle.
    + intros s cb Hs Hsmall E Hfeas. rewrite (Hcb _ _ E) in *.
      apply meets_target_true in Hfeas.
      apply Hlt; [|done]. apply Hpre_in. unfold in_range in Hs. lia.
Qed.

Lemma fallback_minimum_cost_fewest_staff_witness :
  exists r,
    optimize_shift_staffing default_config row_infeasible = Ok r /\
    MIN_STAFF_PER_SHIFT default_config <= OptimalStaff r
      <= MAX_STAFF_PER_SHIFT default_config /\
    evaluate_candidate default_config row_infeasible (OptimalStaff r) = Ok (metrics r).
Proof.
  destruct (fallback_minimum_cost_fewest_staff default_config row_infeasible)
    as (r & Hr & Hin & Hm & _).
  - simpl. lia.
  - apply rate_defined_default.
  - exists r. split; [exact Hr|]. split; [exact Hin|exact Hm].
Defined.

(** The scenario of a slot nobody can cover: the fallback returns the full
    crew of 25 and a service level below the target. *)
Example fallback_scenario :
  exists r,
    optimize_shift_staffing default_config row_infeasible = Ok r /\
    OptimalStaff r = 25 /\
    (ServiceLevel r < TARGET_SERVICE_LEVEL default_config)%Q /\
    (0 < understaffing_cost (metrics r))%Q.
Proof.
  eexists. split; [vm_compute; reflexivity|].
  cbn [OptimalStaff ServiceLevel metrics understaffing_cost].
  split; [reflexivity|]. split; vm_compute; reflexivity.
Qed.

(** The scenario of section 8: Thursday 2024-02-01, morning, e-commerce. *)
Example feasible_scenario :
  exists r,
    optimize_shift_staffing default_config row_feasible = Ok r /\
    OptimalStaff r = 3 /\ ServiceLevel r == 1.
Proof.
  eexists. split; [vm_compute; reflexivity|].
  cbn [OptimalStaff ServiceLevel]. split; reflexivity.
Qed.

(* ===================================================================== *)
(** ** Service level over doubles *)
(* ===================================================================== *)

(** C4 as stated fails on the doubles the program computes with.  On a
    Monday, for 125 e-commerce orders, three people have base capacity
    39.744 and the sum with their overtime capacity is exactly 125, a
    service level of 1.0; four people have base capacity
    52.992000000000004 and the sum rounds to 124.99999999999999, a service
    level of 0.99999999999999989.  More staff, lower service level. *)
Lemma service_level_dips_in_binary64 :
  Binary64.calculate_capacity Binary64.default_capacity_config
    3 125 "E-commerce" monday
  = Ok {| Binary64.total_capacity := 39.744;
          Binary64.overtime_hours := 4.7364444444444445;
          Binary64.final_capacity := 125;
          Binary64.service_level := 1 |} /\
  Binary64.calculate_capacity Binary64.default_capacity_config
    4 125 "E-commerce" monday
  = Ok {| Binary64.total_capacity := 52.992000000000004;
          Binary64.overtime_hours := 4.0004444444444438;
          Binary64.final_capacity := 124.99999999999999;
          Binary64.service_level := 0.99999999999999989 |} /\
  ~ (forall (s1 s2 : Z) (c1 c2 : Binary64.Capacity),
       0 < s1 -> s1 <= s2 ->
       Binary64.calculate_capacity Binary64.default_capacity_config
         s1 125 "E-commerce" monday = Ok c1 ->
       Binary64.calculate_capacity Binary64.default_capacity_config
         s2 125 "E-commerce" monday = Ok c2 ->
       PrimFloat.leb (Binary64.service_level c1) (Binary64.service_level c2) = true).
Proof.
  assert (H3 : Binary64.calculate_capacity Binary64.default_capacity_config
                 3 125 "E-commerce" monday
               = Ok {| Binary64.total_capacity := 39.744;
                       Binary64.overtime_hours := 4.7364444444444445;
                       Binary64.final_capacity := 125;
                       Binary64.service_level := 1 |})
    by (vm_compute; reflexivity).
  assert (H4 : Binary64.calculate_capacity Binary64.default_capacity_config
                 4 125 "E-commerce" monday
               = Ok {| Binary64.total_capacity := 52.992000000000004;
                       Binary64.overtime_hours := 4.0004444444444438;
                       Binary64.final_capacity := 124.99999999999999;
                       Binary64.service_level := 0.99999999999999989 |})
    by (vm_compute; reflexivity).
  split; [exact H3|]. split; [exact H4|].
  intros Hmono.
  specialize (Hmono 3 4 _ _ ltac:(lia) ltac:(lia) H3 H4).
  vm_compute in Hmono. discriminate.
Qed.

(* ===================================================================== *)
(** ** Training: which segments get a model *)
(* ===================================================================== *)

Lemma segment_compare_eq k k' : segment_compare k k' = Eq -> k = k'.
Proof.
  destruct k as [s o], k' as [s' o']. unfold segment_compare. cbn [fst snd].
  destruct (String.compare s s') eqn:E1; try done.
  intros E2. apply String.compare_eq_iff in E1, E2. congruence.
Qed.

Lemma elem_of_insert_key x k ks : x ∈ insert_key k ks <-> x = k \/ x ∈ ks.
Proof.
  induction ks as [|k' ks IH]; cbn [insert_key].
  - set_solver.
  - destruct (segment_compare k k') eqn:E.
    + apply segment_compare_eq in E as ->. set_solver.
    + set_solver.
    + rewrite elem_of_cons, IH. set_solver.
Qed.

Lemma elem_of_group_keys {A} (key : A -> segment) rows k :
  k ∈ group_keys key rows <-> exists r, r ∈ rows /\ key r = k.
Proof.
  unfold group_keys. induction rows as [|r rows IH]; cbn [fmap list_fmap foldr].
  - set_solver.
  - rewrite elem_of_insert_key, IH. split.
    + intros [->|(r' & Hr' & <-)]; [exists r|exists r']; set_solver.
    + intros (r' & Hr' & <-). apply elem_of_cons in Hr' as [->|Hr'];
        [by left|right; by exists r'].
Qed.

(** A group with at least one row has its key among the group keys. *)
Lemma group_rows_nonempty_key {A} (key : A -> segment) rows k :
  (0 < length (group_rows key k rows))%nat -> k ∈ group_keys key rows.
Proof.
  intros Hlen. apply elem_of_group_keys.
  destruct (group_rows key k rows) as [|r rest] eqn:E; [simpl in Hlen; lia|].
  assert (Hr : r ∈ group_rows key k rows) by (rewrite E; set_solver).
  unfold group_rows in Hr. apply list_elem_of_filter in Hr as [Hk Hr].
  by exists r.
Qed.

Section ForecasterFacts.

Context {Model : Type}.
Variable fit : list FeatureRow -> Model.
Variable feature_importances_ : Model -> list Q.

(** The training loop adds exactly the visited groups of at least 20 rows
    to whatever the registry held before. *)
Lemma train_groups_models df_clean keys (self : AdvancedForecaster Model) k :
  is_Some (models (foldl (train_group fit feature_importances_ df_clean) self keys) !! k)
  <->
  is_Some (models self !! k) \/
  (k ∈ keys /\
   (20 <= length (group_rows (segment_of ∘ observation) k df_clean))%nat).
Proof.
  revert self. induction keys as [|k0 keys IH]; intros self; cbn [foldl].
  - set_solver.
  - rewrite IH. unfold train_group.
    destruct (length (group_rows _ k0 df_clean) <? 20)%nat eqn:E.
    + apply Nat.ltb_lt in E. split.
      * intros [H|[H1 H2]]; [by left|right; set_solver].
      * intros [H|[H1 H2]]; [by left|].
        apply elem_of_cons in H1 as [->|H1]; [lia|right; done].
    + apply Nat.ltb_ge in E. cbn [models]. rewrite lookup_insert.
      split.
      * intros [H|[H1 H2]]; [|right; set_solver].
        case_decide as Hk; [subst k0; right; set_solver|by left].
      * intros [H|[H1 H2]].
        -- left. case_decide; [done|exact H].
        -- apply elem_of_cons in H1 as [->|H1]; [|right; done].
           left. rewrite decide_True by done. done.
Qed.

End ForecasterFacts.

(** Twenty-seven days of one segment lose their first seven rows to the
    lag; 20 rows survive [dropna] and a model is fitted on them. *)
Example twenty_usable_rows_train :
  length (usable_rows (one_segment_history 27) ("Morning", "B2B")%string) = 20%nat /\
  models (train_models count_fit no_importances AdvancedForecaster_init
            (one_segment_history 27)) !! ("Morning", "B2B")%string = Some 20%nat.
Proof. split; vm_compute; reflexivity. Qed.

(** Of twenty-six days 19 rows survive and no model is fitted. *)
Example nineteen_usable_rows_skip :
  length (usable_rows (one_segment_history 26) ("Morning", "B2B")%string) = 19%nat /\
  models (train_models count_fit no_importances AdvancedForecaster_init
            (one_segment_history 26)) !! ("Morning", "B2B")%string = None.
Proof. split; vm_compute; reflexivity. Qed.

(** The rolling means are assigned by position in group order while the
    table is in date order, so with more than one segment the undefined
    means fall on other rows than the first six of each segment: of 27
    days of two interleaved segments, 17 rows per segment survive
    [dropna]. *)
Example rolling_mean_positions :
  length (usable_rows (two_segment_history 27) ("Morning", "B2B")%string) = 17%nat /\
  length (usable_rows (two_segment_history 27) ("Morning", "Express")%string) = 17%nat.
Proof. split; vm_compute; reflexivity. Qed.

(* ===================================================================== *)
(** ** Forecast records *)
(* ===================================================================== *)

(** The three integer columns derived from one prediction are ordered. *)
Lemma forecast_bounds_ordered (prediction : Q) :
  let uncertainty := (prediction * 0.15)%Q in
  0 <= Z.max 0 (py_int (prediction - uncertainty)) /\
  Z.max 0 (py_int (prediction - uncertainty)) <= Z.max 0 (py_int prediction) /\
  Z.max 0 (py_int prediction) <= Z.max 0 (py_int (prediction + uncertainty)).
Proof.
  intros uncertainty. subst uncertainty. split; [lia|].
  destruct (Qlt_le_dec prediction 0) as [Hneg|Hpos].
  - (* a negative prediction: all three columns are floored to 0 *)
    assert (H1 : py_int (prediction - prediction * 0.15) <= 0)
      by (apply py_int_sign_nonpos; lra).
    assert (H2 : py_int prediction <= 0)
      by (apply py_int_sign_nonpos; lra).
    assert (H3 : py_int (prediction + prediction * 0.15) <= 0)
      by (apply py_int_sign_nonpos; lra).
    lia.
  - split; apply Z.max_le_compat_l, py_int_mono; lra.
Qed.

(** C6 (as the code has it). Every record emitted by [forecast_demand]
    satisfies [0 <= LowerBound <= ForecastVolume <= UpperBound]; its
    [Uncertainty] is 0.15 times the raw prediction of the segment's model,
    and [ForecastVolume], [LowerBound], [UpperBound] are the prediction, the
    prediction minus the uncertainty and the prediction plus the
    uncertainty, each truncated to an integer and floored at 0. *)
Theorem forecast_record_bounds {Model : Type} (predict : Model -> date -> Q)
    (self : AdvancedForecaster Model) (forecast_dates : list date)
    (shifts order_types : list string) (r : ForecastRecord) :
  r ∈ forecast_demand predict self forecast_dates shifts order_types ->
  0 <= LowerBound r /\ LowerBound r <= ForecastVolume r /\
  ForecastVolume r <= UpperBound r /\
  exists model,
    models self !! (Shift r, OrderType r) = Some model /\
    let prediction := predict model (Date r) in
    Uncertainty r = (prediction * 0.15)%Q /\
    ForecastVolume r = Z.max 0 (py_int prediction) /\
    LowerBound r = Z.max 0 (py_int (prediction - Uncertainty r)) /\
    UpperBound r = Z.max 0 (py_int (prediction + Uncertainty r)).
Proof.
  unfold forecast_demand. intros Hr.
  apply list_elem_of_bind in Hr as (d & Hr & _).
  apply list_elem_of_bind in Hr as (shift & Hr & _).
  apply list_elem_of_bind in Hr as (order_type & Hr & _).
  destruct (models self !! (shift, order_type)) as [model|] eqn:Em;
    [|by apply elem_of_nil in Hr].
  apply list_elem_of_singleton in Hr as ->.
  cbn [Date Shift OrderType ForecastVolume LowerBound UpperBound Uncertainty].
  pose proof (forecast_bounds_ordered (predict model d)) as (H0 & H1 & H2).
  repeat split; try done.
  exists model. split; [exact Em|]. repeat split.
Qed.

Lemma forecast_record_bounds_witness :
  0 <= LowerBound sample_forecast_record /\
  LowerBound sample_forecast_record <= ForecastVolume sample_forecast_record /\
  ForecastVolume sample_forecast_record <= UpperBound sample_forecast_record /\
  exists model,
    models one_model_forecaster
      !! (Shift sample_forecast_record, OrderType sample_forecast_record) = Some model /\
    let prediction := constant_predict model (Date sample_forecast_record) in
    Uncertainty sample_forecast_record = (prediction * 0.15)%Q /\
    ForecastVolume sample_forecast_record = Z.max 0 (py_int prediction) /\
    LowerBound sample_forecast_record
      = Z.max 0 (py_int (prediction - Uncertainty sample_forecast_record)) /\
    UpperBound sample_forecast_record
      = Z.max 0 (py_int (prediction + Uncertainty sample_forecast_record)).
Proof.
  apply (forecast_record_bounds constant_predict one_model_forecaster
           [thursday] ["Morning"%string] ["B2B"%string] sample_forecast_record).
  vm_compute. left.
Defined.

(** C6 as stated fails: for a prediction of 100.9 the emitted record has
    [ForecastVolume = 100] and [Uncertainty = 15.135], which is not
    0.15 * 100; and its [UpperBound], 116, is not the forecast volume plus
    the uncertainty floored at 0, with or without truncation. *)
Lemma uncertainty_not_of_forecast_volume :
  exists r,
    r ∈ forecast_demand constant_predict one_model_forecaster
          [thursday] ["Morning"%string] ["B2B"%string] /\
    ~ (Uncertainty r == 0.15 * inject_Z (ForecastVolume r)) /\
    ~ (inject_Z (UpperBound r) == Qmax 0 (inject_Z (ForecastVolume r) + Uncertainty r)) /\
    UpperBound r <> Z.max 0 (py_int (inject_Z (ForecastVolume r) + Uncertainty r)).
Proof.
  exists sample_forecast_record. split; [vm_compute; left|].
  split; [|split].
  - vm_compute. discriminate.
  - intros H. assert (Hle : (inject_Z 116 <= Qmax 0 (inject_Z 100 + 15.135))%Q).
    { cbn [sample_forecast_record UpperBound ForecastVolume Uncertainty] in H.
      rewrite <- H. apply Qle_refl. }
    apply Q.max_le in Hle as [Hle|Hle]; vm_compute in Hle; by apply Hle.
  - vm_compute. discriminate.
Qed.

(* ===================================================================== *)
(** ** Configuration objects are not validated *)
(* ===================================================================== *)

(** C9 (as the code has it). Building a configuration never fails,
    whatever the staff bounds and the rates: neither [StaffingConfig] nor
    [StaffingSettings] checks its values.  Inverted staff bounds are stored
    as given and surface only in the search, where
    [optimize_shift_staffing] raises for every forecast record; rates of
    any sign are stored as given and the search returns a result with
    them. *)
Theorem configuration_is_not_validated :
  (forall kw, exists st,
      StaffingSettings_init kw = Ok st /\
      min_staff_per_shift st = default 2 (kw_min_staff_per_shift kw) /\
      max_staff_per_shift st = default 25 (kw_max_staff_per_shift kw) /\
      regular_hourly_rate st = default 18.50%Q (kw_regular_hourly_rate kw)) /\
  (forall lo hi config, exists c,
      set_staff_bounds lo hi config = Ok c /\
      MIN_STAFF_PER_SHIFT c = lo /\ MAX_STAFF_PER_SHIFT c = hi) /\
  (forall regular overtime temp config, exists c,
      set_rates regular overtime temp config = Ok c /\
      REGULAR_RATE c = regular /\ OVERTIME_RATE c = overtime /\ TEMP_RATE c = temp) /\
  (forall config row,
      MAX_STAFF_PER_SHIFT config < MIN_STAFF_PER_SHIFT config ->
      optimize_shift_staffing config row = Raise TypeError) /\
  (forall regular overtime temp config c row,
      set_rates regular overtime temp config = Ok c ->
      MIN_STAFF_PER_SHIFT config <= MAX_STAFF_PER_SHIFT config ->
      rate_defined config (Date row) ->
      exists r, optimize_shift_staffing c row = Ok r).
Proof.
  split; [|split; [|split; [|split]]].
  - intros kw. eexists. split; [reflexivity|]. repeat split.
  - intros lo hi config. eexists. split; [reflexivity|]. split; reflexivity.
  - intros regular overtime temp config. eexists. split; [reflexivity|].
    repeat split.
  - intros config row. apply optimize_shift_staffing_inverted.
  - intros regular overtime temp config c row [= <-] Hbounds Hrate.
    set (c := Build_StaffingConfig _ _ _ _ _ _ _ _ _ _).
    assert (Hrate' : rate_defined c (Date row)) by exact Hrate.
    destruct (candidate_metrics c row Hrate') as [cm Hcm].
    destruct (optimize_shift_staffing_spec c row cm Hcm Hbounds)
      as (r & _ & _ & Hr & _).
    by exists r.
Qed.

(** C9 as stated fails: a configuration with inverted staff bounds is
    built without error, from [StaffingConfig] as well as from
    [StaffingSettings] (there together with a negative and a zero rate),
    and the inversion only shows as an exception inside the search. *)
Lemma inverted_bounds_accepted :
  (exists c,
      (c0 ← StaffingConfig_init; set_staff_bounds 5 3 c0) = Ok c /\
      MAX_STAFF_PER_SHIFT c < MIN_STAFF_PER_SHIFT c /\
      optimize_shift_staffing c row_feasible = Raise TypeError) /\
  (exists st,
      StaffingSettings_init bad_kwargs = Ok st /\
      max_staff_per_shift st < min_staff_per_shift st /\
      (regular_hourly_rate st < 0)%Q /\ overtime_multiplier st == 0).
Proof.
  split.
  - eexists. split; [reflexivity|]. split; [reflexivity|].
    vm_compute. reflexivity.
  - eexists. split; [reflexivity|]. split; [reflexivity|].
    split; reflexivity.
Qed.

(** A zero hourly rate is accepted and the search goes through with it. *)
Example zero_rates_accepted :
  exists c r,
    (c0 ← StaffingConfig_init; set_rates 0 0 0 c0) = Ok c /\
    optimize_shift_staffing c row_feasible = Ok r /\
    OptimalStaff r = 3 /\
    total_cost (metrics r) == 0.
Proof.
  eexists _, _. split; [reflexivity|]. split; [vm_compute; reflexivity|].
  split; reflexivity.
Qed.

(** With every rate at zero and nothing to deliver all candidates cost
    the same, and the scan keeps the first one: the smallest crew. *)
Example ties_favour_fewer_staff :
  exists c r,
    (c0 ← StaffingConfig_init; set_rates 0 0 0 c0) = Ok c /\
    optimize_shift_staffing c
      {| Date := thursday; Shift := "Night"; OrderType := "Express";
         ForecastVolume := 0; LowerBound := 0; UpperBound := 0;
         Uncertainty := 0 |} = Ok r /\
    OptimalStaff r = MIN_STAFF_PER_SHIFT c.
Proof.
  eexists _, _. split; [reflexivity|]. split; [vm_compute; reflexivity|].
  reflexivity.
Qed.

(* ===================================================================== *)
(** ** Further facts about the cost model *)
(* ===================================================================== *)

(** The remaining entries of a breakdown in terms of the final capacity. *)
Lemma understaffing_cost_spec config s fv ot d sh a cb :
  ABSENTEEISM_RATES config !! Z.to_nat (weekday d) = Some a ->
  calculate_total_cost config s fv ot d sh = Ok cb ->
  understaffing_cost cb ==
    if Qlt_le_dec (spec_final_capacity config a s fv ot) fv
    then (fv - spec_final_capacity config a s fv ot)
         * inject_Z (UNDERSTAFFING_PENALTY config)
    else 0.
Proof.
  intros Ha Hcb.
  pose proof (overtime_hours_spec _ _ _ _ _ _ _ _ Ha Hcb) as Hoh.
  revert Hcb Hoh. unfold_cost Ha.
  destruct (Qltb _ fv) eqn:Ecap; intros [= <-];
    cbn [overtime_hours understaffing_cost]; intros Hoh.
  all: unfold spec_final_capacity; fold (spec_base_capacity config a s ot) in *.
  all: match goal with
       | |- (if Qltb ?f ?v then _ else _) == _ =>
           assert (Hf : f == spec_base_capacity config a s ot
                             + spec_overtime_hours config a s v ot
                               * inject_Z (base_productivity_of ot))
             by (rewrite Hoh; reflexivity);
           unfold Qltb; destruct (Qlt_le_dec f v) as [H1|H1]
       end.
  all: destruct (Qlt_le_dec _ fv) as [H2|H2]; try reflexivity.
  all: try (rewrite Hf; reflexivity).
  all: exfalso; rewrite Hf in H1; lra.
Qed.

Lemma capacity_utilization_spec config s fv ot d sh a cb :
  ABSENTEEISM_RATES config !! Z.to_nat (weekday d) = Some a ->
  calculate_total_cost config s fv ot d sh = Ok cb ->
  capacity_utilization cb ==
    if Qlt_le_dec 0 (spec_final_capacity config a s fv ot)
    then fv / spec_final_capacity config a s fv ot
    else 0.
Proof.
  intros Ha Hcb.
  pose proof (overtime_hours_spec _ _ _ _ _ _ _ _ Ha Hcb) as Hoh.
  revert Hcb Hoh. unfold_cost Ha.
  set (F := spec_final_capacity config a s fv ot).
  destruct (Qltb _ fv) eqn:Ecap; intros [= <-];
    cbn [overtime_hours capacity_utilization]; intros Hoh.
  all: match goal with
       | |- (if Qltb 0 ?f then _ else _) == _ =>
           assert (Hf : f == F)
             by (subst F; unfold spec_final_capacity, spec_base_capacity;
                 rewrite <- Hoh; reflexivity);
           unfold Qltb; destruct (Qlt_le_dec 0 f) as [H1|H1]
       end.
  all: destruct (Qlt_le_dec 0 F) as [H2|H2]; try reflexivity.
  all: try (rewrite Hf; reflexivity).
  all: exfalso; rewrite Hf in H1; lra.
Qed.

(** Above base capacity the final capacity is the smaller of the demand
    and the capacity with four overtime hours per person. *)
Lemma spec_final_capacity_closed config a s fv ot :
  let p := inject_Z (base_productivity_of ot) in
  let bc := spec_base_capacity config a s ot in
  ((bc < fv)%Q -> spec_final_capacity config a s fv ot == Qmin fv (bc + inject_Z s * 4 * p)) /\
  ((fv <= bc)%Q -> spec_final_capacity config a s fv ot == bc).
Proof.
  intros p bc.
  assert (Hp : (0 < p)%Q) by apply inject_Z_pos, base_productivity_pos.
  unfold spec_final_capacity, spec_overtime_hours. fold p. fold bc.
  destruct (Qlt_le_dec bc fv) as [Hlt|Hge]; split; intros H; try (exfalso; lra).
  - assert (E : (fv - bc) / p * p == fv - bc) by (field; lra).
    destruct (Q.min_spec (inject_Z s * 4) ((fv - bc) / p)) as [[H1 H2]|[H1 H2]];
      rewrite H2.
    + apply (Qmult_lt_compat_r _ _ p Hp) in H1. rewrite E in H1.
      symmetry. apply Q.min_r. lra.
    + apply (Qmult_le_compat_r _ _ p) in H1; [|lra]. rewrite E in H1.
      rewrite E. symmetry. rewrite Q.min_l; lra.
  - lra.
Qed.

(** The capacity with full overtime, in one product. *)
Lemma full_overtime_capacity config a s ot :
  spec_base_capacity config a s ot
  + inject_Z s * 4 * inject_Z (base_productivity_of ot)
  == inject_Z s * ((1 - a) * (1 - BREAK_COVERAGE_FACTOR config) + 4)
     * inject_Z (base_productivity_of ot).
Proof. unfold spec_base_capacity. ring. Qed.

Lemma service_level_closed config s fv ot d sh a cb :
  ABSENTEEISM_RATES config !! Z.to_nat (weekday d) = Some a ->
  calculate_total_cost config s fv ot d sh = Ok cb ->
  0 <= s -> (0 < fv)%Q ->
  service_level cb ==
    Qmin 1 ((spec_base_capacity config a s ot
             + inject_Z s * 4 * inject_Z (base_productivity_of ot)) / fv).
Proof.
  intros Ha Hcb Hs Hfv.
  rewrite (service_level_spec _ _ _ _ _ _ _ _ Ha Hcb).
  destruct (Qlt_le_dec 0 fv) as [_|Hn]; [|exfalso; lra].
  set (p := inject_Z (base_productivity_of ot)).
  set (bc := spec_base_capacity config a s ot).
  assert (Hp : (0 < p)%Q) by apply inject_Z_pos, base_productivity_pos.
  assert (H4 : (0 <= inject_Z s * 4 * p)%Q).
  { apply Qmult_le_0_compat; [|lra].
    apply Qmult_le_0_compat; [apply inject_Z_nonneg, Hs|lra]. }
  assert (Hinv : (0 < / fv)%Q) by (apply Qinv_lt_0_compat; exact Hfv).
  destruct (spec_final_capacity_closed config a s fv ot) as [Hlt Hge].
  fold p bc in Hlt, Hge.
  destruct (Qlt_le_dec bc fv) as [Hb|Hb].
  - rewrite (Hlt Hb).
    destruct (Qlt_le_dec fv (bc + inject_Z s * 4 * p)) as [Hc|Hc].
    + rewrite (Q.min_l fv) by lra.
      rewrite !Q.min_l; try reflexivity.
      * apply Qle_shift_div_l; [exact Hfv|lra].
      * apply Qle_shift_div_l; [exact Hfv|lra].
    + rewrite (Q.min_r fv) by lra. reflexivity.
  - rewrite (Hge Hb).
    rewrite !Q.min_l; try reflexivity.
    + apply Qle_shift_div_l; [exact Hfv|lra].
    + apply Qle_shift_div_l; [exact Hfv|lra].
Qed.

(** The service level is demand coverage by the largest capacity the crew
    can reach (base capacity plus four overtime hours per person), capped
    at 1: for a non-negative staff count and a positive volume,
    [service_level = min(1, staff * ((1 - a) * (1 - break) + 4) * productivity / volume)]. *)
Theorem service_level_closed_form config (staff_count : Z) (forecast_volume : Q)
    order_type d shift a :
  ABSENTEEISM_RATES config !! Z.to_nat (weekday d) = Some a ->
  0 <= staff_count -> (0 < forecast_volume)%Q ->
  exists cb,
    calculate_total_cost config staff_count forecast_volume order_type d shift = Ok cb /\
    service_level cb ==
      Qmin 1 (inject_Z staff_count
              * ((1 - a) * (1 - BREAK_COVERAGE_FACTOR config) + 4)
              * inject_Z (base_productivity_of order_type)
              / forecast_volume).
Proof.
  intros Ha Hs Hfv.
  destruct (calculate_total_cost_returns config staff_count forecast_volume
              order_type d shift) as [cb Hcb]; [by exists a|].
  exists cb. split; [exact Hcb|].
  rewrite (service_level_closed _ _ _ _ _ _ _ _ Ha Hcb Hs Hfv).
  rewrite full_overtime_capacity. reflexivity.
Qed.

Lemma service_level_closed_form_witness :
  exists cb,
    calculate_total_cost default_config 2 172 "E-commerce" thursday "Morning" = Ok cb /\
    service_level cb ==
      Qmin 1 (inject_Z 2
              * ((1 - 0.09) * (1 - BREAK_COVERAGE_FACTOR default_config) + 4)
              * inject_Z (base_productivity_of "E-commerce")
              / 172).
Proof.
  apply (service_level_closed_form default_config 2 172 "E-commerce" thursday
           "Morning" 0.09).
  - reflexivity.
  - lia.
  - reflexivity.
Defined.

Lemma full_overtime_capacity_nonneg config a s ot :
  0 <= s -> (a <= 1)%Q -> (BREAK_COVERAGE_FACTOR config <= 1)%Q ->
  (0 <= spec_base_capacity config a s ot
        + inject_Z s * 4 * inject_Z (base_productivity_of ot))%Q.
Proof.
  intros Hs Ha Hb. rewrite full_overtime_capacity.
  pose proof (inject_Z_pos _ (base_productivity_pos ot)) as Hp.
  apply Qmult_le_0_compat; [|apply Qlt_le_weak, Hp].
  apply Qmult_le_0_compat; [apply inject_Z_nonneg, Hs|].
  assert (0 <= (1 - a) * (1 - BREAK_COVERAGE_FACTOR config))%Q
    by (apply Qmult_le_0_compat; lra).
  lra.
Qed.

(** For a non-negative staff count and shrink factors at most 1 the
    service level lies between 0 and 1, whatever the volume. *)
Theorem service_level_between_0_and_1 config (staff_count : Z) (forecast_volume : Q)
    order_type d shift a :
  ABSENTEEISM_RATES config !! Z.to_nat (weekday d) = Some a ->
  0 <= staff_count -> (a <= 1)%Q -> (BREAK_COVERAGE_FACTOR config <= 1)%Q ->
  exists cb,
    calculate_total_cost config staff_count forecast_volume order_type d shift = Ok cb /\
    (0 <= service_level cb <= 1)%Q.
Proof.
  intros Ha Hs Ha1 Hb1.
  destruct (calculate_total_cost_returns config staff_count forecast_volume
              order_type d shift) as [cb Hcb]; [by exists a|].
  exists cb. split; [exact Hcb|].
  split; [|exact (service_level_le_1 _ _ _ _ _ _ _ _ Ha Hcb)].
  destruct (Qlt_le_dec 0 forecast_volume) as [Hfv|Hfv].
  - rewrite (service_level_closed _ _ _ _ _ _ _ _ Ha Hcb Hs Hfv).
    apply Q.min_glb; [lra|].
    apply Qle_shift_div_l; [exact Hfv|].
    pose proof (full_overtime_capacity_nonneg config a staff_count order_type
                  Hs Ha1 Hb1). lra.
  - rewrite (service_level_spec _ _ _ _ _ _ _ _ Ha Hcb).
    destruct (Qlt_le_dec 0 forecast_volume); [exfalso|]; lra.
Qed.

Lemma service_level_between_0_and_1_witness :
  exists cb,
    calculate_total_cost default_config 10 150 "E-commerce" thursday "Morning" = Ok cb /\
    (0 <= service_level cb <= 1)%Q.
Proof.
  apply (service_level_between_0_and_1 default_config 10 150 "E-commerce" thursday
           "Morning" 0.09).
  - reflexivity.
  - lia.
  - unfold Qle; simpl; lia.
  - unfold Qle; simpl; lia.
Defined.

(** For a fixed non-negative staff count, more demand never raises the
    service level. *)
Theorem service_level_nonincreasing_in_volume config (staff_count : Z)
    (v1 v2 : Q) order_type d shift a :
  ABSENTEEISM_RATES config !! Z.to_nat (weekday d) = Some a ->
  0 <= staff_count -> (a <= 1)%Q -> (BREAK_COVERAGE_FACTOR config <= 1)%Q ->
  (v1 <= v2)%Q ->
  exists cb1 cb2,
    calculate_total_cost config staff_count v1 order_type d shift = Ok cb1 /\
    calculate_total_cost config staff_count v2 order_type d shift = Ok cb2 /\
    (service_level cb2 <= service_level cb1)%Q.
Proof.
  intros Ha Hs Ha1 Hb1 Hv.
  assert (Hrate : rate_defined config d) by (by exists a).
  destruct (calculate_total_cost_returns config staff_count v1 order_type d shift
              Hrate) as [cb1 H1].
  destruct (calculate_total_cost_returns config staff_count v2 order_type d shift
              Hrate) as [cb2 H2].
  exists cb1, cb2. split; [exact H1|]. split; [exact H2|].
  pose proof (service_level_le_1 _ _ _ _ _ _ _ _ Ha H2) as Hle.
  destruct (Qlt_le_dec 0 v1) as [Hp1|Hn1].
  - assert (Hp2 : (0 < v2)%Q) by lra.
    rewrite (service_level_closed _ _ _ _ _ _ _ _ Ha H1 Hs Hp1).
    rewrite (service_level_closed _ _ _ _ _ _ _ _ Ha H2 Hs Hp2).
    pose proof (full_overtime_capacity_nonneg config a staff_count order_type
                  Hs Ha1 Hb1) as HC.
    set (C := (spec_base_capacity config a staff_count order_type
               + inject_Z staff_count * 4 * inject_Z (base_productivity_of order_type))%Q)
      in *.
    apply Q.min_le_compat_l.
    apply Qle_shift_div_l; [exact Hp1|].
    assert (E : C / v2 * v1 == (v1 / v2) * C) by (field; lra).
    rewrite E.
    assert (H1le : (v1 / v2 <= 1)%Q).
    { apply Qle_shift_div_r; [exact Hp2|lra]. }
    rewrite <- (Qmult_1_l C) at 2.
    apply Qmult_le_compat_r; [exact H1le|exact HC].
  - rewrite (service_level_spec _ _ _ _ _ _ _ _ Ha H1).
    destruct (Qlt_le_dec 0 v1); [exfalso; lra|exact Hle].
Qed.

Lemma service_level_nonincreasing_in_volume_witness :
  exists cb1 cb2,
    calculate_total_cost default_config 2 172 "E-commerce" thursday "Morning" = Ok cb1 /\
    calculate_total_cost default_config 2 400 "E-commerce" thursday "Morning" = Ok cb2 /\
    (service_level cb2 <= service_level cb1)%Q.
Proof.
  apply (service_level_nonincreasing_in_volume default_config 2 172 400
           "E-commerce" thursday "Morning" 0.09).
  - reflexivity.
  - lia.
  - unfold Qle; simpl; lia.
  - unfold Qle; simpl; lia.
  - unfold Qle; simpl; lia.
Defined.

(** Overtime is never negative and never more than four hours per
    person; over exact rationals the work done in overtime never exceeds
    the shortage above base capacity.  (On doubles it can, see
    [overtime_work_above_shortage_in_binary64].) *)
Theorem overtime_within_cap_and_need config (staff_count : Z) (forecast_volume : Q)
    order_type d shift a :
  ABSENTEEISM_RATES config !! Z.to_nat (weekday d) = Some a ->
  0 <= staff_count ->
  exists cb,
    calculate_total_cost config staff_count forecast_volume order_type d shift = Ok cb /\
    (0 <= overtime_hours cb <= inject_Z staff_count * 4)%Q /\
    (overtime_hours cb * inject_Z (base_productivity_of order_type)
     <= Qmax 0 (forecast_volume - spec_base_capacity config a staff_count order_type))%Q.
Proof.
  intros Ha Hs.
  destruct (calculate_total_cost_returns config staff_count forecast_volume
              order_type d shift) as [cb Hcb]; [by exists a|].
  exists cb. split; [exact Hcb|].
  rewrite (overtime_hours_spec _ _ _ _ _ _ _ _ Ha Hcb).
  unfold spec_overtime_hours.
  set (p := inject_Z (base_productivity_of order_type)).
  set (bc := spec_base_capacity config a staff_count order_type).
  assert (Hp : (0 < p)%Q) by apply inject_Z_pos, base_productivity_pos.
  assert (H4 : (0 <= inject_Z staff_count * 4)%Q).
  { apply Qmult_le_0_compat; [apply inject_Z_nonneg, Hs|lra]. }
  destruct (Qlt_le_dec bc forecast_volume) as [Hlt|Hge].
  - assert (Hq : (0 <= (forecast_volume - bc) / p)%Q).
    { apply Qle_shift_div_l; [exact Hp|lra]. }
    assert (E : (forecast_volume - bc) / p * p == forecast_volume - bc)
      by (field; lra).
    split; [split|].
    + apply Q.min_glb; [exact H4|exact Hq].
    + apply Q.le_min_l.
    + eapply Qle_trans; [|apply Q.le_max_r].
      apply Qle_trans with ((forecast_volume - bc) / p * p)%Q.
      * apply Qmult_le_compat_r; [apply Q.le_min_r|lra].
      * rewrite E. apply Qle_refl.
  - split; [split; [lra|exact H4]|].
    rewrite Qmult_0_l. apply Q.le_max_l.
Qed.

Lemma overtime_within_cap_and_need_witness :
  exists cb,
    calculate_total_cost default_config 3 172 "E-commerce" thursday "Morning" = Ok cb /\
    (0 <= overtime_hours cb <= inject_Z 3 * 4)%Q /\
    (overtime_hours cb * inject_Z (base_productivity_of "E-commerce")
     <= Qmax 0 (172 - spec_base_capacity default_config 0.09 3 "E-commerce"))%Q.
Proof.
  apply (overtime_within_cap_and_need default_config 3 172 "E-commerce" thursday
           "Morning" 0.09).
  - reflexivity.
  - lia.
Defined.

Lemma calculate_skills_penalty_nonneg config s :
  0 <= calculate_skills_penalty config s.
Proof.
  unfold calculate_skills_penalty.
  assert (H : forall l acc, 0 <= acc ->
            0 <= fold_left
              (fun penalty (item : string * Q) =>
                 let required_pct := snd item in
                 let required_count := Z.max 1 (py_int (inject_Z s * required_pct)) in
                 let available_count := Z.max 1 (py_int (inject_Z s * 0.6)) in
                 if available_count <? required_count
                 then let shortage := required_count - available_count in
                      penalty + shortage * 50
                 else penalty) l acc).
  { induction l as [|item l IH]; intros acc Hacc; cbn [fold_left]; [exact Hacc|].
    apply IH. cbv zeta.
    destruct (Z.ltb_spec (Z.max 1 (py_int (inject_Z s * 0.6)))
                (Z.max 1 (py_int (inject_Z s * snd item)))); lia. }
  apply H. lia.
Qed.

(** With non-negative rates and penalty and a non-negative staff count
    no cost component is negative, and the total is at least the regular
    pay. *)
Theorem cost_components_nonnegative config (staff_count : Z) (forecast_volume : Q)
    order_type d shift :
  rate_defined config d ->
  0 <= staff_count ->
  (0 <= REGULAR_RATE config)%Q -> (0 <= OVERTIME_RATE config)%Q ->
  0 <= UNDERSTAFFING_PENALTY config ->
  exists cb,
    calculate_total_cost config staff_count forecast_volume order_type d shift = Ok cb /\
    (0 <= regular_cost cb)%Q /\ (0 <= overtime_cost cb)%Q /\
    (0 <= understaffing_cost cb)%Q /\ 0 <= skills_penalty cb /\
    (regular_cost cb <= total_cost cb)%Q.
Proof.
  intros [a Ha] Hs Hr Ho Hu.
  destruct (calculate_total_cost_returns config staff_count forecast_volume
              order_type d shift) as [cb Hcb]; [by exists a|].
  exists cb. split; [exact Hcb|].
  assert (Hreg : (0 <= regular_cost cb)%Q).
  { rewrite (regular_cost_formula _ _ _ _ _ _ _ Hcb).
    apply Qmult_le_0_compat; [apply inject_Z_nonneg; lia|exact Hr]. }
  assert (Hoh : (0 <= overtime_hours cb)%Q).
  { rewrite (overtime_hours_spec _ _ _ _ _ _ _ _ Ha Hcb).
    unfold spec_overtime_hours.
    pose proof (inject_Z_pos _ (base_productivity_pos order_type)) as Hp.
    destruct (Qlt_le_dec _ forecast_volume) as [Hlt|Hge]; [|lra].
    apply Q.min_glb.
    - apply Qmult_le_0_compat; [apply inject_Z_nonneg, Hs|lra].
    - apply Qle_shift_div_l; [exact Hp|lra]. }
  assert (Hot : (0 <= overtime_cost cb)%Q).
  { destruct (overtime_cost_spec _ _ _ _ _ _ _ _ Ha Hcb) as [H1 H0].
    destruct (Qlt_le_dec (spec_base_capacity config a staff_count order_type)
                forecast_volume) as [Hlt|Hge].
    - rewrite (H1 Hlt). apply Qmult_le_0_compat; [exact Hoh|exact Ho].
    - rewrite (H0 Hge). lra. }
  assert (Hun : (0 <= understaffing_cost cb)%Q).
  { rewrite (understaffing_cost_spec _ _ _ _ _ _ _ _ Ha Hcb).
    destruct (Qlt_le_dec _ forecast_volume) as [Hlt|Hge]; [|lra].
    apply Qmult_le_0_compat; [lra|apply inject_Z_nonneg, Hu]. }
  assert (Hsk : 0 <= skills_penalty cb).
  { revert Hcb. unfold_cost Ha.
    destruct (Qltb _ forecast_volume); intros [= <-]; cbn [skills_penalty];
      apply calculate_skills_penalty_nonneg. }
  assert (Htot : total_cost cb =
            (regular_cost cb + overtime_cost cb + understaffing_cost cb
             + inject_Z (skills_penalty cb))%Q).
  { revert Hcb. unfold_cost Ha.
    destruct (Qltb _ forecast_volume); intros [= <-]; reflexivity. }
  repeat split; try done.
  rewrite Htot. pose proof (inject_Z_nonneg _ Hsk). lra.
Qed.

Lemma cost_components_nonnegative_witness :
  exists cb,
    calculate_total_cost default_config 10 150 "E-commerce" thursday "Morning" = Ok cb /\
    (0 <= regular_cost cb)%Q /\ (0 <= overtime_cost cb)%Q /\
    (0 <= understaffing_cost cb)%Q /\ 0 <= skills_penalty cb /\
    (regular_cost cb <= total_cost cb)%Q.
Proof.
  apply (cost_components_nonnegative default_config 10 150 "E-commerce" thursday
           "Morning").
  - apply rate_defined_default.
  - lia.
  - unfold Qle; simpl; lia.
  - unfold Qle; simpl; lia.
  - simpl. lia.
Defined.

(** A service level below 1 means the final capacity falls short of the
    volume, and then the level is their ratio. *)
Lemma service_level_below_1 config s fv ot d sh a cb :
  ABSENTEEISM_RATES config !! Z.to_nat (weekday d) = Some a ->
  calculate_total_cost config s fv ot d sh = Ok cb ->
  (0 < fv)%Q ->
  let F := spec_final_capacity config a s fv ot in
  ((F < fv)%Q -> service_level cb == F / fv /\ (service_level cb < 1)%Q) /\
  ((fv <= F)%Q -> service_level cb == 1).
Proof.
  intros Ha Hcb Hfv F.
  rewrite (service_level_spec _ _ _ _ _ _ _ _ Ha Hcb). fold F.
  destruct (Qlt_le_dec 0 fv) as [_|Hn]; [|exfalso; lra].
  split; intros H.
  - assert (Hlt : (F / fv < 1)%Q) by (apply Qlt_shift_div_r; lra).
    rewrite Q.min_r by lra. split; [reflexivity|exact Hlt].
  - apply Q.min_l. apply Qle_shift_div_l; lra.
Qed.

(** Over exact rationals the understaffing charge is the uncovered share
    of the demand at the penalty rate: for a positive volume
    [understaffing_cost = (1 - service_level) * volume * penalty]; with a
    positive penalty it is charged exactly when the service level is
    below 1. *)
Theorem understaffing_cost_from_service_level config (staff_count : Z)
    (forecast_volume : Q) order_type d shift :
  rate_defined config d ->
  (0 < forecast_volume)%Q ->
  exists cb,
    calculate_total_cost config staff_count forecast_volume order_type d shift = Ok cb /\
    understaffing_cost cb ==
      (1 - service_level cb) * forecast_volume
      * inject_Z (UNDERSTAFFING_PENALTY config) /\
    (0 < UNDERSTAFFING_PENALTY config ->
       ((0 < understaffing_cost cb)%Q <-> (service_level cb < 1)%Q)).
Proof.
  intros [a Ha] Hfv.
  destruct (calculate_total_cost_returns config staff_count forecast_volume
              order_type d shift) as [cb Hcb]; [by exists a|].
  exists cb. split; [exact Hcb|].
  pose proof (understaffing_cost_spec _ _ _ _ _ _ _ _ Ha Hcb) as Hun.
  destruct (service_level_below_1 _ _ _ _ _ _ _ _ Ha Hcb Hfv) as [Hlow Hfull].
  set (F := spec_final_capacity config a staff_count forecast_volume order_type) in *.
  set (P := inject_Z (UNDERSTAFFING_PENALTY config)).
  fold P in Hun.
  destruct (Qlt_le_dec F forecast_volume) as [Hlt|Hge].
  - destruct (Hlow Hlt) as [Esl Hsl].
    assert (Eid : understaffing_cost cb == (1 - service_level cb) * forecast_volume * P).
    { rewrite Hun, Esl. field. lra. }
    split; [exact Eid|]. intros Hpen.
    assert (HP : (0 < P)%Q) by (subst P; apply inject_Z_pos, Hpen).
    split; [intros _; exact Hsl|]. intros _. rewrite Hun.
    apply Qmult_lt_0_compat; lra.
  - pose proof (Hfull Hge) as Esl.
    assert (Eid : understaffing_cost cb == (1 - service_level cb) * forecast_volume * P).
    { rewrite Hun, Esl. ring. }
    split; [exact Eid|]. intros Hpen. rewrite Hun, Esl. split; intros H; lra.
Qed.

Lemma understaffing_cost_from_service_level_witness :
  exists cb,
    calculate_total_cost default_config 25 4600 "E-commerce" thursday "Morning" = Ok cb /\
    understaffing_cost cb ==
      (1 - service_level cb) * 4600 * inject_Z (UNDERSTAFFING_PENALTY default_config) /\
    (0 < UNDERSTAFFING_PENALTY default_config ->
       ((0 < understaffing_cost cb)%Q <-> (service_level cb < 1)%Q)).
Proof.
  apply (understaffing_cost_from_service_level default_config 25 4600 "E-commerce"
           thursday "Morning").
  - apply rate_defined_default.
  - reflexivity.
Defined.

(** Over exact rationals orders are only missed once overtime is
    exhausted: a breakdown whose service level is below 1 has every person
    on the full four overtime hours.  (Rounding breaks this on doubles,
    see [shortfall_before_full_overtime_in_binary64].) *)
Theorem shortfall_only_after_full_overtime config (staff_count : Z)
    (forecast_volume : Q) order_type d shift cb :
  calculate_total_cost config staff_count forecast_volume order_type d shift = Ok cb ->
  (service_level cb < 1)%Q ->
  overtime_hours cb == inject_Z staff_count * 4.
Proof.
  intros Hcb Hsl.
  destruct (ABSENTEEISM_RATES config !! Z.to_nat (weekday d)) as [a|] eqn:Ha.
  2:{ rewrite calculate_total_cost_raises in Hcb; [done|].
      intros [a' Ha']. congruence. }
  assert (Hfv : (0 < forecast_volume)%Q).
  { destruct (Qlt_le_dec 0 forecast_volume) as [H|H]; [exact H|].
    rewrite (service_level_spec _ _ _ _ _ _ _ _ Ha Hcb) in Hsl.
    destruct (Qlt_le_dec 0 forecast_volume); [exfalso|]; lra. }
  destruct (service_level_below_1 _ _ _ _ _ _ _ _ Ha Hcb Hfv) as [_ Hfull].
  rewrite (overtime_hours_spec _ _ _ _ _ _ _ _ Ha Hcb).
  destruct (spec_final_capacity_cases config a staff_count forecast_volume order_type)
    as [Hcover|[Hcap Hbelow]].
  { rewrite (Hfull Hcover) in Hsl. exfalso. lra. }
  unfold spec_final_capacity in Hcap.
  pose proof (inject_Z_pos _ (base_productivity_pos order_type)) as Hp.
  set (p := inject_Z (base_productivity_of order_type)) in *.
  assert (E : spec_overtime_hours config a staff_count forecast_volume order_type * p
              == inject_Z staff_count * 4 * p) by lra.
  apply (Qmult_inj_r _ _ p); [lra|exact E].
Qed.

Lemma shortfall_only_after_full_overtime_witness :
  exists cb,
    calculate_total_cost default_config 25 4600 "E-commerce" thursday "Morning" = Ok cb /\
    overtime_hours cb == inject_Z 25 * 4.
Proof.
  eexists. split; [vm_compute; reflexivity|].
  eapply (shortfall_only_after_full_overtime default_config 25 4600 "E-commerce"
            thursday "Morning").
  - vm_compute. reflexivity.
  - vm_compute. reflexivity.
Defined.

(** Over exact rationals, with a positive crew and shrink factors below
    1, utilisation exceeds 1 exactly when the service level is below 1,
    and the two multiply to [min(1, capacity_utilization)]: for an
    uncovered slot utilisation is the reciprocal of the service level. *)
Theorem utilization_mirrors_service_level config (staff_count : Z)
    (forecast_volume : Q) order_type d shift a :
  ABSENTEEISM_RATES config !! Z.to_nat (weekday d) = Some a ->
  0 < staff_count -> (a < 1)%Q -> (BREAK_COVERAGE_FACTOR config < 1)%Q ->
  (0 < forecast_volume)%Q ->
  exists cb,
    calculate_total_cost config staff_count forecast_volume order_type d shift = Ok cb /\
    ((service_level cb < 1)%Q <-> (1 < capacity_utilization cb)%Q) /\
    capacity_utilization cb * service_level cb == Qmin 1 (capacity_utilization cb).
Proof.
  intros Ha Hs Ha1 Hb1 Hfv.
  destruct (calculate_total_cost_returns config staff_count forecast_volume
              order_type d shift) as [cb Hcb]; [by exists a|].
  exists cb. split; [exact Hcb|].
  pose proof (capacity_utilization_spec _ _ _ _ _ _ _ _ Ha Hcb) as Hcu.
  destruct (service_level_below_1 _ _ _ _ _ _ _ _ Ha Hcb Hfv) as [Hlow Hfull].
  set (F := spec_final_capacity config a staff_count forecast_volume order_type) in *.
  pose proof (inject_Z_pos _ (base_productivity_pos order_type)) as Hp.
  assert (Hbc : (0 < spec_base_capacity config a staff_count order_type)%Q).
  { unfold spec_base_capacity.
    repeat apply Qmult_lt_0_compat; try lra. apply inject_Z_pos, Hs. }
  assert (H4 : (0 <= inject_Z staff_count * 4
                     * inject_Z (base_productivity_of order_type))%Q).
  { apply Qmult_le_0_compat; [|lra].
    apply Qmult_le_0_compat; [apply inject_Z_nonneg; lia|lra]. }
  assert (HF : (0 < F)%Q).
  { destruct (spec_final_capacity_cases config a staff_count forecast_volume
                order_type) as [Hc|[Hc _]]; fold F in Hc; [lra|].
    rewrite Hc. lra. }
  destruct (Qlt_le_dec 0 F) as [_|Hn]; [|exfalso; lra].
  destruct (Qlt_le_dec F forecast_volume) as [Hlt|Hge].
  - destruct (Hlow Hlt) as [Esl Hsl].
    assert (Hcu1 : (1 < capacity_utilization cb)%Q).
    { rewrite Hcu. apply Qlt_shift_div_l; lra. }
    split; [split; intros _; assumption|].
    rewrite (Q.min_l 1) by lra. rewrite Hcu, Esl. field. lra.
  - pose proof (Hfull Hge) as Esl.
    assert (Hcu1 : (capacity_utilization cb <= 1)%Q).
    { rewrite Hcu. apply Qle_shift_div_r; lra. }
    split; [split; intros H; exfalso; lra|].
    rewrite Q.min_r by lra. rewrite Esl. ring.
Qed.

Lemma utilization_mirrors_service_level_witness :
  exists cb,
    calculate_total_cost default_config 25 4600 "E-commerce" thursday "Morning" = Ok cb /\
    ((service_level cb < 1)%Q <-> (1 < capacity_utilization cb)%Q) /\
    capacity_utilization cb * service_level cb == Qmin 1 (capacity_utilization cb).
Proof.
  apply (utilization_mirrors_service_level default_config 25 4600 "E-commerce"
           thursday "Morning" 0.09).
  - reflexivity.
  - lia.
  - reflexivity.
  - reflexivity.
  - reflexivity.
Defined.

Lemma base_productivity_unknown ot :
  ot <> "B2B"%string -> ot <> "Express"%string -> base_productivity_of ot = 18.
Proof.
  intros H1 H2. unfold base_productivity_of, productivity_rates.
  rewrite lookup_insert. case_decide as E1; [reflexivity|].
  rewrite lookup_insert. case_decide as E2; [by subst ot|].
  rewrite lookup_insert. case_decide as E3; [by subst ot|].
  rewrite lookup_empty. reflexivity.
Qed.

(** For every order type the cost model reads the date only through its
    weekday and ignores the shift: two slots on the same weekday get the
    same result, exceptions included.  An order type other than B2B and
    Express (an unknown one as well) is priced at the e-commerce
    productivity. *)
Theorem unlisted_order_type_costs_as_ecommerce config (staff_count : Z)
    (forecast_volume : Q) (order_type : string) (d d' : date) (shift shift' : string) :
  weekday d = weekday d' ->
  calculate_total_cost config staff_count forecast_volume order_type d shift
  = calculate_total_cost config staff_count forecast_volume order_type d' shift' /\
  (order_type <> "B2B"%string -> order_type <> "Express"%string ->
   calculate_total_cost config staff_count forecast_volume order_type d shift
   = calculate_total_cost config staff_count forecast_volume "E-commerce" d' shift').
Proof.
  intros Hw. unfold calculate_total_cost. rewrite Hw. split; [reflexivity|].
  intros H1 H2.
  fold (base_productivity_of order_type). fold (base_productivity_of "E-commerce").
  rewrite (base_productivity_unknown order_type H1 H2).
  rewrite (base_productivity_unknown "E-commerce") by done.
  reflexivity.
Qed.

Lemma unlisted_order_type_costs_as_ecommerce_witness :
  calculate_total_cost default_config 5 90 "Returns" thursday "Night"
  = calculate_total_cost default_config 5 90 "Returns"
      {| toordinal := 738924 |} "Morning" /\
  ("Returns"%string <> "B2B"%string -> "Returns"%string <> "Express"%string ->
   calculate_total_cost default_config 5 90 "Returns" thursday "Night"
   = calculate_total_cost default_config 5 90 "E-commerce"
       {| toordinal := 738924 |} "Morning").
Proof.
  apply (unlisted_order_type_costs_as_ecommerce default_config 5 90 "Returns"
           thursday {| toordinal := 738924 |} "Night" "Morning").
  reflexivity.
Defined.

(** Returns, an order type the productivity table does not list, costs
    what e-commerce costs; B2B costs less for the same crew and volume. *)
Example returns_cost_as_ecommerce :
  calculate_total_cost default_config 5 90 "Returns" thursday "Night"
  = calculate_total_cost default_config 5 90 "E-commerce"
      {| toordinal := 738924 |} "Morning" /\
  calculate_total_cost default_config 5 90 "B2B" thursday "Night"
  <> calculate_total_cost default_config 5 90 "E-commerce" thursday "Night".
Proof. split; vm_compute; [reflexivity|discriminate]. Qed.

(* ===================================================================== *)
(** ** Further facts about the staffing search *)
(* ===================================================================== *)

Lemma optimize_shift_staffing_no_rate config row :
  MIN_STAFF_PER_SHIFT config <= MAX_STAFF_PER_SHIFT config ->
  ~ rate_defined config (Date row) ->
  optimize_shift_staffing config row = Raise IndexError.
Proof.
  intros Hbounds Hrate. unfold optimize_shift_staffing, py_range.
  rewrite seqZ_cons by lia. cbn [for_each]. unfold feasible_step.
  rewrite (calculate_total_cost_raises config (MIN_STAFF_PER_SHIFT config)) by done.
  reflexivity.
Qed.

Lemma optimize_shift_staffing_ok_inv config row r :
  optimize_shift_staffing config row = Ok r ->
  MIN_STAFF_PER_SHIFT config <= MAX_STAFF_PER_SHIFT config /\
  rate_defined config (Date row).
Proof.
  intros Hr.
  destruct (Z_lt_le_dec (MAX_STAFF_PER_SHIFT config) (MIN_STAFF_PER_SHIFT config))
    as [Hinv|Hbounds].
  { rewrite optimize_shift_staffing_inverted in Hr; done. }
  split; [exact Hbounds|].
  destruct (decide (rate_defined config (Date row))) as [Hrate|Hrate]; [done|].
  rewrite optimize_shift_staffing_no_rate in Hr; done.
Qed.

(** The three outcomes of the search: with inverted bounds it raises
    [TypeError]; with a non-empty range but no absenteeism rate for the
    record's weekday it raises [IndexError] at the first candidate;
    otherwise it returns a result. *)
Theorem optimize_outcomes config row :
  (MAX_STAFF_PER_SHIFT config < MIN_STAFF_PER_SHIFT config ->
     optimize_shift_staffing config row = Raise TypeError) /\
  (MIN_STAFF_PER_SHIFT config <= MAX_STAFF_PER_SHIFT config ->
   ~ rate_defined config (Date row) ->
     optimize_shift_staffing config row = Raise IndexError) /\
  (MIN_STAFF_PER_SHIFT config <= MAX_STAFF_PER_SHIFT config ->
   rate_defined config (Date row) ->
     exists r, optimize_shift_staffing config row = Ok r).
Proof.
  split; [apply optimize_shift_staffing_inverted|].
  split; [apply optimize_shift_staffing_no_rate|].
  intros Hbounds Hrate.
  destruct (candidate_metrics config row Hrate) as [cm Hcm].
  destruct (optimize_shift_staffing_spec config row cm Hcm Hbounds)
    as (r & _ & _ & Hr & _).
  by exists r.
Qed.

(** A returned service level below the target tells the caller that the
    target was out of reach: it happens exactly when no staff count
    within the bounds reaches the target at the record's upper bound. *)
Theorem below_target_iff_infeasible config row r :
  optimize_shift_staffing config row = Ok r ->
  ((ServiceLevel r < TARGET_SERVICE_LEVEL config)%Q <->
   forall s cb,
     MIN_STAFF_PER_SHIFT config <= s <= MAX_STAFF_PER_SHIFT config ->
     evaluate_candidate config row s = Ok cb ->
     (service_level cb < TARGET_SERVICE_LEVEL config)%Q).
Proof.
  intros Hr.
  destruct (optimize_shift_staffing_ok_inv config row r Hr) as [Hbounds Hrate].
  destruct (candidate_metrics config row Hrate) as [cm Hcm].
  destruct (optimize_shift_staffing_spec config row cm Hcm Hbounds)
    as (r' & pre & post & Hr' & Hsplit & Hm & _ & Hsl & Hcase).
  rewrite Hr in Hr'. injection Hr' as <-.
  assert (Hin : OptimalStaff r ∈ staff_range config) by (rewrite Hsplit; set_solver).
  split.
  - intros Hlow s cb Hs Hcb.
    destruct Hcase as [(Hmeets & _)|(Hnone & _)].
    + apply meets_target_true in Hmeets. rewrite <- Hsl in Hmeets.
      exfalso. apply (Qlt_not_le _ _ Hlow). exact Hmeets.
    + rewrite Hcm in Hcb. injection Hcb as <-.
      apply Qnot_le_lt. apply meets_target_false. apply Hnone.
      by apply elem_of_staff_range.
  - intros Hall. rewrite Hsl, Hm. apply (Hall (OptimalStaff r)).
    + by apply elem_of_staff_range.
    + apply Hcm.
Qed.

Lemma below_target_iff_infeasible_witness :
  exists r,
    optimize_shift_staffing default_config row_infeasible = Ok r /\
    ((ServiceLevel r < TARGET_SERVICE_LEVEL default_config)%Q <->
     forall s cb,
       MIN_STAFF_PER_SHIFT default_config <= s <= MAX_STAFF_PER_SHIFT default_config ->
       evaluate_candidate default_config row_infeasible s = Ok cb ->
       (service_level cb < TARGET_SERVICE_LEVEL default_config)%Q).
Proof.
  eexists. split; [vm_compute; reflexivity|].
  apply (below_target_iff_infeasible default_config row_infeasible).
  vm_compute. reflexivity.
Defined.

Lemma total_cost_formula config s fv ot d sh cb :
  calculate_total_cost config s fv ot d sh = Ok cb ->
  total_cost cb =
    (regular_cost cb + overtime_cost cb + understaffing_cost cb
     + inject_Z (skills_penalty cb))%Q /\
  skills_penalty cb = calculate_skills_penalty config s.
Proof.
  unfold calculate_total_cost, list_index.
  destruct (ABSENTEEISM_RATES config !! Z.to_nat (weekday d)); [|done].
  cbn [mbind outcome_bind mret outcome_ret].
  destruct (Qltb _ fv); intros [= <-]; split; reflexivity.
Qed.

(** The breakdown of a slot without demand: regular pay only. *)
Lemma no_demand_breakdown config s fv ot d sh a cb :
  ABSENTEEISM_RATES config !! Z.to_nat (weekday d) = Some a ->
  calculate_total_cost config s fv ot d sh = Ok cb ->
  0 <= s -> (fv <= 0)%Q -> (a <= 1)%Q -> (BREAK_COVERAGE_FACTOR config <= 1)%Q ->
  Forall (fun item : string * Q => (snd item <= 0.6)%Q) (SKILL_REQUIREMENTS config) ->
  total_cost cb == inject_Z s * 8 * REGULAR_RATE config /\
  service_level cb == 1 /\ overtime_hours cb == 0.
Proof.
  intros Ha Hcb Hs Hfv Ha1 Hb1 Hskills.
  assert (Hbc : (0 <= spec_base_capacity config a s ot)%Q).
  { unfold spec_base_capacity.
    pose proof (inject_Z_pos _ (base_productivity_pos ot)).
    repeat apply Qmult_le_0_compat; try lra. apply inject_Z_nonneg, Hs. }
  assert (Hoh : overtime_hours cb == 0).
  { rewrite (overtime_hours_spec _ _ _ _ _ _ _ _ Ha Hcb).
    unfold spec_overtime_hours.
    destruct (Qlt_le_dec _ fv); [exfalso; lra|reflexivity]. }
  assert (HF : spec_final_capacity config a s fv ot
               == spec_base_capacity config a s ot).
  { unfold spec_final_capacity.
    rewrite <- (overtime_hours_spec _ _ _ _ _ _ _ _ Ha Hcb), Hoh. ring. }
  destruct (total_cost_formula _ _ _ _ _ _ _ Hcb) as [Htot Hsk].
  destruct (overtime_cost_spec _ _ _ _ _ _ _ _ Ha Hcb) as [_ Hoc].
  split; [|split; [|exact Hoh]].
  - rewrite Htot, Hsk, calculate_skills_penalty_zero by done.
    rewrite Hoc by lra.
    rewrite (understaffing_cost_spec _ _ _ _ _ _ _ _ Ha Hcb).
    destruct (Qlt_le_dec _ fv) as [Hlt|_]; [exfalso; lra|].
    rewrite (regular_cost_formula _ _ _ _ _ _ _ Hcb), inject_Z_mult.
    change (inject_Z 8) with 8%Q. change (inject_Z 0) with 0%Q. ring.
  - rewrite (service_level_spec _ _ _ _ _ _ _ _ Ha Hcb).
    destruct (Qlt_le_dec 0 fv); [exfalso; lra|reflexivity].
Qed.

(** A slot without demand (upper bound 0 or less) gets the minimum crew,
    at regular pay only, in every configuration with a positive regular
    rate, shrink factors and target at most 1, and skill fractions within
    the assumed availability. *)
Theorem no_demand_gets_minimum_crew config row a :
  0 <= MIN_STAFF_PER_SHIFT config <= MAX_STAFF_PER_SHIFT config ->
  ABSENTEEISM_RATES config !! Z.to_nat (weekday (Date row)) = Some a ->
  (a <= 1)%Q -> (BREAK_COVERAGE_FACTOR config <= 1)%Q ->
  (0 < REGULAR_RATE config)%Q -> (TARGET_SERVICE_LEVEL config <= 1)%Q ->
  Forall (fun item : string * Q => (snd item <= 0.6)%Q) (SKILL_REQUIREMENTS config) ->
  UpperBound row <= 0 ->
  exists r,
    optimize_shift_staffing config row = Ok r /\
    OptimalStaff r = MIN_STAFF_PER_SHIFT config /\
    ServiceLevel r == 1 /\ OvertimeHours r == 0 /\
    total_cost (metrics r)
      == inject_Z (MIN_STAFF_PER_SHIFT config) * 8 * REGULAR_RATE config.
Proof.
  intros Hbounds Ha Ha1 Hb1 Hrate Htarget Hskills Hub.
  assert (Hdef : rate_defined config (Date row)) by (by exists a).
  assert (Hfv : (inject_Z (UpperBound row) <= 0)%Q).
  { change 0%Q with (inject_Z 0). rewrite <- Zle_Qle. exact Hub. }
  destruct (candidate_metrics config row Hdef) as [cm Hcm].
  assert (Hcost : forall s, 0 <= s ->
            total_cost (cm s) == inject_Z s * 8 * REGULAR_RATE config /\
            service_level (cm s) == 1 /\ overtime_hours (cm s) == 0).
  { intros s Hs.
    exact (no_demand_breakdown config s (inject_Z (UpperBound row)) (OrderType row)
             (Date row) (Shift row) a (cm s) Ha (Hcm s) Hs Hfv Ha1 Hb1 Hskills). }
  destruct (optimize_shift_staffing_spec config row cm Hcm)
    as (r & pre & post & Hr & Hsplit & Hm & _ & Hsl & Hcase); [lia|].
  destruct (py_range_split _ _ _ _ _ Hsplit) as (Hx & Hpre_in & _ & _).
  assert (Hopt : OptimalStaff r = MIN_STAFF_PER_SHIFT config).
  { destruct (Z.eq_dec (OptimalStaff r) (MIN_STAFF_PER_SHIFT config)) as [E|E];
      [exact E|exfalso].
    assert (Hmin : MIN_STAFF_PER_SHIFT config ∈ pre) by (apply Hpre_in; lia).
    destruct (Hcost (MIN_STAFF_PER_SHIFT config)) as (Cmin & Smin & _); [lia|].
    destruct (Hcost (OptimalStaff r)) as (Copt & _ & _); [lia|].
    assert (Hlt : (total_cost (metrics r)
                   < total_cost (cm (MIN_STAFF_PER_SHIFT config)))%Q).
    { destruct Hcase as [(_ & Hlt & _)|(_ & Hlt & _)].
      - apply Hlt; [exact Hmin|]. apply meets_target_true. rewrite Smin. exact Htarget.
      - by apply Hlt. }
    rewrite Hm, Cmin, Copt in Hlt.
    assert (Hord : (inject_Z (MIN_STAFF_PER_SHIFT config)
                    <= inject_Z (OptimalStaff r))%Q) by (rewrite <- Zle_Qle; lia).
    assert (Hmul : (inject_Z (MIN_STAFF_PER_SHIFT config) * 8 * REGULAR_RATE config
                    <= inject_Z (OptimalStaff r) * 8 * REGULAR_RATE config)%Q).
    { apply Qmult_le_compat_r; [|lra]. apply Qmult_le_compat_r; [exact Hord|lra]. }
    lra. }
  exists r. split; [exact Hr|]. split; [exact Hopt|].
  destruct (Hcost (OptimalStaff r)) as (Copt & Sopt & Oopt); [lia|].
  assert (Hoh : OvertimeHours r = overtime_hours (metrics r)).
  { revert Hr. unfold optimize_shift_staffing.
    destruct (for_each _ _ _) as [st1|]; [|done]. cbn [mbind outcome_bind].
    destruct (match best_metrics st1 with Some _ => _ | None => _ end) as [st2|];
      [|done].
    cbn [mbind outcome_bind].
    destruct (best_metrics st2); [|done]. intros [= <-]. reflexivity. }
  rewrite Hsl, Hoh, Hm, <- Hopt. done.
Qed.

Lemma no_demand_gets_minimum_crew_witness :
  exists r,
    optimize_shift_staffing default_config
      {| Date := thursday; Shift := "Night"; OrderType := "Express";
         ForecastVolume := 0; LowerBound := 0; UpperBound := 0;
         Uncertainty := 0 |} = Ok r /\
    OptimalStaff r = MIN_STAFF_PER_SHIFT default_config /\
    ServiceLevel r == 1 /\ OvertimeHours r == 0 /\
    total_cost (metrics r)
      == inject_Z (MIN_STAFF_PER_SHIFT default_config) * 8 * REGULAR_RATE default_config.
Proof.
  apply (no_demand_gets_minimum_crew default_config _ 0.09).
  - simpl. lia.
  - reflexivity.
  - unfold Qle; simpl; lia.
  - unfold Qle; simpl; lia.
  - reflexivity.
  - unfold Qle; simpl; lia.
  - apply default_skill_fractions.
  - simpl. lia.
Defined.

(** When the returned result reaches the target on a slot with demand,
    the crew's largest capacity (base plus four overtime hours each)
    covers the target share of the upper bound. *)
Theorem target_met_means_capacity_covers config row r a :
  optimize_shift_staffing config row = Ok r ->
  ABSENTEEISM_RATES config !! Z.to_nat (weekday (Date row)) = Some a ->
  0 <= MIN_STAFF_PER_SHIFT config -> 0 < UpperBound row ->
  (TARGET_SERVICE_LEVEL config <= ServiceLevel r)%Q ->
  (TARGET_SERVICE_LEVEL config * inject_Z (UpperBound row)
   <= inject_Z (OptimalStaff r)
      * ((1 - a) * (1 - BREAK_COVERAGE_FACTOR config) + 4)
      * inject_Z (base_productivity_of (OrderType row)))%Q.
Proof.
  intros Hr Ha Hmin Hub Hmet.
  destruct (optimize_shift_staffing_ok_inv config row r Hr) as [Hbounds Hrate].
  destruct (candidate_metrics config row Hrate) as [cm Hcm].
  destruct (optimize_shift_staffing_spec config row cm Hcm Hbounds)
    as (r' & pre & post & Hr' & Hsplit & Hm & _ & Hsl & _).
  rewrite Hr in Hr'. injection Hr' as <-.
  destruct (py_range_split _ _ _ _ _ Hsplit) as (Hx & _).
  assert (Hfv : (0 < inject_Z (UpperBound row))%Q) by (apply inject_Z_pos, Hub).
  pose proof (Hcm (OptimalStaff r)) as Hcb. unfold evaluate_candidate in Hcb.
  rewrite <- Hm in Hcb.
  assert (Hs : 0 <= OptimalStaff r) by lia.
  pose proof (service_level_closed _ _ _ _ _ _ _ _ Ha Hcb Hs Hfv) as Hclosed.
  rewrite full_overtime_capacity in Hclosed.
  rewrite Hsl, Hclosed in Hmet.
  apply Q.min_glb_r in Hmet.
  set (C := (inject_Z (OptimalStaff r)
             * ((1 - a) * (1 - BREAK_COVERAGE_FACTOR config) + 4)
             * inject_Z (base_productivity_of (OrderType row)))%Q) in *.
  apply (Qmult_le_compat_r _ _ (inject_Z (UpperBound row))) in Hmet; [|lra].
  assert (E : C / inject_Z (UpperBound row) * inject_Z (UpperBound row) == C)
    by (field; lra).
  rewrite E in Hmet. exact Hmet.
Qed.

Lemma target_met_means_capacity_covers_witness :
  exists r,
    optimize_shift_staffing default_config row_feasible = Ok r /\
    (TARGET_SERVICE_LEVEL default_config * inject_Z (UpperBound row_feasible)
     <= inject_Z (OptimalStaff r)
        * ((1 - 0.09) * (1 - BREAK_COVERAGE_FACTOR default_config) + 4)
        * inject_Z (base_productivity_of (OrderType row_feasible)))%Q.
Proof.
  eexists. split; [vm_compute; reflexivity|].
  apply (target_met_means_capacity_covers default_config row_feasible _ 0.09).
  - vm_compute. reflexivity.
  - reflexivity.
  - simpl. lia.
  - simpl. lia.
  - vm_compute. discriminate.
Defined.

(* ===================================================================== *)
(** ** Further facts about the forecaster *)
(* ===================================================================== *)

Lemma list_filter_bind {A B} (P : B -> Prop) `{!forall x, Decision (P x)}
    (f : A -> list B) (l : list A) :
  filter P (l ≫= f) = l ≫= (fun x => filter P (f x)).
Proof.
  induction l as [|x l IH]; [reflexivity|].
  cbn [mbind list_bind]. rewrite filter_app, IH. reflexivity.
Qed.

Lemma list_fmap_of_bind {A B C} (h : B -> C) (f : A -> list B) (l : list A) :
  h <$> (l ≫= f) = l ≫= (fun x => h <$> f x).
Proof.
  induction l as [|x l IH]; [reflexivity|].
  cbn [mbind list_bind]. rewrite fmap_app, IH. reflexivity.
Qed.

Lemma list_bind_ext_all {A B} (f g : A -> list B) (l : list A) :
  (forall x, f x = g x) -> l ≫= f = l ≫= g.
Proof.
  intros H. induction l as [|x l IH]; [reflexivity|].
  cbn [mbind list_bind]. rewrite H, IH. reflexivity.
Qed.

Lemma forecast_demand_slots {Model : Type} (predict : Model -> date -> Q)
    (self : AdvancedForecaster Model) dates shifts ots :
  slot_of <$> forecast_demand predict self dates shifts ots
  = filter (fun slot => is_Some (models self !! (slot.1.2, slot.2)))
      (requested_slots dates shifts ots).
Proof.
  unfold forecast_demand, requested_slots.
  rewrite list_fmap_of_bind, list_filter_bind.
  apply list_bind_ext_all. intros d.
  rewrite list_fmap_of_bind, list_filter_bind.
  apply list_bind_ext_all. intros shift.
  rewrite list_fmap_of_bind, list_filter_bind.
  apply list_bind_ext_all. intros ot.
  destruct (models self !! (shift, ot)) as [model|] eqn:E.
  - rewrite filter_cons_True by (cbn; rewrite E; eauto). reflexivity.
  - rewrite filter_cons_False by (cbn; rewrite E; intros [? ?]; done).
    reflexivity.
Qed.

(** The records of a forecast answer exactly the requested (date, shift,
    order type) combinations whose segment has a model, in request order
    (dates outermost, order types innermost); a combination without a
    model is left out without any error. *)
Theorem forecast_covers_trained_slots {Model : Type} (predict : Model -> date -> Q)
    (self : AdvancedForecaster Model) (forecast_dates : list date)
    (shifts order_types : list string) :
  slot_of <$> forecast_demand predict self forecast_dates shifts order_types
  = filter (fun slot => is_Some (models self !! (slot.1.2, slot.2)))
      (requested_slots forecast_dates shifts order_types).
Proof. apply forecast_demand_slots. Qed.

Lemma list_bind_length_const {A B} (f : A -> list B) (l : list A) (n : nat) :
  (forall x, x ∈ l -> length (f x) = n) -> length (l ≫= f) = (length l * n)%nat.
Proof.
  induction l as [|x l IH]; intros H; [reflexivity|].
  cbn [mbind list_bind]. rewrite length_app, IH, H by set_solver. simpl. lia.
Qed.

Lemma list_bind_all_nil {A B} (f : A -> list B) (l : list A) :
  (forall x, x ∈ l -> f x = []) -> l ≫= f = [].
Proof.
  induction l as [|x l IH]; intros H; [reflexivity|].
  cbn [mbind list_bind]. rewrite IH, H by set_solver. reflexivity.
Qed.

(** A forecast is complete when every requested segment has a model (one
    record per date, shift and order type) and empty when none has; in
    particular a forecaster that was never trained forecasts nothing. *)
Theorem forecast_complete_or_empty {Model : Type} (predict : Model -> date -> Q)
    (self : AdvancedForecaster Model) (forecast_dates : list date)
    (shifts order_types : list string) :
  ((forall shift order_type, shift ∈ shifts -> order_type ∈ order_types ->
      is_Some (models self !! (shift, order_type))) ->
   length (forecast_demand predict self forecast_dates shifts order_types)
   = (length forecast_dates * (length shifts * length order_types))%nat) /\
  ((forall shift order_type, shift ∈ shifts -> order_type ∈ order_types ->
      models self !! (shift, order_type) = None) ->
   forecast_demand predict self forecast_dates shifts order_types = []) /\
  forecast_demand predict AdvancedForecaster_init forecast_dates shifts order_types = [].
Proof.
  unfold forecast_demand. split; [|split].
  - intros Hall.
    apply list_bind_length_const. intros d _.
    apply list_bind_length_const. intros shift Hs.
    rewrite <- (Nat.mul_1_r (length order_types)).
    apply list_bind_length_const. intros ot Ho.
    destruct (Hall shift ot Hs Ho) as [model ->]. reflexivity.
  - intros Hnone.
    apply list_bind_all_nil. intros d _.
    apply list_bind_all_nil. intros shift Hs.
    apply list_bind_all_nil. intros ot Ho.
    rewrite (Hnone shift ot Hs Ho). reflexivity.
  - apply list_bind_all_nil. intros d _.
    apply list_bind_all_nil. intros shift Hs.
    apply list_bind_all_nil. intros ot Ho.
    cbn [models AdvancedForecaster_init]. rewrite lookup_empty. reflexivity.
Qed.

Section TrainingFacts.

Context {Model : Type}.
Variable fit : list FeatureRow -> Model.
Variable feature_importances_ : Model -> list Q.

Lemma train_groups_lookup df_clean keys (self : AdvancedForecaster Model) k :
  let group := group_rows (segment_of ∘ observation) k df_clean in
  let self' := foldl (train_group fit feature_importances_ df_clean) self keys in
  models self' !! k =
    (if decide (k ∈ keys /\ (20 <= length group)%nat)
     then Some (fit group) else models self !! k) /\
  feature_importance self' !! k =
    (if decide (k ∈ keys /\ (20 <= length group)%nat)
     then Some (zip feature_cols (feature_importances_ (fit group)))
     else feature_importance self !! k).
Proof.
  intros group. revert self.
  induction keys as [|k0 keys IH]; intros self; cbn [foldl].
  - rewrite decide_False by set_solver. done.
  - destruct (IH (train_group fit feature_importances_ df_clean self k0))
      as [IHm IHf].
    cbv zeta in *. rewrite IHm, IHf. clear IHm IHf IH.
    unfold train_group.
    destruct (length (group_rows _ k0 df_clean) <? 20)%nat eqn:E.
    + apply Nat.ltb_lt in E.
      destruct (decide (k ∈ keys /\ _)) as [[H1 H2]|Hn].
      * rewrite !decide_True by set_solver. done.
      * destruct (decide (k ∈ k0 :: keys /\ _)) as [[H1 H2]|Hn']; [|done].
        exfalso. apply elem_of_cons in H1 as [->|H1]; [fold group in E; lia|].
        apply Hn. done.
    + apply Nat.ltb_ge in E. cbn [models feature_importance].
      destruct (decide (k ∈ keys /\ _)) as [[H1 H2]|Hn].
      * rewrite !decide_True by set_solver. done.
      * rewrite !lookup_insert.
        destruct (decide (k0 = k)) as [->|Hne].
        -- rewrite !decide_True by set_solver. done.
        -- rewrite !decide_False; [done| |]; intros [H1 H2];
             apply elem_of_cons in H1 as [->|H1]; [done|apply Hn; done|done|apply Hn; done].
Qed.

Lemma train_models_lookup_both (self : AdvancedForecaster Model) data k :
  let usable := usable_rows data k in
  let self' := train_models fit feature_importances_ self data in
  models self' !! k =
    (if decide (20 <= length usable)%nat
     then Some (fit usable) else models self !! k) /\
  feature_importance self' !! k =
    (if decide (20 <= length usable)%nat
     then Some (zip feature_cols (feature_importances_ (fit usable)))
     else feature_importance self !! k).
Proof.
  intros usable self'. subst self' usable. unfold train_models, usable_rows.
  destruct (train_groups_lookup (dropna (prepare_features data))
              (group_keys (segment_of ∘ observation) (dropna (prepare_features data)))
              self k) as [Hm Hf].
  cbv zeta in Hm, Hf. rewrite Hm, Hf.
  destruct (decide (20 <= _)%nat) as [H20|H20].
  - rewrite !decide_True; [done| |]; (split; [|exact H20]);
      apply group_rows_nonempty_key; lia.
  - rewrite !decide_False; [done| |]; intros [_ H]; done.
Qed.

(** Training again never removes a model.  After [train_models] a
    segment with at least 20 usable rows in the new data holds a model
    fitted on exactly those rows; every other segment holds whatever model
    it held before, stale or absent. *)
Theorem retraining_keeps_models (self : AdvancedForecaster Model)
    (historical_data : list HistoricalObservation) (k : segment) :
  let usable := usable_rows historical_data k in
  models (train_models fit feature_importances_ self historical_data) !! k =
    if decide (20 <= length usable)%nat
    then Some (fit usable) else models self !! k.
Proof. apply train_models_lookup_both. Qed.

(** After training a fresh forecaster the importance registry mirrors
    the model registry: a segment has an importance map exactly when it
    has a model, and the map pairs the nine feature names with that
    model's importances. *)
Theorem feature_importance_mirrors_models
    (historical_data : list HistoricalObservation) (k : segment) :
  let self := train_models fit feature_importances_ AdvancedForecaster_init
                historical_data in
  feature_importance self !! k
  = (fun model => zip feature_cols (feature_importances_ model)) <$> (models self !! k).
Proof.
  intros self. subst self.
  destruct (train_models_lookup_both AdvancedForecaster_init historical_data k)
    as [Hm Hf].
  cbv zeta in Hm, Hf. rewrite Hm, Hf.
  destruct (decide (20 <= _)%nat); [reflexivity|].
  cbn [models feature_importance AdvancedForecaster_init].
  rewrite !lookup_empty. reflexivity.
Qed.

End TrainingFacts.

(* --------------------------------------------------------------------- *)
(** *** How many rows of a segment survive the lag *)

Lemma filter_length_mono {A} (P Q : A -> Prop)
    `{!forall x, Decision (P x)} `{!forall x, Decision (Q x)} (l : list A) :
  (forall x, P x -> Q x) -> (length (filter P l) <= length (filter Q l))%nat.
Proof.
  intros Himp. induction l as [|x l IH]; [reflexivity|].
  rewrite !filter_cons.
  destruct (decide (P x)) as [HP|HP]; destruct (decide (Q x)) as [HQ|HQ];
    cbn [length]; try lia.
  exfalso. apply HQ, Himp, HP.
Qed.

Lemma group_rows_app {A} (key : A -> segment) k (l1 l2 : list A) :
  group_rows key k (l1 ++ l2) = group_rows key k l1 ++ group_rows key k l2.
Proof. unfold group_rows. apply filter_app. Qed.

Lemma shift7_is_Some df i r :
  is_Some (shift7 df i r) <->
  (7 <= length (group_rows segment_of (segment_of r) (take i df)))%nat.
Proof.
  unfold shift7. rewrite fmap_is_Some, lookup_lt_is_Some, length_reverse. lia.
Qed.

(** Among the rows [rest] that follow a prefix [pre], those of segment
    [k] whose lag is defined are all but the ones falling among the first
    seven of the segment. *)
Lemma lagged_rows_count k (F : nat -> HistoricalObservation -> FeatureRow) :
  forall rest pre,
    (forall j r, rest !! j = Some r ->
       observation (F (length pre + j)%nat r) = r /\
       (segment_of r = k ->
        (is_Some (Volume_Lag7 (F (length pre + j)%nat r)) <->
         (7 <= length (group_rows segment_of k (pre ++ take j rest)))%nat))) ->
    length (filter (fun fr => (segment_of ∘ observation) fr = k /\
                              is_Some (Volume_Lag7 fr))
              (imap (fun j => F (length pre + j)%nat) rest))
    = (length (group_rows segment_of k (pre ++ rest)) - 7
       - (length (group_rows segment_of k pre) - 7))%nat.
Proof.
  induction rest as [|r rest IH]; intros pre H.
  - cbn [imap]. rewrite app_nil_r, filter_nil. cbn [length]. lia.
  - cbn [imap].
    assert (Himap : imap ((fun j => F (length pre + j)%nat) ∘ S) rest
                    = imap (fun j => F (length (pre ++ [r]) + j)%nat) rest).
    { apply imap_ext. intros j x _. cbn [compose]. rewrite length_app.
      cbn [length]. f_equal. lia. }
    rewrite Himap. clear Himap.
    assert (Hsplit : pre ++ r :: rest = (pre ++ [r]) ++ rest)
      by (rewrite <- app_assoc; reflexivity).
    specialize (IH (pre ++ [r])).
    rewrite <- Hsplit in IH.
    assert (IHpre : forall j x, rest !! j = Some x ->
              observation (F (length (pre ++ [r]) + j)%nat x) = x /\
              (segment_of x = k ->
               (is_Some (Volume_Lag7 (F (length (pre ++ [r]) + j)%nat x)) <->
                (7 <= length (group_rows segment_of k
                                ((pre ++ [r]) ++ take j rest)))%nat))).
    { intros j x Hx. specialize (H (S j) x Hx).
      replace (length (pre ++ [r]) + j)%nat with (length pre + S j)%nat
        by (rewrite length_app; cbn [length]; lia).
      rewrite <- app_assoc. exact H. }
    specialize (IH IHpre). clear IHpre.
    destruct (H 0%nat r eq_refl) as [Hobs Hlag].
    rewrite take_0, app_nil_r in Hlag.
    rewrite group_rows_app in IH.
    rewrite !group_rows_app. rewrite !length_app in *.
    assert (Hone : group_rows segment_of k [r]
                   = if decide (segment_of r = k) then [r] else []).
    { unfold group_rows. rewrite filter_cons, filter_nil. reflexivity. }
    assert (Hcons : group_rows segment_of k (r :: rest)
                    = group_rows segment_of k [r] ++ group_rows segment_of k rest).
    { change (r :: rest) with ([r] ++ rest). apply group_rows_app. }
    rewrite Hcons, length_app. rewrite Hcons, length_app in IH.
    rewrite group_rows_app, length_app in IH.
    rewrite filter_cons.
    destruct (decide (segment_of r = k)) as [Hk|Hk].
    + rewrite Hone in *. cbn [length] in *.
      destruct (decide ((segment_of ∘ observation) (F (length pre + 0)%nat r) = k /\
                        is_Some (Volume_Lag7 (F (length pre + 0)%nat r))))
        as [[_ Hd]|Hn]; cbn [length]; rewrite IH.
      * apply (Hlag Hk) in Hd. lia.
      * assert (~ (7 <= length (group_rows segment_of k pre))%nat).
        { intros Hc. apply Hn. split; [cbn [compose]; rewrite Hobs; exact Hk|].
          by apply Hlag. }
        lia.
    + rewrite Hone in *. cbn [length] in *.
      rewrite decide_False.
      * rewrite IH. lia.
      * intros [Hc _]. cbn [compose] in Hc. rewrite Hobs in Hc. done.
Qed.

Lemma usable_rows_bound data k :
  (length (usable_rows data k)
   <= length (group_rows segment_of k data) - 7)%nat.
Proof.
  unfold usable_rows, dropna, group_rows at 1.
  rewrite list_filter_filter.
  etransitivity.
  { apply (filter_length_mono _
             (fun fr => (segment_of ∘ observation) fr = k /\
                        is_Some (Volume_Lag7 fr))).
    intros fr (Hk & Hl & _). done. }
  unfold prepare_features.
  pose proof (lagged_rows_count k
    (fun i r => {| observation := r;
                   Volume_Lag7 := shift7 data i r;
                   Volume_MA7 := mjoin (rolling7_values data !! i) |})
    data []) as Hcount.
  cbn [length Nat.add app] in Hcount.
  rewrite Hcount.
  - unfold group_rows at 2. rewrite filter_nil. cbn [length]. lia.
  - intros j r Hr. cbn [observation Volume_Lag7]. split; [reflexivity|].
    intros Hk. rewrite shift7_is_Some, Hk. reflexivity.
Qed.

Section TrainingNeedsHistory.

Context {Model : Type}.
Variable fit : list FeatureRow -> Model.
Variable feature_importances_ : Model -> list Q.

(** The lag costs every segment its first seven rows, so a fresh
    forecaster only ever holds a model for a segment with at least 27
    historical rows. *)
Theorem model_needs_27_rows (historical_data : list HistoricalObservation)
    (k : segment) :
  is_Some (models (train_models fit feature_importances_ AdvancedForecaster_init
                     historical_data) !! k) ->
  (27 <= length (group_rows segment_of k historical_data))%nat.
Proof.
  destruct (train_models_lookup_both fit feature_importances_
              AdvancedForecaster_init historical_data k) as [Hm _].
  cbv zeta in Hm. rewrite Hm.
  pose proof (usable_rows_bound historical_data k) as Hb.
  destruct (decide (20 <= _)%nat) as [H20|H20]; [lia|].
  cbn [models AdvancedForecaster_init]. rewrite lookup_empty.
  intros [? ?]. done.
Qed.

End TrainingNeedsHistory.

Lemma model_needs_27_rows_witness :
  (27 <= length (group_rows segment_of ("Morning", "B2B")%string
                   (one_segment_history 27)))%nat.
Proof.
  apply (model_needs_27_rows count_fit no_importances (one_segment_history 27)).
  vm_compute. eauto.
Defined.

(** [prepare_features] keeps every row in place, and a row's 7-period lag
    is defined exactly when at least seven rows of its own segment precede
    it in the table. *)
Theorem prepare_features_keeps_rows (df : list HistoricalObservation) :
  observation <$> prepare_features df = df /\
  forall i fr, prepare_features df !! i = Some fr ->
    df !! i = Some (observation fr) /\
    (is_Some (Volume_Lag7 fr) <->
     (7 <= length (group_rows segment_of (segment_of (observation fr))
                     (take i df)))%nat).
Proof.
  unfold prepare_features. split.
  - rewrite fmap_imap. cbn [compose observation].
    rewrite (imap_const id), list_fmap_id. reflexivity.
  - intros i fr Hfr. apply list_lookup_imap_Some in Hfr as (r & Hr & ->).
    cbn [observation Volume_Lag7]. split; [exact Hr|apply shift7_is_Some].
Qed.

(* --------------------------------------------------------------------- *)
(** *** A history holding a single segment *)

Lemma filter_ext_in {A} (P Q : A -> Prop)
    `{!forall x, Decision (P x)} `{!forall x, Decision (Q x)} (l : list A) :
  (forall x, x ∈ l -> (P x <-> Q x)) -> filter P l = filter Q l.
Proof.
  intros Hext. induction l as [|x l IH]; [reflexivity|].
  rewrite !filter_cons, IH by (intros y Hy; apply Hext; set_solver).
  destruct (decide (P x)) as [HP|HP]; destruct (decide (Q x)) as [HQ|HQ];
    try reflexivity; exfalso.
  - apply HQ, (Hext x); [set_solver|exact HP].
  - apply HP, (Hext x); [set_solver|exact HQ].
Qed.

Lemma segment_compare_refl k : segment_compare k k = Eq.
Proof.
  assert (Hs : forall s, String.compare s s = Eq).
  { intros s. pose proof (String.compare_antisym s s) as H.
    destruct (String.compare s s); simpl in H; congruence. }
  destruct k as [s o]. unfold segment_compare. cbn [fst snd]. by rewrite !Hs.
Qed.

Lemma group_rows_all {A} (key : A -> segment) k (l : list A) :
  Forall (fun r => key r = k) l -> group_rows key k l = l.
Proof.
  intros H. unfold group_rows. induction H as [|x l Hx _ IH]; [reflexivity|].
  rewrite filter_cons_True by done. by rewrite IH.
Qed.

Lemma group_keys_single {A} (key : A -> segment) k (l : list A) :
  Forall (fun r => key r = k) l -> l <> [] -> group_keys key l = [k].
Proof.
  unfold group_keys. intros H. induction H as [|x l Hx Hl IH]; [done|].
  intros _. cbn [fmap list_fmap foldr]. rewrite Hx.
  destruct l as [|y l]; [reflexivity|].
  fold (@fmap list _ _ _ key (y :: l)). 
  change (foldr insert_key [] (key <$> y :: l)) with
    (foldr insert_key [] (key <$> (y :: l))).
  rewrite IH by done. cbn [insert_key]. by rewrite segment_compare_refl.
Qed.

Lemma rolling7_mean_defined vols i :
  (i < length vols)%nat ->
  is_Some (mjoin (rolling7_mean vols !! i)) <-> (6 <= i)%nat.
Proof.
  intros Hi. unfold rolling7_mean. rewrite list_lookup_imap.
  destruct (lookup_lt_is_Some_2 vols i Hi) as [v ->]. cbn [fmap option_fmap option_map].
  destruct (Nat.leb_spec 6 i); cbn [mjoin option_join mbind option_bind]; split;
    intros H'; try lia; try done.
Qed.

Lemma usable_rows_single_segment data k :
  Forall (fun r => segment_of r = k) data ->
  length (usable_rows data k) = (length data - 7)%nat.
Proof.
  intros Hall.
  destruct data as [|r0 data0] eqn:Edata; [reflexivity|]. rewrite <- Edata in *.
  assert (Hne : data <> []) by (rewrite Edata; done).
  clear Edata r0 data0.
  unfold usable_rows, dropna, group_rows at 1.
  rewrite list_filter_filter.
  assert (Hma : rolling7_values data = rolling7_mean (OrderVolume <$> data)).
  { unfold rolling7_values. rewrite (group_keys_single _ k) by done.
    cbn [fmap list_fmap concat]. rewrite app_nil_r.
    by rewrite group_rows_all. }
  rewrite (filter_ext_in _
             (fun fr => (segment_of ∘ observation) fr = k /\
                        is_Some (Volume_Lag7 fr))).
  - unfold prepare_features.
    pose proof (lagged_rows_count k
      (fun i r => {| observation := r;
                     Volume_Lag7 := shift7 data i r;
                     Volume_MA7 := mjoin (rolling7_values data !! i) |})
      data []) as Hcount.
    cbn [length Nat.add app] in Hcount. rewrite Hcount.
    + rewrite group_rows_all by done.
      unfold group_rows. rewrite filter_nil. cbn [length]. lia.
    + intros j r Hr. cbn [observation Volume_Lag7]. split; [reflexivity|].
      intros Hk. rewrite shift7_is_Some, Hk. reflexivity.
  - intros fr Hfr. unfold prepare_features in Hfr.
    apply elem_of_lookup_imap_1 in Hfr as (i & r & -> & Hr).
    cbn [observation Volume_Lag7 Volume_MA7 compose].
    split; [intros (Hk & Hl & _); done|]. intros [Hk Hl].
    split; [exact Hk|]. split; [exact Hl|].
    apply shift7_is_Some in Hl.
    rewrite Hk, group_rows_all in Hl
      by (apply Forall_take; exact Hall).
    rewrite length_take in Hl.
    rewrite Hma. apply rolling7_mean_defined.
    + rewrite length_fmap. eapply lookup_lt_Some, Hr.
    + lia.
Qed.

Section SingleSegment.

Context {Model : Type}.
Variable fit : list FeatureRow -> Model.
Variable feature_importances_ : Model -> list Q.

(** For a history that holds a single segment the threshold on the raw
    table is exact: a fresh forecaster gets a model for it if and only if
    the history has at least 27 rows. *)
Theorem single_segment_needs_exactly_27 (historical_data : list HistoricalObservation)
    (k : segment) :
  Forall (fun r => segment_of r = k) historical_data ->
  (is_Some (models (train_models fit feature_importances_ AdvancedForecaster_init
                      historical_data) !! k)
   <-> (27 <= length historical_data)%nat).
Proof.
  intros Hall.
  destruct (train_models_lookup_both fit feature_importances_
              AdvancedForecaster_init historical_data k) as [Hm _].
  cbv zeta in Hm. rewrite Hm.
  pose proof (usable_rows_single_segment historical_data k Hall) as Hlen.
  destruct (decide (20 <= _)%nat) as [H20|H20].
  - split; [intros _; lia|eauto].
  - cbn [models AdvancedForecaster_init]. rewrite lookup_empty.
    split; [intros [? ?]; done|intros H27; exfalso; lia].
Qed.

End SingleSegment.

Lemma single_segment_needs_exactly_27_witness :
  is_Some (models (train_models count_fit no_importances AdvancedForecaster_init
                     (one_segment_history 27)) !! ("Morning", "B2B")%string)
  <-> (27 <= length (one_segment_history 27))%nat.
Proof.
  apply (single_segment_needs_exactly_27 count_fit no_importances
           (one_segment_history 27) ("Morning", "B2B")%string).
  unfold one_segment_history. apply Forall_fmap, Forall_forall.
  intros i _. reflexivity.
Defined.

(* ===================================================================== *)
(** ** Training: the threshold on usable rows *)
(* ===================================================================== *)

(* --------------------------------------------------------------------- *)
(** *** The group keys are sorted, hence distinct *)








(* --------------------------------------------------------------------- *)
(** *** A table ordered by segment gets its moving averages back in place *)







(* --------------------------------------------------------------------- *)
(** *** The usable rows of the specification *)






Section TrainingThreshold.

Context {Model : Type}.
Variable fit : list FeatureRow -> Model.
Variable feature_importances_ : Model -> list Q.


End TrainingThreshold.



(** Two segments of 27 days each, ordered segment by segment: each has
    exactly 20 usable rows and gets a model, fitted on 20 rows; with 26
    days each has 19 and gets none. *)
Example ordered_segments_at_the_threshold :
  ordered_by_segment (segment_ordered_history 27) /\
  length (spec_usable_rows (segment_ordered_history 27) ("Morning", "Express")%string)
  = 20%nat /\
  models (train_models count_fit no_importances AdvancedForecaster_init
            (segment_ordered_history 27)) !! ("Morning", "Express")%string
  = Some 20%nat /\
  length (spec_usable_rows (segment_ordered_history 26) ("Morning", "Express")%string)
  = 19%nat /\
  models (train_models count_fit no_importances AdvancedForecaster_init
            (segment_ordered_history 26)) !! ("Morning", "Express")%string
  = None.
Proof. repeat split; vm_compute; reflexivity. Qed.

(* ===================================================================== *)
(** ** The historical data simulation *)
(* ===================================================================== *)

Lemma py_max_ge_l a b : (a <= py_max a b)%Q.
Proof.
  unfold py_max. destruct (Qltb a b) eqn:E; [|apply Qle_refl].
  apply Qltb_true in E. lra.
Qed.

Lemma py_max_cases a b : (py_max a b == a /\ (b <= a)%Q) \/ (py_max a b == b /\ (a < b)%Q).
Proof.
  unfold py_max. destruct (Qltb a b) eqn:E.
  - right. apply Qltb_true in E. split; [reflexivity|exact E].
  - left. apply Qltb_false in E. split; [reflexivity|exact E].
Qed.

Lemma for_rows_Forall {G X Y} (P : Y -> Prop) (body : X -> G -> list Y * G) xs g :
  (forall x g', x ∈ xs -> Forall P (body x g').1) ->
  Forall P (for_rows body xs g).1.
Proof.
  revert g. induction xs as [|x xs IH]; intros g H; cbn [for_rows]; [constructor|].
  pose proof (H x g ltac:(set_solver)) as Hx.
  destruct (body x g) as [ys g1].
  specialize (IH g1 ltac:(intros; apply H; set_solver)).
  destruct (for_rows body xs g1) as [zs g2]. cbn [fst] in *.
  apply Forall_app. done.
Qed.

Lemma for_rows_fmap {G X Y K} (key : Y -> K) (slots : X -> list K)
    (body : X -> G -> list Y * G) xs g :
  (forall x g', key <$> (body x g').1 = slots x) ->
  key <$> (for_rows body xs g).1 = xs ≫= slots.
Proof.
  intros H. revert g. induction xs as [|x xs IH]; intros g; cbn [for_rows];
    [reflexivity|].
  pose proof (H x g) as Hx. destruct (body x g) as [ys g1].
  specialize (IH g1). destruct (for_rows body xs g1) as [zs g2]. cbn [fst] in *.
  rewrite fmap_app, Hx, IH. reflexivity.
Qed.

Lemma length_date_range start_date end_date :
  length (date_range start_date end_date)
  = Z.to_nat (toordinal end_date - toordinal start_date + 1).
Proof. unfold date_range. rewrite length_fmap. apply length_seqZ. Qed.

Section GeneratorFacts.

Variable rng : Type.
Variable seed : Z -> rng.
Variable poisson : Q -> rng -> Z * rng.
Variable randint : Z -> Z -> rng -> Z * rng.
Variable normal : Q -> Q -> rng -> Q * rng.
Variable isocalendar_week : date -> Z.
Variable sin_seasonal : Z -> Q.

Let generate :=
  Synth.generate_enhanced_historical_data rng seed poisson randint normal
    isocalendar_week sin_seasonal.

Lemma generate_row_slot d shift ot g :
  (fun r => (Synth.Date r, Synth.Shift r, Synth.OrderType r))
  <$> (Synth.generate_row rng poisson randint normal isocalendar_week
         sin_seasonal d shift ot g).1
  = [(d, shift, ot)].
Proof.
  unfold Synth.generate_row.
  destruct (poisson _ g) as [v g1]. destruct (randint _ _ g1) as [n g2].
  destruct (normal _ _ g2) as [p g3]. reflexivity.
Qed.

(** The generated table has one row per day of the range, shift and order
    type, laid out date by date, then shift by shift, in the order of the
    source lists: nine rows per day, none for an empty range. *)
Theorem generated_table_shape (start_date end_date : date) :
  (fun r => (Synth.Date r, Synth.Shift r, Synth.OrderType r))
  <$> generate start_date end_date
  = requested_slots (date_range start_date end_date) Synth.shifts Synth.order_types
  /\
  length (generate start_date end_date)
  = (9 * Z.to_nat (toordinal end_date - toordinal start_date + 1))%nat.
Proof.
  assert (Hslots :
    (fun r => (Synth.Date r, Synth.Shift r, Synth.OrderType r))
    <$> generate start_date end_date
    = requested_slots (date_range start_date end_date) Synth.shifts
        Synth.order_types).
  { unfold generate, Synth.generate_enhanced_historical_data, requested_slots.
    apply for_rows_fmap. intros d g.
    apply for_rows_fmap. intros shift g'.
    apply for_rows_fmap. intros ot g''.
    apply generate_row_slot. }
  split; [exact Hslots|].
  rewrite <- (length_fmap (fun r => (Synth.Date r, Synth.Shift r, Synth.OrderType r))).
  rewrite Hslots. unfold requested_slots.
  rewrite (list_bind_length_const _ _ 9).
  - rewrite length_date_range. lia.
  - intros d _. reflexivity.
Qed.

Lemma generate_row_plausible d shift ot g :
  Forall (fun r =>
      0 <= Synth.OrderVolume r /\
      2 <= Synth.StaffScheduled r <= 20 /\
      (8 <= Synth.Productivity r)%Q /\
      16 <= Synth.TotalPicks r /\
      (0 <= Synth.CapacityUtilization r <= 1)%Q /\
      (0 <= Synth.OvertimeHours r
       <= 0.4 * inject_Z (Synth.StaffScheduled r))%Q /\
      1 <= Synth.Staff_team_leads r <= Synth.Staff_hazmat_trained r /\
      Synth.Staff_hazmat_trained r <= Synth.Staff_forklift_certified r /\
      Synth.Staff_forklift_certified r <= Synth.Staff_experienced r /\
      Synth.Staff_experienced r <= Synth.StaffScheduled r)
    (Synth.generate_row rng poisson randint normal isocalendar_week
       sin_seasonal d shift ot g).1.
Proof.
  unfold Synth.generate_row.
  destruct (poisson _ g) as [v g1]. destruct (randint _ _ g1) as [n g2].
  destruct (normal _ _ g2) as [p g3]. cbn [fst].
  apply Forall_singleton.
  cbn [Synth.OrderVolume Synth.StaffScheduled Synth.Productivity Synth.TotalPicks
       Synth.CapacityUtilization Synth.OvertimeHours Synth.Staff_team_leads
       Synth.Staff_hazmat_trained Synth.Staff_forklift_certified
       Synth.Staff_experienced].
  set (ov := Z.max 0 v).
  set (staff := Z.max 2 (Z.min 20 _)).
  set (prod := py_max 8 p).
  assert (Hov : 0 <= ov) by (subst ov; lia).
  assert (Hstaff : 2 <= staff <= 20) by (subst staff; lia).
  assert (Hprod : (8 <= prod)%Q) by apply py_max_ge_l.
  assert (HstaffQ : (2 <= inject_Z staff)%Q).
  { change 2%Q with (inject_Z 2). rewrite <- Zle_Qle. lia. }
  assert (Hpicks : 16 <= py_int (inject_Z staff * prod)).
  { change 16 with (py_int 16). apply py_int_mono.
    apply Qle_trans with (2 * prod)%Q; [lra|].
    apply Qmult_le_compat_r; lra. }
  set (picks := py_int (inject_Z staff * prod)) in *.
  assert (Hpos : (0 <? picks) = true) by (apply Z.ltb_lt; lia).
  rewrite Hpos.
  assert (Hratio : (0 <= inject_Z ov / inject_Z picks)%Q).
  { apply Qle_shift_div_l; [apply inject_Z_pos; lia|].
    rewrite Qmult_0_l. apply inject_Z_nonneg, Hov. }
  set (cu := py_min 1.0 (inject_Z ov / inject_Z picks)).
  assert (Hcu : (0 <= cu <= 1)%Q).
  { subst cu. split.
    - rewrite py_min_Qmin. apply Q.min_glb; [unfold Qle; simpl; lia|exact Hratio].
    - apply Qle_trans with 1.0%Q; [apply py_min_le_l|unfold Qle; simpl; lia]. }
  assert (Hsk : forall x y : Q, (0 <= x)%Q -> (x <= y)%Q ->
            Z.max 1 (py_int (inject_Z staff * x))
            <= Z.max 1 (py_int (inject_Z staff * y))).
  { intros x y Hx Hxy. apply Z.max_le_compat_l, py_int_mono.
    rewrite !(Qmult_comm (inject_Z staff)). apply Qmult_le_compat_r; lra. }
  assert (Hexp : Z.max 1 (py_int (inject_Z staff * 0.7)) <= staff).
  { apply Z.max_lub; [lia|].
    replace staff with (py_int (inject_Z staff)) at 2
      by (unfold py_int; simpl; apply Z.quot_1_r).
    apply py_int_mono. lra. }
  change (inject_Z 8) with 8%Q.
  repeat split; try lia; try lra; try (apply Hsk; lra).
  - apply py_max_ge_l.
  - destruct (py_max_cases 0 ((cu - 0.95) * 8 * inject_Z staff)) as [[E _]|[E _]];
      rewrite E; [lra|].
    assert (Hbound : ((cu - 0.95) * 8 * inject_Z staff
                      <= 0.05 * 8 * inject_Z staff)%Q).
    { apply Qmult_le_compat_r; lra. }
    lra.
Qed.

(** Whatever the random draws, every generated row is plausible: a
    non-negative order volume, a crew of 2 to 20 people, a productivity
    of at least 8 and at least 16 picks, a utilisation between 0 and 1,
    overtime between 0 and (over exact rationals) 0.4 hours per person,
    and skill counts ordered team leads <= hazmat <= forklift <=
    experienced, from 1 up to the crew size.  (On doubles the overtime
    factor is a little above 0.4, see [generated_overtime_in_binary64].) *)
Theorem generated_rows_plausible (start_date end_date : date) (r : Synth.Row) :
  r ∈ generate start_date end_date ->
  0 <= Synth.OrderVolume r /\
  2 <= Synth.StaffScheduled r <= 20 /\
  (8 <= Synth.Productivity r)%Q /\
  16 <= Synth.TotalPicks r /\
  (0 <= Synth.CapacityUtilization r <= 1)%Q /\
  (0 <= Synth.OvertimeHours r <= 0.4 * inject_Z (Synth.StaffScheduled r))%Q /\
  1 <= Synth.Staff_team_leads r <= Synth.Staff_hazmat_trained r /\
  Synth.Staff_hazmat_trained r <= Synth.Staff_forklift_certified r /\
  Synth.Staff_forklift_certified r <= Synth.Staff_experienced r /\
  Synth.Staff_experienced r <= Synth.StaffScheduled r.
Proof.
  revert r. apply Forall_forall.
  unfold generate, Synth.generate_enhanced_historical_data.
  apply for_rows_Forall. intros d g _.
  apply for_rows_Forall. intros shift g' _.
  apply for_rows_Forall. intros ot g'' _.
  apply generate_row_plausible.
Qed.

End GeneratorFacts.

Lemma generated_rows_plausible_witness :
  0 <= Synth.OrderVolume demo_first_row /\
  2 <= Synth.StaffScheduled demo_first_row <= 20 /\
  (8 <= Synth.Productivity demo_first_row)%Q /\
  16 <= Synth.TotalPicks demo_first_row /\
  (0 <= Synth.CapacityUtilization demo_first_row <= 1)%Q /\
  (0 <= Synth.OvertimeHours demo_first_row
   <= 0.4 * inject_Z (Synth.StaffScheduled demo_first_row))%Q /\
  1 <= Synth.Staff_team_leads demo_first_row
    <= Synth.Staff_hazmat_trained demo_first_row /\
  Synth.Staff_hazmat_trained demo_first_row
    <= Synth.Staff_forklift_certified demo_first_row /\
  Synth.Staff_forklift_certified demo_first_row
    <= Synth.Staff_experienced demo_first_row /\
  Synth.Staff_experienced demo_first_row <= Synth.StaffScheduled demo_first_row.
Proof.
  apply (generated_rows_plausible Z demo_seed demo_poisson demo_randint demo_normal
           demo_week demo_sin monday {| toordinal := 738892 |} demo_first_row).
  vm_compute. left.
Defined.

(** The scenario of a one-week history: 7 dates x 3 shifts x 3 order
    types = 63 rows. *)
Example one_week_has_63_rows :
  length (demo_history monday {| toordinal := 738892 |}) = 63%nat.
Proof. vm_compute. reflexivity. Qed.

(* --------------------------------------------------------------------- *)
(** *** Training on generated history *)

Lemma filter_proj_length_NoDup {A B} `{EqDecision B} (f : A -> B) (k : B)
    (l : list A) :
  NoDup (f <$> l) -> (length (filter (fun x => f x = k) l) <= 1)%nat.
Proof.
  induction l as [|x l IH]; [simpl; lia|].
  cbn [fmap list_fmap]. intros Hnd. apply NoDup_cons in Hnd as [Hx Hl].
  rewrite filter_cons. destruct (decide (f x = k)) as [Hk|Hne]; [|by apply IH].
  cbn [length].
  assert (Hnil : filter (fun x => f x = k) l = []).
  { destruct (filter (fun x => f x = k) l) as [|y rest] eqn:E; [reflexivity|].
    assert (Hy : y ∈ filter (fun x => f x = k) l) by (rewrite E; set_solver).
    apply list_elem_of_filter in Hy as [Hyk Hy].
    exfalso. apply Hx. rewrite Hk, <- Hyk. apply list_elem_of_fmap_2, Hy. }
  rewrite Hnil. simpl. lia.
Qed.

Lemma filter_fmap_length {A B} (f : A -> B) (P : B -> Prop)
    `{!forall y, Decision (P y)} (l : list A) :
  length (filter P (f <$> l)) = length (filter (fun x => P (f x)) l).
Proof.
  induction l as [|x l IH]; [reflexivity|].
  cbn [fmap list_fmap]. rewrite !filter_cons.
  destruct (decide (P (f x))); cbn [length]; rewrite IH; reflexivity.
Qed.

Lemma filter_bind_length_le {A B} (P : B -> Prop) `{!forall y, Decision (P y)}
    (f : A -> list B) (l : list A) (n : nat) :
  (forall x, (length (filter P (f x)) <= n)%nat) ->
  (length (filter P (l ≫= f)) <= length l * n)%nat.
Proof.
  intros Hle. induction l as [|x l IH]; [simpl; lia|].
  cbn [mbind list_bind]. rewrite filter_app, length_app.
  specialize (Hle x). simpl. lia.
Qed.

Section GeneratedTraining.

Variable rng : Type.
Variable seed : Z -> rng.
Variable poisson : Q -> rng -> Z * rng.
Variable randint : Z -> Z -> rng -> Z * rng.
Variable normal : Q -> Q -> rng -> Q * rng.
Variable isocalendar_week : date -> Z.
Variable sin_seasonal : Z -> Q.
Context {Model : Type}.
Variable fit : list FeatureRow -> Model.
Variable feature_importances_ : Model -> list Q.

Let generate :=
  Synth.generate_enhanced_historical_data rng seed poisson randint normal
    isocalendar_week sin_seasonal.

Lemma generated_segment_rows start_date end_date k :
  (length (group_rows segment_of k
             (Synth.to_observation <$> generate start_date end_date))
   <= Z.to_nat (toordinal end_date - toordinal start_date + 1))%nat.
Proof.
  unfold group_rows. rewrite filter_fmap_length.
  assert (Hslots :
    (fun r => (Synth.Date r, Synth.Shift r, Synth.OrderType r))
    <$> generate start_date end_date
    = requested_slots (date_range start_date end_date) Synth.shifts
        Synth.order_types).
  { unfold generate, Synth.generate_enhanced_historical_data, requested_slots.
    apply for_rows_fmap. intros d g.
    apply for_rows_fmap. intros shift g'.
    apply for_rows_fmap. intros ot g''.
    apply generate_row_slot. }
  transitivity
    (length (filter (fun slot : date * string * string => (slot.1.2, slot.2) = k)
               ((fun r => (Synth.Date r, Synth.Shift r, Synth.OrderType r))
                <$> generate start_date end_date))).
  { rewrite filter_fmap_length. reflexivity. }
  rewrite Hslots. unfold requested_slots.
  rewrite <- length_date_range, <- (Nat.mul_1_r (length (date_range _ _))).
  apply filter_bind_length_le. intros d.
  apply (filter_proj_length_NoDup
           (fun slot : date * string * string => (slot.1.2, slot.2))).
  cbn. apply (bool_decide_unpack _). vm_compute. exact I.
Qed.

(** History generated for fewer than 27 days never trains a model: each
    segment has one row per day, and the lag alone takes seven of them. *)
Theorem generated_history_needs_27_days (start_date end_date : date) (k : segment) :
  is_Some (models (train_models fit feature_importances_ AdvancedForecaster_init
                     (Synth.to_observation <$> generate start_date end_date)) !! k) ->
  27 <= toordinal end_date - toordinal start_date + 1.
Proof.
  destruct (train_models_lookup_both fit feature_importances_
              AdvancedForecaster_init
              (Synth.to_observation <$> generate start_date end_date) k)
    as [Hm _].
  cbv zeta in Hm. rewrite Hm.
  pose proof (usable_rows_bound
                (Synth.to_observation <$> generate start_date end_date) k) as Hb.
  pose proof (generated_segment_rows start_date end_date k) as Hg.
  destruct (decide (20 <= _)%nat) as [H20|H20]; [lia|].
  cbn [models AdvancedForecaster_init]. rewrite lookup_empty.
  intros [? ?]. done.
Qed.

End GeneratedTraining.

Lemma generated_history_needs_27_days_witness :
  27 <= toordinal {| toordinal := 738916 |} - toordinal monday + 1.
Proof.
  apply (generated_history_needs_27_days Z demo_seed demo_poisson demo_randint
           demo_normal demo_week demo_sin count_fit no_importances
           monday {| toordinal := 738916 |} ("Morning", "E-commerce")%string).
  vm_compute. eauto.
Defined.

(** Thirty-one generated days, laid out date by date: the rolling mean is
    written back in segment order, and only four of the nine segments keep
    the twenty rows a model needs. *)
Example thirty_one_days_train_four_segments :
  map_to_list (models (train_models count_fit no_importances AdvancedForecaster_init
                 (Synth.to_observation
                    <$> demo_history monday {| toordinal := 738916 |}))) ≡ₚ
  [ (("Morning", "E-commerce"), 20%nat); (("Evening", "Express"), 20%nat);
    (("Evening", "B2B"), 20%nat); (("Night", "Express"), 20%nat) ]%string.
Proof. vm_compute. reflexivity. Qed.

(* ===================================================================== *)
(** ** The optimisation loop *)
(* ===================================================================== *)

Lemma optimize_rows_acc config rows acc :
  for_each
    (fun optimized_results row =>
       optimization_result ← optimize_shift_staffing config row;
       mret (optimized_results ++ [(row, optimization_result)]))
    rows acc
  = match optimize_rows config rows with
    | Ok results => Ok (acc ++ results)
    | Raise e => Raise e
    end.
Proof.
  unfold optimize_rows. revert acc.
  induction rows as [|row rows IH]; intros acc; cbn [for_each].
  - by rewrite app_nil_r.
  - destruct (optimize_shift_staffing config row) as [r|e];
      cbn [mbind outcome_bind mret outcome_ret]; [|reflexivity].
    rewrite (IH (acc ++ [(row, r)])), (IH ([] ++ [(row, r)])).
    destruct (for_each _ rows []) as [results|e]; [|reflexivity].
    by rewrite <- !app_assoc.
Qed.

Lemma optimize_rows_cons config row rows :
  optimize_rows config (row :: rows)
  = match optimize_shift_staffing config row with
    | Raise e => Raise e
    | Ok r => match optimize_rows config rows with
              | Raise e => Raise e
              | Ok results => Ok ((row, r) :: results)
              end
    end.
Proof.
  unfold optimize_rows at 1. cbn [for_each].
  destruct (optimize_shift_staffing config row) as [r|e];
    cbn [mbind outcome_bind mret outcome_ret]; [|reflexivity].
  rewrite optimize_rows_acc. reflexivity.
Qed.

(** The loop returns exactly when every row's search returns, and then
    it pairs each row, in order, with the result of its search. *)
Lemma optimize_rows_Ok config rows results :
  optimize_rows config rows = Ok results <->
  Forall2 (fun row p => p.1 = row /\ optimize_shift_staffing config row = Ok p.2)
          rows results.
Proof.
  revert results. induction rows as [|row rows IH]; intros results.
  - split.
    + intros [= <-]. constructor.
    + intros H. inversion H. reflexivity.
  - rewrite optimize_rows_cons. split.
    + destruct (optimize_shift_staffing config row) as [r|e] eqn:Er; [|done].
      destruct (optimize_rows config rows) as [rs|e] eqn:Ers; [|done].
      intros [= <-]. constructor; [done|]. by apply IH.
    + intros H. inversion H as [|? [row' r] ? rs [Hrow Hr] Hrest]; subst.
      cbn [fst snd] in *. rewrite Hr.
      apply IH in Hrest. rewrite Hrest. reflexivity.
Qed.


(** With valid staff bounds and a rate for every weekday the loop never
    raises: it returns one result per row, in row order, each the result
    of that row's search and each within the staff bounds. *)
Theorem optimize_rows_one_result_per_row config rows :
  MIN_STAFF_PER_SHIFT config <= MAX_STAFF_PER_SHIFT config ->
  (7 <= length (ABSENTEEISM_RATES config))%nat ->
  exists results,
    optimize_rows config rows = Ok results /\
    results.*1 = rows /\
    Forall (fun p =>
        optimize_shift_staffing config p.1 = Ok p.2 /\
        MIN_STAFF_PER_SHIFT config <= OptimalStaff p.2 <= MAX_STAFF_PER_SHIFT config)
      results.
Proof.
  intros Hbounds Hrates.
  induction rows as [|row rows (results & Hres & Hfst & Hall)].
  - exists []. repeat split; constructor.
  - pose proof (rate_defined_seven config (Date row) Hrates) as Hrate.
    destruct (candidate_metrics config row Hrate) as [cm Hcm].
    destruct (optimize_shift_staffing_spec config row cm Hcm Hbounds)
      as (r & _ & _ & Hr & _).
    exists ((row, r) :: results). rewrite optimize_rows_cons, Hr, Hres.
    split; [reflexivity|]. split; [cbn; by rewrite Hfst|].
    constructor; [|exact Hall]. cbn [fst snd]. split; [exact Hr|].
    exact (optimize_shift_staffing_in_range config row r Hr).
Qed.

Lemma optimize_rows_one_result_per_row_witness :
  exists results,
    optimize_rows default_config [row_feasible; row_infeasible] = Ok results /\
    results.*1 = [row_feasible; row_infeasible] /\
    Forall (fun p =>
        optimize_shift_staffing default_config p.1 = Ok p.2 /\
        MIN_STAFF_PER_SHIFT default_config <= OptimalStaff p.2
          <= MAX_STAFF_PER_SHIFT default_config)
      results.
Proof.
  apply (optimize_rows_one_result_per_row default_config [row_feasible; row_infeasible]).
  - simpl. lia.
  - simpl. lia.
Defined.

(* ===================================================================== *)
(** ** The HTTP handlers *)
(* ===================================================================== *)

Lemma except_500_status {A} (body : Api.attempt A) status_code :
  Api.except_500 body = Api.HTTPException status_code -> status_code = 500.
Proof. destruct body; [done|]. by intros [= <-]. Qed.

(** [/api/v1/optimize] never answers 503: an optimiser that is not loaded
    and an empty [forecast_data] both end as status 500, as does every
    other failure. *)
Theorem optimize_staffing_failures_are_500 :
  (forall forecast_data,
     Api.optimize_staffing None forecast_data = Api.HTTPException 500) /\
  (forall config,
     Api.optimize_staffing (Some config) [] = Api.HTTPException 500) /\
  (forall optimizer forecast_data status_code,
     Api.optimize_staffing optimizer forecast_data = Api.HTTPException status_code ->
     status_code = 500).
Proof.
  split; [reflexivity|]. split; [reflexivity|].
  intros optimizer forecast_data status_code. apply except_500_status.
Qed.

(** A completed loop has optimised every row, so every row carried a
    date object, and it returns one result per row. *)
Lemma optimize_request_rows_done config rows acc total results total' :
  Api.optimize_request_rows config rows acc total = Api.Done (results, total') ->
  Forall (fun row => Api.json_serializable (Api.Date row) = false) rows /\
  length results = (length acc + length rows)%nat.
Proof.
  revert acc total. induction rows as [|row rows IH]; intros acc total;
    cbn [Api.optimize_request_rows].
  - intros [= <- <-]. split; [constructor|]. cbn [length]. lia.
  - unfold Api.optimize_request_row.
    destruct (Api.Date row) as [j|d] eqn:Edate.
    + destruct (MAX_STAFF_PER_SHIFT config <? MIN_STAFF_PER_SHIFT config); done.
    + destruct (optimize_shift_staffing config _) as [result|e]; [|done].
      intros Hdone. destruct (IH _ _ Hdone) as [Hall Hlen].
      split; [constructor; [rewrite Edate; reflexivity|exact Hall]|].
      rewrite Hlen, length_app. cbn [length]. lia.
Qed.

(** [/api/v1/optimize] never produces a response.  Without an optimiser
    and on an empty request the handler fails as shown above; a row whose
    ['Date'] is a JSON value stops the search at [date.weekday()]; and a
    request whose rows all carry date objects is optimised but cannot be
    written to the audit log.  Every call ends as status 500. *)
Theorem optimize_staffing_never_responds (optimizer : option StaffingConfig)
    (forecast_data : list Api.RequestRow) :
  Api.optimize_staffing optimizer forecast_data = Api.HTTPException 500.
Proof.
  unfold Api.optimize_staffing, Api.optimize_staffing_body.
  destruct optimizer as [config|]; [|reflexivity].
  destruct (Api.optimize_request_rows config forecast_data [] (Finite 0))
    as [[results total]|e] eqn:Eloop; [|reflexivity].
  destruct results as [|result results]; [reflexivity|].
  destruct (optimize_request_rows_done _ _ _ _ _ _ Eloop) as [Hall Hlen].
  destruct forecast_data as [|row rows]; [cbn [length] in Hlen; lia|].
  inversion Hall as [|? ? Hrow _]; subst.
  unfold Api.log_optimization_run. cbn [forallb]. rewrite Hrow. reflexivity.
Qed.

(** Both ways of failing on a non-empty request, on the default
    configuration: a date given as a JSON string ends the first cost
    evaluation, a date object ends the audit step. *)
Example optimize_staffing_rejects_both_date_forms :
  Api.optimize_staffing_body (Some default_config)
    [ Api.Build_RequestRow (Api.JsonValue (Api.JString "2024-05-01"))
        "Morning" "E-commerce" 150 127 172 22.5 ]
  = Api.Failed Api.AttributeError /\
  Api.optimize_staffing_body (Some default_config)
    [ Api.Build_RequestRow (Api.DateValue thursday)
        "Morning" "E-commerce" 150 127 172 22.5 ]
  = Api.Failed Api.NotSerializable.
Proof. split; vm_compute; reflexivity. Qed.

(** The API as wired never forecasts: [initialize_models] installs a
    forecaster that was never trained, so the service reports ready and
    [/api/v1/forecast] answers every request whose dates parse with an
    empty list (and 500 otherwise).  Before initialisation the same
    request ends as status 500, not 503, while the readiness probe
    answers 503. *)
Theorem api_forecasts_nothing {Model : Type} (predict : Model -> date -> Q)
    (to_datetime : string -> option date) (st : Api.app_state Model)
    (request : Api.ForecastRequest) :
  Api.readiness_check (Api.initialize_models st) = Api.Respond tt /\
  Api.generate_forecast predict to_datetime (Api.initialize_models st) request
  = match to_datetime (Api.start_date request), to_datetime (Api.end_date request) with
    | Some _, Some _ => Api.Respond []
    | _, _ => Api.HTTPException 500
    end /\
  Api.generate_forecast predict to_datetime Api.initial_state request
  = Api.HTTPException 500 /\
  Api.readiness_check (Model := Model) Api.initial_state = Api.HTTPException 503.
Proof.
  split; [reflexivity|]. split; [|split; reflexivity].
  unfold Api.generate_forecast, Api.generate_forecast_body.
  cbn [Api.forecaster Api.initialize_models].
  destruct (to_datetime (Api.start_date request)) as [s|]; [|reflexivity].
  destruct (to_datetime (Api.end_date request)) as [e|]; [|reflexivity].
  cbn [Api.except_500]. f_equal. unfold forecast_demand.
  apply list_bind_all_nil. intros d _.
  apply list_bind_all_nil. intros shift _.
  apply list_bind_all_nil. intros ot _.
  cbn [models AdvancedForecaster_init]. rewrite lookup_empty. reflexivity.
Qed.

(* ===================================================================== *)
(** ** The mock key-value store *)
(* ===================================================================== *)

(** After [set] the key exists and [get] returns the stored value,
    whatever expiry was passed; every other key is as it was. *)
Theorem mock_redis_set_then_get {V : Type} (data : MockRedis.store V)
    (key : string) (value : option V) (ex : option Z) :
  (MockRedis.set data key value ex).1 = true /\
  MockRedis.get (MockRedis.set data key value ex).2 key = value /\
  MockRedis.exists_ (MockRedis.set data key value ex).2 key = true /\
  forall other, other <> key ->
    MockRedis.get (MockRedis.set data key value ex).2 other = MockRedis.get data other /\
    MockRedis.exists_ (MockRedis.set data key value ex).2 other
    = MockRedis.exists_ data other.
Proof.
  unfold MockRedis.set, MockRedis.get, MockRedis.exists_, MockRedis.store in *.
  cbn [fst snd].
  split; [reflexivity|]. split; [by rewrite lookup_insert_eq|].
  split; [rewrite lookup_insert_eq; by apply bool_decide_eq_true|].
  intros other Hother. by rewrite lookup_insert_ne.
Qed.

(** [delete] always removes the key and leaves the others alone, but its
    answer follows the stored value, not the key: it is [True] exactly
    when [get] returned something other than [None] before, so a key set
    to [None] exists and is still reported as not deleted. *)
Theorem mock_redis_delete {V : Type} (data : MockRedis.store V) (key : string) :
  ((MockRedis.delete data key).1 = true <-> is_Some (MockRedis.get data key)) /\
  MockRedis.exists_ (MockRedis.delete data key).2 key = false /\
  MockRedis.get (MockRedis.delete data key).2 key = None /\
  (forall other, other <> key ->
     MockRedis.get (MockRedis.delete data key).2 other = MockRedis.get data other /\
     MockRedis.exists_ (MockRedis.delete data key).2 other
     = MockRedis.exists_ data other) /\
  (forall ex,
     MockRedis.exists_ (MockRedis.set data key None ex).2 key = true /\
     (MockRedis.delete (MockRedis.set data key None ex).2 key).1 = false).
Proof.
  unfold MockRedis.delete, MockRedis.set, MockRedis.get, MockRedis.exists_,
    MockRedis.store in *.
  cbn [fst snd].
  split; [apply bool_decide_eq_true|].
  split; [rewrite lookup_delete_eq; apply bool_decide_eq_false; by intros [? ?]|].
  split; [by rewrite lookup_delete_eq|].
  split; [intros other Hother; by rewrite lookup_delete_ne|].
  intros ex. rewrite lookup_insert_eq. split.
  - by apply bool_decide_eq_true.
  - apply bool_decide_eq_false. by intros [? ?].
Qed.

(* ===================================================================== *)
(** ** Where rounding shows: exact statements evaluated on doubles *)
(* ===================================================================== *)

(** On a Monday, four people and 125 e-commerce orders: the doubles give
    a service level just below 1 although each person works only about
    four of the sixteen overtime hours the crew could work. *)
Example shortfall_before_full_overtime_in_binary64 :
  exists c,
    Binary64.calculate_capacity Binary64.default_capacity_config
      4 125 "E-commerce" monday = Ok c /\
    PrimFloat.ltb (Binary64.service_level c) 1 = true /\
    PrimFloat.ltb (Binary64.overtime_hours c) (Binary64.of_int (4 * 4)) = true.
Proof. eexists. split; [vm_compute; reflexivity|]. split; vm_compute; reflexivity. Qed.

(** On a Monday, two people and 65 e-commerce orders: the overtime hours
    times the productivity come out above the shortage they were computed
    from. *)
Example overtime_work_above_shortage_in_binary64 :
  exists c,
    Binary64.calculate_capacity Binary64.default_capacity_config
      2 65 "E-commerce" monday = Ok c /\
    PrimFloat.ltb
      (PrimFloat.sub (Binary64.of_int 65) (Binary64.total_capacity c))
      (PrimFloat.mul (Binary64.overtime_hours c) (Binary64.of_int 18)) = true.
Proof. eexists. split; [vm_compute; reflexivity|]. vm_compute. reflexivity. Qed.

(** The overtime of a generated row at utilisation 1.0,
    [(1.0 - 0.95) * 8 * staff], is above [0.4 * staff] on doubles. *)
Example generated_overtime_in_binary64 :
  PrimFloat.ltb
    (PrimFloat.mul 0.4%float (Binary64.of_int 10))
    (PrimFloat.mul (PrimFloat.mul (PrimFloat.sub 1%float 0.95%float)
                                  (Binary64.of_int 8))
                   (Binary64.of_int 10)) = true.
Proof. vm_compute. reflexivity. Qed.
